(** * SDL_gpu_shadercross: a shallow embedding of the translation kernel

    The development follows [SDL_gpu_shadercross.c]: the SPIRV-Cross driver
    [SDL_ShaderCross_INTERNAL_TranspileFromSPIRV] with its two MSL resource
    remappers, the two reflection passes, the translation chains built on
    top of them, and the backend loader ([SDL_ShaderCross_Init],
    [SDL_ShaderCross_Quit], [SDL_ShaderCross_GetSPIRVShaderFormats]).

    SPIRV-Cross, DXC and D3DCompile are external libraries.  They appear
    here as records of functions (one field per C entry point the code
    calls); every definition of the program takes them as arguments, so
    every theorem holds for whatever those libraries answer. *)

From Stdlib Require Import ZArith List String Bool Lia Permutation Ascii.
Import ListNotations.
Local Open Scope string_scope.
Local Open Scope list_scope.
Local Open Scope Z_scope.

(** ** Machine integers *)

(** [unsigned int] and [Uint32]: conversion of an integer value to the
    32-bit unsigned range.  [size_t] operands are converted the same way
    when they are stored in an [unsigned] field, so the width of [size_t]
    plays no role. *)
Definition to_unsigned (z : Z) : Z := z mod 2 ^ 32.

(** [a + b] evaluated and stored in an [unsigned int]. *)
Definition add_unsigned (a b : Z) : Z := to_unsigned (a + b).

(** A C string is a Rocq [string]; a byte buffer is a list of bytes, its
    [size] argument is the length of the list. *)
Definition bytes := list Byte.byte.
Definition size_of (b : bytes) : Z := Z.of_nat (List.length b).

(** ** Enumerations of the public header and of SPIRV-Cross *)

Inductive SDL_ShaderCross_ShaderStage :=
| SDL_SHADERCROSS_SHADERSTAGE_VERTEX
| SDL_SHADERCROSS_SHADERSTAGE_FRAGMENT
| SDL_SHADERCROSS_SHADERSTAGE_COMPUTE.

Inductive spvc_backend :=
| SPVC_BACKEND_NONE
| SPVC_BACKEND_HLSL
| SPVC_BACKEND_MSL.

Inductive SpvExecutionModel :=
| SpvExecutionModelVertex
| SpvExecutionModelFragment
| SpvExecutionModelGLCompute
| SpvExecutionModelKernel.

Inductive spvc_resource_type :=
| SPVC_RESOURCE_TYPE_SAMPLED_IMAGE
| SPVC_RESOURCE_TYPE_SEPARATE_SAMPLERS
| SPVC_RESOURCE_TYPE_STORAGE_IMAGE
| SPVC_RESOURCE_TYPE_STORAGE_BUFFER
| SPVC_RESOURCE_TYPE_UNIFORM_BUFFER.

Inductive SpvDecoration :=
| SpvDecorationDescriptorSet
| SpvDecorationBinding.

Inductive spvc_compiler_option :=
| SPVC_COMPILER_OPTION_HLSL_SHADER_MODEL
| SPVC_COMPILER_OPTION_HLSL_NONWRITABLE_UAV_TEXTURE_AS_SRV
| SPVC_COMPILER_OPTION_HLSL_FLATTEN_MATRIX_VERTEX_INPUT_SEMANTICS.

Definition stage_eqb (a b : SDL_ShaderCross_ShaderStage) : bool :=
  match a, b with
  | SDL_SHADERCROSS_SHADERSTAGE_VERTEX, SDL_SHADERCROSS_SHADERSTAGE_VERTEX
  | SDL_SHADERCROSS_SHADERSTAGE_FRAGMENT, SDL_SHADERCROSS_SHADERSTAGE_FRAGMENT
  | SDL_SHADERCROSS_SHADERSTAGE_COMPUTE, SDL_SHADERCROSS_SHADERSTAGE_COMPUTE => true
  | _, _ => false
  end.

Definition backend_eqb (a b : spvc_backend) : bool :=
  match a, b with
  | SPVC_BACKEND_NONE, SPVC_BACKEND_NONE
  | SPVC_BACKEND_HLSL, SPVC_BACKEND_HLSL
  | SPVC_BACKEND_MSL, SPVC_BACKEND_MSL => true
  | _, _ => false
  end.

(** ** The SPIRV-Cross C API, as the code sees it *)

(** [spvc_result]: [SPVC_SUCCESS] is 0, every error code is negative; the
    code only ever tests [result < 0]. *)
Definition spvc_result := Z.
Definition failed (result : spvc_result) : bool := result <? 0.

(** A reflected resource with the decorations the compiler knows for its
    id.  [None] is an absent decoration. *)
Record spvc_reflected_resource := {
  id : Z;
  DescriptorSet : option Z;
  Binding : option Z
}.

Definition decoration (r : spvc_reflected_resource) (d : SpvDecoration) : option Z :=
  match d with
  | SpvDecorationDescriptorSet => DescriptorSet r
  | SpvDecorationBinding => Binding r
  end.

Definition spvc_compiler_has_decoration (r : spvc_reflected_resource) (d : SpvDecoration) : bool :=
  match decoration r d with Some _ => true | None => false end.

(** The value comes back as an [unsigned]; SPIRV-Cross answers 0 for a
    decoration that is not there. *)
Definition spvc_compiler_get_decoration (r : spvc_reflected_resource) (d : SpvDecoration) : Z :=
  match decoration r d with Some v => to_unsigned v | None => 0 end.

(** [spvc_msl_resource_binding].  The code declares one such struct without
    initialising it and overwrites some of its fields before each call, so
    a field is either indeterminate ([None]) or holds the value last
    written. *)
Record spvc_msl_resource_binding := {
  stage : option SpvExecutionModel;
  desc_set : option Z;
  binding : option Z;
  msl_buffer : option Z;
  msl_texture : option Z;
  msl_sampler : option Z
}.

Definition uninitialized_binding : spvc_msl_resource_binding :=
  {| stage := None; desc_set := None; binding := None;
     msl_buffer := None; msl_texture := None; msl_sampler := None |}.

Definition set_stage (b : spvc_msl_resource_binding) (v : SpvExecutionModel) :=
  {| stage := Some v; desc_set := desc_set b; binding := binding b;
     msl_buffer := msl_buffer b; msl_texture := msl_texture b; msl_sampler := msl_sampler b |}.
Definition set_desc_set (b : spvc_msl_resource_binding) (v : Z) :=
  {| stage := stage b; desc_set := Some v; binding := binding b;
     msl_buffer := msl_buffer b; msl_texture := msl_texture b; msl_sampler := msl_sampler b |}.
Definition set_binding (b : spvc_msl_resource_binding) (v : Z) :=
  {| stage := stage b; desc_set := desc_set b; binding := Some v;
     msl_buffer := msl_buffer b; msl_texture := msl_texture b; msl_sampler := msl_sampler b |}.
Definition set_msl_buffer (b : spvc_msl_resource_binding) (v : Z) :=
  {| stage := stage b; desc_set := desc_set b; binding := binding b;
     msl_buffer := Some v; msl_texture := msl_texture b; msl_sampler := msl_sampler b |}.
Definition set_msl_texture (b : spvc_msl_resource_binding) (v : Z) :=
  {| stage := stage b; desc_set := desc_set b; binding := binding b;
     msl_buffer := msl_buffer b; msl_texture := Some v; msl_sampler := msl_sampler b |}.
Definition set_msl_sampler (b : spvc_msl_resource_binding) (v : Z) :=
  {| stage := stage b; desc_set := desc_set b; binding := binding b;
     msl_buffer := msl_buffer b; msl_texture := msl_texture b; msl_sampler := Some v |}.

(** The compiler object ([spvc_compiler]) for one parsed module: what each
    API call answers.  [spvc_compiler_compile] sees the options that were
    installed and the resource bindings that were added. *)
Record spvc_compiler := {
  spvc_compiler_create_compiler_options : spvc_result;
  spvc_compiler_create_shader_resources : spvc_result;
  spvc_resources_get_resource_list_for_type :
    spvc_resource_type -> spvc_result * list spvc_reflected_resource;
  spvc_compiler_msl_add_resource_binding : spvc_msl_resource_binding -> spvc_result;
  spvc_compiler_install_compiler_options : list (spvc_compiler_option * Z) -> spvc_result;
  spvc_compiler_compile :
    list (spvc_compiler_option * Z) -> list spvc_msl_resource_binding -> spvc_result * string;
  spvc_compiler_get_execution_model : SpvExecutionModel;
  spvc_compiler_get_cleansed_entry_point_name : string -> SpvExecutionModel -> string;
  (** [spvc_compiler_get_execution_mode_argument_by_index (compiler, SpvExecutionModeLocalSize, i)] *)
  LocalSize : Z -> Z
}.

(** The parsed IR: [spvc_context_create_compiler] on it, per backend. *)
Record spvc_parsed_ir := {
  spvc_context_create_compiler : spvc_backend -> option spvc_compiler
}.

(** The library itself: context creation and the parser, which receives the
    buffer and the word count [codeSize / sizeof(SpvId)]. *)
Record spvc_library := {
  spvc_context_create : spvc_result;
  spvc_context_parse_spirv : bytes -> Z -> option spvc_parsed_ir
}.

(** ** Early return *)

(** Every failure path of the driver destroys the context and returns
    [NULL]; [None] stands for that. *)
Notation "x <- e ;; k" :=
  (match e with Some x => k | None => None end)
  (at level 61, e at next level, right associativity).

Notation "'guard' c ;; k" :=
  (if c then k else None)
  (at level 61, c at next level, right associativity).

(** A [for] loop over the reflected resources whose body may return
    [NULL] from the enclosing function. *)
Fixpoint for_each {S A : Type} (body : S -> A -> option S) (l : list A) (s : S) : option S :=
  match l with
  | [] => Some s
  | x :: l' => s' <- body s x ;; for_each body l' s'
  end.

(** ** The MSL resource remappers *)

Inductive resource_kind :=
| TextureSampler
| StorageTexture
| StorageBuffer
| UniformBuffer.

(** One call of [spvc_compiler_msl_add_resource_binding]: the resource the
    loop was visiting, the kind of the list it came from, and the struct
    that was passed. *)
Record binding_call := {
  kind : resource_kind;
  res : spvc_reflected_resource;
  arg : spvc_msl_resource_binding
}.

(** The locals the remapping loops share. *)
Record remap_state := {
  local_binding : spvc_msl_resource_binding;
  result : spvc_result;
  num_textures : Z;
  num_buffers : Z;
  calls : list binding_call
}.

Definition with_result (st : remap_state) (r : spvc_result) : remap_state :=
  {| local_binding := local_binding st; result := r;
     num_textures := num_textures st; num_buffers := num_buffers st;
     calls := calls st |}.

(** The check every validating loop starts with. *)
Definition has_set_and_binding (r : spvc_reflected_resource) : bool :=
  spvc_compiler_has_decoration r SpvDecorationDescriptorSet
  && spvc_compiler_has_decoration r SpvDecorationBinding.

(** The three assignments every loop body makes first. *)
Definition fill_binding (b : spvc_msl_resource_binding) (executionModel : SpvExecutionModel)
  (descriptor_set_index binding_index : Z) : spvc_msl_resource_binding :=
  set_binding (set_desc_set (set_stage b executionModel) descriptor_set_index) binding_index.

(** Combined texture-samplers, falling back to the separate samplers of
    HLSL-origin modules when there is no sampled image.  The same prologue
    opens both remappers and both reflection passes. *)
Definition texture_sampler_list (compiler : spvc_compiler)
  : option (spvc_result * list spvc_reflected_resource) :=
  let '(result, reflected_resources) :=
    spvc_resources_get_resource_list_for_type compiler SPVC_RESOURCE_TYPE_SAMPLED_IMAGE in
  guard negb (failed result) ;;
  if Z.of_nat (List.length reflected_resources) =? 0 then
    let '(result, reflected_resources) :=
      spvc_resources_get_resource_list_for_type compiler SPVC_RESOURCE_TYPE_SEPARATE_SAMPLERS in
    guard negb (failed result) ;;
    Some (result, reflected_resources)
  else Some (result, reflected_resources).

Definition resource_list (compiler : spvc_compiler) (t : spvc_resource_type)
  : option (spvc_result * list spvc_reflected_resource) :=
  let '(result, reflected_resources) :=
    spvc_resources_get_resource_list_for_type compiler t in
  guard negb (failed result) ;;
  Some (result, reflected_resources).

(** [spvc_compiler_msl_add_resource_binding(compiler, &binding)] is called
    with the struct [b]; the struct stays in the local and the call is
    recorded. *)
Definition add_resource_binding (st : remap_state) (k : resource_kind)
  (r : spvc_reflected_resource) (b : spvc_msl_resource_binding) : remap_state :=
  {| local_binding := b; result := result st;
     num_textures := num_textures st; num_buffers := num_buffers st;
     calls := calls st ++ [{| kind := k; res := r; arg := b |}] |}.

Definition bump_textures (st : remap_state) : remap_state :=
  {| local_binding := local_binding st; result := result st;
     num_textures := add_unsigned (num_textures st) 1; num_buffers := num_buffers st;
     calls := calls st |}.

Definition bump_buffers (st : remap_state) : remap_state :=
  {| local_binding := local_binding st; result := result st;
     num_textures := num_textures st; num_buffers := add_unsigned (num_buffers st) 1;
     calls := calls st |}.

(** *** Vertex and fragment stages *)

Section RemapLoops.
Variable compiler : spvc_compiler.
Variable executionModel : SpvExecutionModel.

Definition graphics_texture_sampler (st : remap_state) (r : spvc_reflected_resource)
  : option remap_state :=
  guard has_set_and_binding r ;;
  let descriptor_set_index := spvc_compiler_get_decoration r SpvDecorationDescriptorSet in
  guard (descriptor_set_index =? 0) || (descriptor_set_index =? 2) ;;
  let binding_index := spvc_compiler_get_decoration r SpvDecorationBinding in
  let b := fill_binding (local_binding st) executionModel descriptor_set_index binding_index in
  let b := set_msl_texture b binding_index in
  let b := set_msl_sampler b binding_index in
  let st := add_resource_binding st TextureSampler r b in
  let st := with_result st (spvc_compiler_msl_add_resource_binding compiler b) in
  guard negb (failed (result st)) ;;
  Some st.

(** In the three loops below the result of the call is dropped, and the
    test that follows reads the [result] of the last list query. *)
Definition graphics_storage_texture (num_texture_samplers : Z)
  (st : remap_state) (r : spvc_reflected_resource) : option remap_state :=
  guard has_set_and_binding r ;;
  let descriptor_set_index := spvc_compiler_get_decoration r SpvDecorationDescriptorSet in
  guard (descriptor_set_index =? 0) || (descriptor_set_index =? 2) ;;
  let binding_index := spvc_compiler_get_decoration r SpvDecorationBinding in
  let b := fill_binding (local_binding st) executionModel descriptor_set_index binding_index in
  let b := set_msl_texture b (add_unsigned num_texture_samplers binding_index) in
  let st := add_resource_binding st StorageTexture r b in
  guard negb (failed (result st)) ;;
  Some st.

Definition graphics_storage_buffer (st : remap_state) (r : spvc_reflected_resource)
  : option remap_state :=
  guard has_set_and_binding r ;;
  let descriptor_set_index := spvc_compiler_get_decoration r SpvDecorationDescriptorSet in
  guard (descriptor_set_index =? 0) || (descriptor_set_index =? 2) ;;
  let binding_index := spvc_compiler_get_decoration r SpvDecorationBinding in
  let b := fill_binding (local_binding st) executionModel descriptor_set_index binding_index in
  let b := set_msl_buffer b binding_index in
  let st := add_resource_binding st StorageBuffer r b in
  guard negb (failed (result st)) ;;
  Some st.

Definition graphics_uniform_buffer (num_storage_buffers : Z)
  (st : remap_state) (r : spvc_reflected_resource) : option remap_state :=
  guard has_set_and_binding r ;;
  let descriptor_set_index := spvc_compiler_get_decoration r SpvDecorationDescriptorSet in
  guard (descriptor_set_index =? 1) || (descriptor_set_index =? 3) ;;
  let binding_index := spvc_compiler_get_decoration r SpvDecorationBinding in
  let b := fill_binding (local_binding st) executionModel descriptor_set_index binding_index in
  let b := set_msl_buffer b (add_unsigned num_storage_buffers binding_index) in
  let st := add_resource_binding st UniformBuffer r b in
  guard negb (failed (result st)) ;;
  Some st.

(** The block under
    [backend == SPVC_BACKEND_MSL && shaderStage != SDL_SHADERCROSS_SHADERSTAGE_COMPUTE]. *)
Definition remap_graphics : option (list binding_call) :=
  guard negb (failed (spvc_compiler_create_shader_resources compiler)) ;;
  lst <- texture_sampler_list compiler ;;
  let '(result, texture_samplers) := lst in
  let num_texture_samplers := Z.of_nat (List.length texture_samplers) in
  let st := {| local_binding := uninitialized_binding; result := result;
               num_textures := 0; num_buffers := 0; calls := [] |} in
  st <- for_each graphics_texture_sampler texture_samplers st ;;
  lst <- resource_list compiler SPVC_RESOURCE_TYPE_STORAGE_IMAGE ;;
  let '(result, storage_textures) := lst in
  st <- for_each (graphics_storage_texture num_texture_samplers) storage_textures
          (with_result st result) ;;
  lst <- resource_list compiler SPVC_RESOURCE_TYPE_STORAGE_BUFFER ;;
  let '(result, storage_buffers) := lst in
  let num_storage_buffers := Z.of_nat (List.length storage_buffers) in
  st <- for_each graphics_storage_buffer storage_buffers (with_result st result) ;;
  lst <- resource_list compiler SPVC_RESOURCE_TYPE_UNIFORM_BUFFER ;;
  let '(result, uniform_buffers) := lst in
  st <- for_each (graphics_uniform_buffer num_storage_buffers) uniform_buffers
          (with_result st result) ;;
  Some (calls st).

(** *** Compute stage *)

Definition compute_texture_sampler (st : remap_state) (r : spvc_reflected_resource)
  : option remap_state :=
  guard has_set_and_binding r ;;
  let descriptor_set_index := spvc_compiler_get_decoration r SpvDecorationDescriptorSet in
  guard (descriptor_set_index =? 0) ;;
  let binding_index := spvc_compiler_get_decoration r SpvDecorationBinding in
  let b := fill_binding (local_binding st) executionModel descriptor_set_index binding_index in
  let b := set_msl_texture b (num_textures st) in
  let b := set_msl_sampler b (num_textures st) in
  let st := add_resource_binding st TextureSampler r b in
  let st := with_result st (spvc_compiler_msl_add_resource_binding compiler b) in
  guard negb (failed (result st)) ;;
  Some (bump_textures st).

Definition compute_readonly_storage_texture (st : remap_state) (r : spvc_reflected_resource)
  : option remap_state :=
  guard has_set_and_binding r ;;
  let descriptor_set_index := spvc_compiler_get_decoration r SpvDecorationDescriptorSet in
  guard (descriptor_set_index =? 0) || (descriptor_set_index =? 1) ;;
  if negb (descriptor_set_index =? 0) then Some st (* continue *) else
  let binding_index := spvc_compiler_get_decoration r SpvDecorationBinding in
  let b := fill_binding (local_binding st) executionModel descriptor_set_index binding_index in
  let b := set_msl_texture b (add_unsigned (num_textures st) binding_index) in
  let st := add_resource_binding st StorageTexture r b in
  guard negb (failed (result st)) ;;
  Some (bump_textures st).

Definition compute_readwrite_storage_texture (st : remap_state) (r : spvc_reflected_resource)
  : option remap_state :=
  let descriptor_set_index := spvc_compiler_get_decoration r SpvDecorationDescriptorSet in
  if negb (descriptor_set_index =? 1) then Some st (* continue *) else
  let binding_index := spvc_compiler_get_decoration r SpvDecorationBinding in
  let b := fill_binding (local_binding st) executionModel descriptor_set_index binding_index in
  let b := set_msl_texture b (add_unsigned (num_textures st) binding_index) in
  let st := add_resource_binding st StorageTexture r b in
  guard negb (failed (result st)) ;;
  Some (bump_textures st).

Definition compute_readonly_storage_buffer (st : remap_state) (r : spvc_reflected_resource)
  : option remap_state :=
  guard has_set_and_binding r ;;
  let descriptor_set_index := spvc_compiler_get_decoration r SpvDecorationDescriptorSet in
  guard (descriptor_set_index =? 0) || (descriptor_set_index =? 1) ;;
  if negb (descriptor_set_index =? 0) then Some st (* continue *) else
  let binding_index := spvc_compiler_get_decoration r SpvDecorationBinding in
  let b := fill_binding (local_binding st) executionModel descriptor_set_index binding_index in
  let b := set_msl_buffer b binding_index in
  let st := add_resource_binding st StorageBuffer r b in
  guard negb (failed (result st)) ;;
  Some (bump_buffers st).

Definition compute_readwrite_storage_buffer (st : remap_state) (r : spvc_reflected_resource)
  : option remap_state :=
  let descriptor_set_index := spvc_compiler_get_decoration r SpvDecorationDescriptorSet in
  if negb (descriptor_set_index =? 1) then Some st (* continue *) else
  let binding_index := spvc_compiler_get_decoration r SpvDecorationBinding in
  let b := fill_binding (local_binding st) executionModel descriptor_set_index binding_index in
  let b := set_msl_buffer b (add_unsigned (num_buffers st) binding_index) in
  let st := add_resource_binding st StorageBuffer r b in
  guard negb (failed (result st)) ;;
  Some (bump_buffers st).

Definition compute_uniform_buffer (st : remap_state) (r : spvc_reflected_resource)
  : option remap_state :=
  guard has_set_and_binding r ;;
  let descriptor_set_index := spvc_compiler_get_decoration r SpvDecorationDescriptorSet in
  guard (descriptor_set_index =? 2) ;;
  let binding_index := spvc_compiler_get_decoration r SpvDecorationBinding in
  let b := fill_binding (local_binding st) executionModel descriptor_set_index binding_index in
  let b := set_msl_buffer b (add_unsigned (num_buffers st) binding_index) in
  let st := add_resource_binding st UniformBuffer r b in
  guard negb (failed (result st)) ;;
  Some (bump_buffers st).

(** The block under
    [backend == SPVC_BACKEND_MSL && shaderStage == SDL_SHADERCROSS_SHADERSTAGE_COMPUTE]. *)
Definition remap_compute : option (list binding_call) :=
  guard negb (failed (spvc_compiler_create_shader_resources compiler)) ;;
  lst <- texture_sampler_list compiler ;;
  let '(result, texture_samplers) := lst in
  let st := {| local_binding := uninitialized_binding; result := result;
               num_textures := 0; num_buffers := 0; calls := [] |} in
  st <- for_each compute_texture_sampler texture_samplers st ;;
  lst <- resource_list compiler SPVC_RESOURCE_TYPE_STORAGE_IMAGE ;;
  let '(result, storage_textures) := lst in
  st <- for_each compute_readonly_storage_texture storage_textures (with_result st result) ;;
  st <- for_each compute_readwrite_storage_texture storage_textures st ;;
  lst <- resource_list compiler SPVC_RESOURCE_TYPE_STORAGE_BUFFER ;;
  let '(result, storage_buffers) := lst in
  st <- for_each compute_readonly_storage_buffer storage_buffers (with_result st result) ;;
  st <- for_each compute_readwrite_storage_buffer storage_buffers st ;;
  lst <- resource_list compiler SPVC_RESOURCE_TYPE_UNIFORM_BUFFER ;;
  let '(result, uniform_buffers) := lst in
  st <- for_each compute_uniform_buffer uniform_buffers (with_result st result) ;;
  Some (calls st).
End RemapLoops.

(** ** The SPIRV-Cross driver *)

(** [SPIRVTranspileContext]: the source text and the cleansed entry point,
    both owned by the SPIRV-Cross context the struct also points to. *)
Record SPIRVTranspileContext := {
  translated_source : string;
  cleansed_entrypoint : string
}.

Definition execution_model_of (shaderStage : SDL_ShaderCross_ShaderStage) : SpvExecutionModel :=
  match shaderStage with
  | SDL_SHADERCROSS_SHADERSTAGE_VERTEX => SpvExecutionModelVertex
  | SDL_SHADERCROSS_SHADERSTAGE_FRAGMENT => SpvExecutionModelFragment
  | SDL_SHADERCROSS_SHADERSTAGE_COMPUTE => SpvExecutionModelKernel
  end.

(** The options set through [spvc_compiler_options_set_uint]. *)
Definition hlsl_options (backend : spvc_backend) (shadermodel : Z)
  : list (spvc_compiler_option * Z) :=
  if backend_eqb backend SPVC_BACKEND_HLSL then
    [ (SPVC_COMPILER_OPTION_HLSL_SHADER_MODEL, shadermodel);
      (SPVC_COMPILER_OPTION_HLSL_NONWRITABLE_UAV_TEXTURE_AS_SRV, 1);
      (SPVC_COMPILER_OPTION_HLSL_FLATTEN_MATRIX_VERTEX_INPUT_SEMANTICS, 1) ]
  else [].

(** The two remapping blocks, selected as the two [if] statements of the
    driver select them. *)
Definition msl_remap (compiler : spvc_compiler) (backend : spvc_backend)
  (shaderStage : SDL_ShaderCross_ShaderStage) : option (list binding_call) :=
  if backend_eqb backend SPVC_BACKEND_MSL then
    if stage_eqb shaderStage SDL_SHADERCROSS_SHADERSTAGE_COMPUTE
    then remap_compute compiler (execution_model_of shaderStage)
    else remap_graphics compiler (execution_model_of shaderStage)
  else Some [].

Definition SDL_ShaderCross_INTERNAL_TranspileFromSPIRV (spvc : spvc_library)
  (backend : spvc_backend) (shadermodel : Z) (shaderStage : SDL_ShaderCross_ShaderStage)
  (code : bytes) (entrypoint : string) : option SPIRVTranspileContext :=
  guard negb (failed (spvc_context_create spvc)) ;;
  ir <- spvc_context_parse_spirv spvc code (size_of code / 4) ;;
  compiler <- spvc_context_create_compiler ir backend ;;
  guard negb (failed (spvc_compiler_create_compiler_options compiler)) ;;
  let options := hlsl_options backend shadermodel in
  added <- msl_remap compiler backend shaderStage ;;
  guard negb (failed (spvc_compiler_install_compiler_options compiler options)) ;;
  let '(result, translated_source) :=
    spvc_compiler_compile compiler options (map arg added) in
  guard negb (failed result) ;;
  let cleansed_entrypoint :=
    spvc_compiler_get_cleansed_entry_point_name compiler entrypoint
      (spvc_compiler_get_execution_model compiler) in
  Some {| translated_source := translated_source;
          cleansed_entrypoint := cleansed_entrypoint |}.

(** ** Reflection *)

(** The counts written into [SDL_GPUShaderCreateInfo]. *)
Record SDL_GPUShaderCreateInfo := {
  num_samplers : Z;
  num_storage_textures : Z;
  num_storage_buffers : Z;
  num_uniform_buffers : Z
}.

(** The counts and thread counts written into
    [SDL_GPUComputePipelineCreateInfo]. *)
Record SDL_GPUComputePipelineCreateInfo := {
  c_num_samplers : Z;
  num_readonly_storage_textures : Z;
  num_readonly_storage_buffers : Z;
  num_readwrite_storage_textures : Z;
  num_readwrite_storage_buffers : Z;
  c_num_uniform_buffers : Z;
  threadcount_x : Z;
  threadcount_y : Z;
  threadcount_z : Z
}.

Definition count_of (l : list spvc_reflected_resource) : Z := Z.of_nat (List.length l).

(** [false] is [None]; [true] comes with the filled-in create info.  The
    [size_t] counts are stored in [Uint32] fields. *)
Definition SDL_ShaderCross_INTERNAL_ReflectGraphicsSPIRV (spvc : spvc_library)
  (code : bytes) : option SDL_GPUShaderCreateInfo :=
  guard negb (failed (spvc_context_create spvc)) ;;
  ir <- spvc_context_parse_spirv spvc code (size_of code / 4) ;;
  compiler <- spvc_context_create_compiler ir SPVC_BACKEND_NONE ;;
  guard negb (failed (spvc_compiler_create_shader_resources compiler)) ;;
  lst <- texture_sampler_list compiler ;;
  let num_texture_samplers := count_of (snd lst) in
  lst <- resource_list compiler SPVC_RESOURCE_TYPE_STORAGE_IMAGE ;;
  let num_storage_textures := count_of (snd lst) in
  lst <- resource_list compiler SPVC_RESOURCE_TYPE_STORAGE_BUFFER ;;
  let num_storage_buffers := count_of (snd lst) in
  lst <- resource_list compiler SPVC_RESOURCE_TYPE_UNIFORM_BUFFER ;;
  let num_uniform_buffers := count_of (snd lst) in
  Some {| num_samplers := to_unsigned num_texture_samplers;
          num_storage_textures := to_unsigned num_storage_textures;
          num_storage_buffers := to_unsigned num_storage_buffers;
          num_uniform_buffers := to_unsigned num_uniform_buffers |}.

(** The two counters a compute reflection loop updates. *)
Definition reflect_storage_texture (acc : Z * Z) (r : spvc_reflected_resource)
  : option (Z * Z) :=
  let '(num_readonly, num_readwrite) := acc in
  guard has_set_and_binding r ;;
  let descriptor_set_index := spvc_compiler_get_decoration r SpvDecorationDescriptorSet in
  if descriptor_set_index =? 0 then Some (num_readonly + 1, num_readwrite)
  else if descriptor_set_index =? 1 then Some (num_readonly, num_readwrite + 1)
  else None.

Definition reflect_storage_buffer (acc : Z * Z) (r : spvc_reflected_resource)
  : option (Z * Z) :=
  let '(num_readonly, num_readwrite) := acc in
  guard has_set_and_binding r ;;
  let descriptor_set_index := spvc_compiler_get_decoration r SpvDecorationDescriptorSet in
  guard (descriptor_set_index =? 0) || (descriptor_set_index =? 1) ;;
  if descriptor_set_index =? 0 then Some (num_readonly + 1, num_readwrite)
  else if descriptor_set_index =? 1 then Some (num_readonly, num_readwrite + 1)
  else None.

Definition SDL_ShaderCross_INTERNAL_ReflectComputeSPIRV (spvc : spvc_library)
  (code : bytes) : option SDL_GPUComputePipelineCreateInfo :=
  guard negb (failed (spvc_context_create spvc)) ;;
  ir <- spvc_context_parse_spirv spvc code (size_of code / 4) ;;
  compiler <- spvc_context_create_compiler ir SPVC_BACKEND_NONE ;;
  guard negb (failed (spvc_compiler_create_shader_resources compiler)) ;;
  lst <- texture_sampler_list compiler ;;
  let num_texture_samplers := count_of (snd lst) in
  lst <- resource_list compiler SPVC_RESOURCE_TYPE_STORAGE_IMAGE ;;
  textures <- for_each reflect_storage_texture (snd lst) (0, 0) ;;
  lst <- resource_list compiler SPVC_RESOURCE_TYPE_STORAGE_BUFFER ;;
  buffers <- for_each reflect_storage_buffer (snd lst) (0, 0) ;;
  lst <- resource_list compiler SPVC_RESOURCE_TYPE_UNIFORM_BUFFER ;;
  let num_uniform_buffers := count_of (snd lst) in
  Some {| c_num_samplers := to_unsigned num_texture_samplers;
          num_readonly_storage_textures := to_unsigned (fst textures);
          num_readonly_storage_buffers := to_unsigned (fst buffers);
          num_readwrite_storage_textures := to_unsigned (snd textures);
          num_readwrite_storage_buffers := to_unsigned (snd buffers);
          c_num_uniform_buffers := to_unsigned num_uniform_buffers;
          threadcount_x := LocalSize compiler 0;
          threadcount_y := LocalSize compiler 1;
          threadcount_z := LocalSize compiler 2 |}.

(** ** What the remapping rules say *)

Definition set_of (r : spvc_reflected_resource) : Z :=
  spvc_compiler_get_decoration r SpvDecorationDescriptorSet.
Definition binding_of (r : spvc_reflected_resource) : Z :=
  spvc_compiler_get_decoration r SpvDecorationBinding.

(** The resources of one kind, as the library lists them. *)
Definition resources_of (compiler : spvc_compiler) (t : spvc_resource_type)
  : list spvc_reflected_resource :=
  snd (spvc_resources_get_resource_list_for_type compiler t).

(** The texture-samplers: the sampled images, or the separate samplers when
    the module has no sampled image. *)
Definition texture_samplers_of (compiler : spvc_compiler) : list spvc_reflected_resource :=
  if count_of (resources_of compiler SPVC_RESOURCE_TYPE_SAMPLED_IMAGE) =? 0
  then resources_of compiler SPVC_RESOURCE_TYPE_SEPARATE_SAMPLERS
  else resources_of compiler SPVC_RESOURCE_TYPE_SAMPLED_IMAGE.

(** The Metal indices a resource ends up with, one per index space it
    lives in. *)
Record assignment := {
  a_kind : resource_kind;
  a_res : spvc_reflected_resource;
  a_texture : option Z;
  a_sampler : option Z;
  a_buffer : option Z
}.

(** Reading an assignment off a recorded call: SPIRV-Cross uses the texture
    and sampler index of an image binding and the buffer index of a buffer
    binding; whatever the other fields of the struct hold is left over from
    earlier iterations. *)
Definition assignment_of (c : binding_call) : assignment :=
  match kind c with
  | TextureSampler =>
      {| a_kind := TextureSampler; a_res := res c;
         a_texture := msl_texture (arg c); a_sampler := msl_sampler (arg c);
         a_buffer := None |}
  | StorageTexture =>
      {| a_kind := StorageTexture; a_res := res c;
         a_texture := msl_texture (arg c); a_sampler := None; a_buffer := None |}
  | StorageBuffer =>
      {| a_kind := StorageBuffer; a_res := res c;
         a_texture := None; a_sampler := None; a_buffer := msl_buffer (arg c) |}
  | UniformBuffer =>
      {| a_kind := UniformBuffer; a_res := res c;
         a_texture := None; a_sampler := None; a_buffer := msl_buffer (arg c) |}
  end.

Definition texture_and_sampler_at (r : spvc_reflected_resource) (i : Z) : assignment :=
  {| a_kind := TextureSampler; a_res := r;
     a_texture := Some i; a_sampler := Some i; a_buffer := None |}.
Definition texture_at (r : spvc_reflected_resource) (i : Z) : assignment :=
  {| a_kind := StorageTexture; a_res := r;
     a_texture := Some i; a_sampler := None; a_buffer := None |}.
Definition buffer_at (k : resource_kind) (r : spvc_reflected_resource) (i : Z) : assignment :=
  {| a_kind := k; a_res := r;
     a_texture := None; a_sampler := None; a_buffer := Some i |}.


(** A resource a graphics remapping accepts: both decorations, and a set
    from the pair [(a, b)] of its kind. *)
Definition set_in (a b : Z) (r : spvc_reflected_resource) : bool :=
  has_set_and_binding r && ((set_of r =? a) || (set_of r =? b)).


(** The compute rules 1 to 6 as they are worded, with a running texture
    counter [T] and a running buffer counter [B].  [numbering] visits the
    resources in order, gives each one the assignment its rule makes at
    the current counter and increments the counter; it returns the
    assignments and the counter it leaves. *)
Fixpoint numbering (assign : Z -> spvc_reflected_resource -> assignment) (counter : Z)
  (l : list spvc_reflected_resource) : list assignment * Z :=
  match l with
  | [] => ([], counter)
  | r :: l' =>
      let '(rest, counter') := numbering assign (add_unsigned counter 1) l' in
      (assign counter r :: rest, counter')
  end.

(** Rule 1: [msl_texture = msl_sampler = T], then [T++]. *)
Definition rule_texture_samplers : Z -> list spvc_reflected_resource -> list assignment * Z :=
  numbering (fun T r => texture_and_sampler_at r T).

(** Rules 2 and 3: [msl_texture = T + binding], then [T++]. *)
Definition rule_storage_textures : Z -> list spvc_reflected_resource -> list assignment * Z :=
  numbering (fun T r => texture_at r (add_unsigned T (binding_of r))).

(** Rule 4: [msl_buffer = binding], then [B++]. *)
Definition rule_readonly_buffers : Z -> list spvc_reflected_resource -> list assignment * Z :=
  numbering (fun B r => buffer_at StorageBuffer r (binding_of r)).

(** Rules 5 and 6: [msl_buffer = B + binding], then [B++]. *)
Definition rule_offset_buffers (k : resource_kind)
  : Z -> list spvc_reflected_resource -> list assignment * Z :=
  numbering (fun B r => buffer_at k r (add_unsigned B (binding_of r))).

Definition on_set (s : Z) (l : list spvc_reflected_resource) : list spvc_reflected_resource :=
  filter (fun r => set_of r =? s) l.

Definition compute_rules (ts st sb ub : list spvc_reflected_resource) : list assignment :=
  let '(a1, T) := rule_texture_samplers 0 ts in
  let '(a2, T) := rule_storage_textures T (on_set 0 st) in
  let '(a3, T) := rule_storage_textures T (on_set 1 st) in
  let '(a4, B) := rule_readonly_buffers 0 (on_set 0 sb) in
  let '(a5, B) := rule_offset_buffers StorageBuffer B (on_set 1 sb) in
  let '(a6, B) := rule_offset_buffers UniformBuffer B ub in
  a1 ++ a2 ++ a3 ++ a4 ++ a5 ++ a6.

(** A resource a compute remapping rejects, per kind. *)
Definition set_is (a : Z) (r : spvc_reflected_resource) : bool :=
  has_set_and_binding r && (set_of r =? a).

(** ** Metal index spaces *)

Inductive index_space := msl_texture_space | msl_sampler_space | msl_buffer_space.

Definition index_in (sp : index_space) (a : assignment) : option Z :=
  match sp with
  | msl_texture_space => a_texture a
  | msl_sampler_space => a_sampler a
  | msl_buffer_space => a_buffer a
  end.

(** The indices a remapping hands out in one space, in the order of the
    resources. *)
Definition indices (sp : index_space) (l : list assignment) : list Z :=
  flat_map (fun a => match index_in sp a with Some x => [x] | None => [] end) l.



(** The module a buffer parses to and the compiler SPIRV-Cross builds for
    it, when both steps succeed. *)
Definition compiler_for (spvc : spvc_library) (backend : spvc_backend) (code : bytes)
  : option spvc_compiler :=
  ir <- spvc_context_parse_spirv spvc code (size_of code / 4) ;;
  spvc_context_create_compiler ir backend.

(** ** The backend loader *)

(** What the preprocessor decides: whether DXC support is compiled in, and
    whether the target is an Xbox, where DXC is loaded at run time instead
    of being linked. *)
Record build_config := {
  SDL_GPU_SHADERCROSS_DXC : bool;
  SDL_PLATFORM_XBOX : bool;
  DXCOMPILER_DLL : string;
  D3DCOMPILER_DLL : string
}.

(** What [SDL_LoadObject] and [SDL_LoadFunction] answer on the host.
    Handles and function pointers are non-null addresses; [None] is
    [NULL]. *)
Record host := {
  SDL_LoadObject : string -> option Z;
  SDL_LoadFunction : Z -> string -> option Z
}.

(** The file-scope statics. *)
Record loader_state := {
  dxcompiler_dll : option Z;
  SDL_DxcCreateInstance : option Z;
  d3dcompiler_dll : option Z;
  SDL_D3DCompile : option Z
}.

Definition is_null {A : Type} (p : option A) : bool :=
  match p with Some _ => false | None => true end.

(** The handle a static holds, if any. *)
Definition loaded (p : option Z) : list Z :=
  match p with Some dll => [dll] | None => [] end.

(** Their initialisers. *)
Definition reset_state : loader_state :=
  {| dxcompiler_dll := None; SDL_DxcCreateInstance := None;
     d3dcompiler_dll := None; SDL_D3DCompile := None |}.

(** [SDL_UnloadObject] calls are recorded, in order. *)
Definition init_dxcompiler (cfg : build_config) (h : host) (s : loader_state)
  : loader_state * list Z :=
  if SDL_PLATFORM_XBOX cfg then
    match SDL_LoadObject h (DXCOMPILER_DLL cfg) with
    | Some dll =>
        match SDL_LoadFunction h dll "DxcCreateInstance" with
        | Some f =>
            ({| dxcompiler_dll := Some dll; SDL_DxcCreateInstance := Some f;
                d3dcompiler_dll := d3dcompiler_dll s; SDL_D3DCompile := SDL_D3DCompile s |}, [])
        | None =>
            ({| dxcompiler_dll := None; SDL_DxcCreateInstance := None;
                d3dcompiler_dll := d3dcompiler_dll s; SDL_D3DCompile := SDL_D3DCompile s |}, [dll])
        end
    | None =>
        ({| dxcompiler_dll := None; SDL_DxcCreateInstance := SDL_DxcCreateInstance s;
            d3dcompiler_dll := d3dcompiler_dll s; SDL_D3DCompile := SDL_D3DCompile s |}, [])
    end
  else (s, []).

Definition init_d3dcompiler (cfg : build_config) (h : host) (s : loader_state)
  : loader_state * list Z :=
  match SDL_LoadObject h (D3DCOMPILER_DLL cfg) with
  | Some dll =>
      match SDL_LoadFunction h dll "D3DCompile" with
      | Some f =>
          ({| dxcompiler_dll := dxcompiler_dll s; SDL_DxcCreateInstance := SDL_DxcCreateInstance s;
              d3dcompiler_dll := Some dll; SDL_D3DCompile := Some f |}, [])
      | None =>
          ({| dxcompiler_dll := dxcompiler_dll s; SDL_DxcCreateInstance := SDL_DxcCreateInstance s;
              d3dcompiler_dll := None; SDL_D3DCompile := None |}, [dll])
      end
  | None =>
      ({| dxcompiler_dll := dxcompiler_dll s; SDL_DxcCreateInstance := SDL_DxcCreateInstance s;
          d3dcompiler_dll := None; SDL_D3DCompile := SDL_D3DCompile s |}, [])
  end.

(** [SDL_ShaderCross_Init] always returns [true]; the new statics and the
    unloaded handles are what is left to describe. *)
Definition SDL_ShaderCross_Init (cfg : build_config) (h : host) (s : loader_state)
  : loader_state * list Z :=
  let '(s, u1) := init_dxcompiler cfg h s in
  let '(s, u2) := init_d3dcompiler cfg h s in
  (s, u1 ++ u2).

Definition quit_d3dcompiler (s : loader_state) : loader_state * list Z :=
  match d3dcompiler_dll s with
  | Some dll =>
      ({| dxcompiler_dll := dxcompiler_dll s; SDL_DxcCreateInstance := SDL_DxcCreateInstance s;
          d3dcompiler_dll := None; SDL_D3DCompile := None |}, [dll])
  | None => (s, [])
  end.

Definition quit_dxcompiler (cfg : build_config) (s : loader_state) : loader_state * list Z :=
  if SDL_PLATFORM_XBOX cfg then
    match dxcompiler_dll s with
    | Some dll =>
        ({| dxcompiler_dll := None; SDL_DxcCreateInstance := None;
            d3dcompiler_dll := d3dcompiler_dll s; SDL_D3DCompile := SDL_D3DCompile s |}, [dll])
    | None => (s, [])
    end
  else (s, []).

Definition SDL_ShaderCross_Quit (cfg : build_config) (s : loader_state)
  : loader_state * list Z :=
  let '(s, u1) := quit_d3dcompiler s in
  let '(s, u2) := quit_dxcompiler cfg s in
  (s, u1 ++ u2).

(** [SDL_GPUShaderFormat] bits, from [SDL_gpu.h]. *)
Definition SDL_GPU_SHADERFORMAT_SPIRV : Z := Z.shiftl 1 1.
Definition SDL_GPU_SHADERFORMAT_DXBC : Z := Z.shiftl 1 2.
Definition SDL_GPU_SHADERFORMAT_DXIL : Z := Z.shiftl 1 3.
Definition SDL_GPU_SHADERFORMAT_MSL : Z := Z.shiftl 1 4.

(** [formats & f] is not zero. *)
Definition has_format (formats f : Z) : bool := negb (Z.land formats f =? 0).

Definition SDL_ShaderCross_GetSPIRVShaderFormats (s : loader_state) : Z :=
  let supportedFormats := Z.lor SDL_GPU_SHADERFORMAT_SPIRV SDL_GPU_SHADERFORMAT_MSL in
  let supportedFormats := Z.lor supportedFormats SDL_GPU_SHADERFORMAT_DXIL in
  let supportedFormats :=
    if negb (is_null (d3dcompiler_dll s))
    then Z.lor supportedFormats SDL_GPU_SHADERFORMAT_DXBC
    else supportedFormats in
  supportedFormats.

(** The HLSL compiler can be reached: DXC support is compiled in and, on
    Xbox, [DxcCreateInstance] has been resolved.  This is the test
    [SDL_ShaderCross_INTERNAL_CompileUsingDXC] makes before it touches DXC. *)
Definition dxc_usable (cfg : build_config) (s : loader_state) : bool :=
  SDL_GPU_SHADERCROSS_DXC cfg
  && (if SDL_PLATFORM_XBOX cfg then negb (is_null (SDL_DxcCreateInstance s)) else true).

(** ** The translation chains *)

(** The external compilers behind the chains.  [Dxc] stands for everything
    [SDL_ShaderCross_INTERNAL_CompileUsingDXC] does once it has decided to
    use DXC (instances, argument list, result blob): [None] is any of its
    failure returns.  [D3DCompile] is the function [SDL_D3DCompile] points
    to; [None] is a negative [HRESULT]. *)
Record backends := {
  spvc : spvc_library;
  Dxc : string -> string -> option string -> SDL_ShaderCross_ShaderStage -> bool -> option bytes;
  D3DCompile : string -> string -> string -> option bytes
}.

(** Requests that reach a backend, in program order. *)
Inductive backend_call :=
| CallTranspile (backend : spvc_backend) (shadermodel : Z)
    (shaderStage : SDL_ShaderCross_ShaderStage) (code : bytes) (entrypoint : string)
| CallDxc (hlslSource entrypoint : string) (includeDir : option string)
    (shaderStage : SDL_ShaderCross_ShaderStage) (spirv : bool)
| CallD3DCompile (hlslSource entrypoint shaderProfile : string)
| CallCreateGPUShader (format : Z) (entrypoint : string)
| CallCreateGPUComputePipeline (format : Z) (entrypoint : string).

(** A function either returns or reads through a null pointer. *)
Inductive outcome (A : Type) :=
| Returns (a : A)
| NullDereference.
Arguments Returns {A} a.
Arguments NullDereference {A}.

Definition run (A : Type) : Type := list backend_call * outcome A.

Definition ret {A : Type} (a : A) : run A := ([], Returns a).

Definition bind {A B : Type} (m : run A) (f : A -> run B) : run B :=
  match m with
  | (t, Returns a) => let '(t', o) := f a in (t ++ t', o)
  | (t, NullDereference) => (t, NullDereference)
  end.

Definition call (c : backend_call) : run unit := ([c], Returns tt).

(** [p->field] *)
Definition deref {A : Type} (p : option A) : run A :=
  match p with
  | Some a => ret a
  | None => ([], NullDereference)
  end.

Notation "'let*' x ':=' e 'in' k" := (bind e (fun x => k))
  (at level 10, x name, e at level 200, k at level 200).
Notation "e1 ';;;' e2" := (bind e1 (fun _ => e2))
  (at level 100, right associativity).

Definition trace {A : Type} (m : run A) : list backend_call := fst m.
Definition result_of {A : Type} (m : run A) : outcome A := snd m.

Section Chains.
Variable cfg : build_config.
Variable st : loader_state.
Variable be : backends.

Definition transpile (backend : spvc_backend) (shadermodel : Z)
  (shaderStage : SDL_ShaderCross_ShaderStage) (code : bytes) (entrypoint : string)
  : run (option SPIRVTranspileContext) :=
  call (CallTranspile backend shadermodel shaderStage code entrypoint) ;;;
  ret (SDL_ShaderCross_INTERNAL_TranspileFromSPIRV (spvc be) backend shadermodel
         shaderStage code entrypoint).

Definition SDL_ShaderCross_INTERNAL_CompileUsingDXC (hlslSource entrypoint : string)
  (includeDir : option string) (shaderStage : SDL_ShaderCross_ShaderStage) (spirv : bool)
  : run (option bytes) :=
  if dxc_usable cfg st then
    call (CallDxc hlslSource entrypoint includeDir shaderStage spirv) ;;;
    ret (Dxc be hlslSource entrypoint includeDir shaderStage spirv)
  else ret None.

Definition SDL_ShaderCross_CompileSPIRVFromHLSL (hlslSource entrypoint : string)
  (includeDir : option string) (shaderStage : SDL_ShaderCross_ShaderStage)
  : run (option bytes) :=
  SDL_ShaderCross_INTERNAL_CompileUsingDXC hlslSource entrypoint includeDir shaderStage true.

(** The copy of [context->translated_source] is returned; the context is
    read without a null test. *)
Definition SDL_ShaderCross_TranspileMSLFromSPIRV (bytecode : bytes) (entrypoint : string)
  (shaderStage : SDL_ShaderCross_ShaderStage) : run (option string) :=
  let* context := transpile SPVC_BACKEND_MSL 0 shaderStage bytecode entrypoint in
  let* c := deref context in
  ret (Some (translated_source c)).

Definition SDL_ShaderCross_TranspileHLSLFromSPIRV (bytecode : bytes) (entrypoint : string)
  (shaderStage : SDL_ShaderCross_ShaderStage) : run (option string) :=
  let* context := transpile SPVC_BACKEND_HLSL 60 shaderStage bytecode entrypoint in
  let* c := deref context in
  ret (Some (translated_source c)).

Definition SDL_ShaderCross_CompileDXILFromHLSL (hlslSource entrypoint : string)
  (includeDir : option string) (shaderStage : SDL_ShaderCross_ShaderStage)
  : run (option bytes) :=
  let* spirv := SDL_ShaderCross_CompileSPIRVFromHLSL hlslSource entrypoint includeDir shaderStage in
  match spirv with
  | None => ret None
  | Some spirv =>
      let* translatedSource :=
        SDL_ShaderCross_TranspileHLSLFromSPIRV spirv entrypoint shaderStage in
      match translatedSource with
      | None => ret None
      | Some translatedSource =>
          SDL_ShaderCross_INTERNAL_CompileUsingDXC translatedSource entrypoint includeDir
            shaderStage false
      end
  end.

Definition SDL_ShaderCross_INTERNAL_CompileDXBC (hlslSource entrypoint shaderProfile : string)
  : run (option bytes) :=
  if is_null (SDL_D3DCompile st) then ret None
  else
    call (CallD3DCompile hlslSource entrypoint shaderProfile) ;;;
    ret (D3DCompile be hlslSource entrypoint shaderProfile).

Definition dxbc_profile (shaderStage : SDL_ShaderCross_ShaderStage) : string :=
  match shaderStage with
  | SDL_SHADERCROSS_SHADERSTAGE_VERTEX => "vs_5_1"
  | SDL_SHADERCROSS_SHADERSTAGE_FRAGMENT => "ps_5_1"
  | SDL_SHADERCROSS_SHADERSTAGE_COMPUTE => "cs_5_1"
  end.

Definition SDL_ShaderCross_INTERNAL_CompileDXBCFromHLSL (hlslSource entrypoint : string)
  (includeDir : option string) (shaderStage : SDL_ShaderCross_ShaderStage)
  (enableRoundtrip : bool) : run (option bytes) :=
  let compile (transpiledSource : option string) :=
    SDL_ShaderCross_INTERNAL_CompileDXBC
      (match transpiledSource with Some t => t | None => hlslSource end)
      entrypoint (dxbc_profile shaderStage) in
  if enableRoundtrip then
    let* spirv := SDL_ShaderCross_CompileSPIRVFromHLSL hlslSource entrypoint includeDir shaderStage in
    match spirv with
    | None => ret None
    | Some spirv =>
        let* transpiledSource :=
          SDL_ShaderCross_TranspileHLSLFromSPIRV spirv entrypoint shaderStage in
        match transpiledSource with
        | None => ret None
        | Some t => compile (Some t)
        end
    end
  else compile None.

Definition SDL_ShaderCross_CompileDXBCFromHLSL (hlslSource entrypoint : string)
  (includeDir : option string) (shaderStage : SDL_ShaderCross_ShaderStage)
  : run (option bytes) :=
  SDL_ShaderCross_INTERNAL_CompileDXBCFromHLSL hlslSource entrypoint includeDir shaderStage true.

Definition SDL_ShaderCross_CompileDXBCFromSPIRV (bytecode : bytes) (entrypoint : string)
  (shaderStage : SDL_ShaderCross_ShaderStage) : run (option bytes) :=
  let* context := transpile SPVC_BACKEND_HLSL 51 shaderStage bytecode entrypoint in
  let* c := deref context in
  SDL_ShaderCross_INTERNAL_CompileDXBCFromHLSL (translated_source c) (cleansed_entrypoint c)
    None shaderStage false.

Definition SDL_ShaderCross_CompileDXILFromSPIRV (bytecode : bytes) (entrypoint : string)
  (shaderStage : SDL_ShaderCross_ShaderStage) : run (option bytes) :=
  if negb (SDL_GPU_SHADERCROSS_DXC cfg) then ret None
  else
    let* context := transpile SPVC_BACKEND_HLSL 60 shaderStage bytecode entrypoint in
    let* c := deref context in
    SDL_ShaderCross_CompileDXILFromHLSL (translated_source c) (cleansed_entrypoint c)
      None shaderStage.

(** The run-time path: [targetFormat] selects the backend, the shader is
    reflected, compiled for the target and handed to the device, always
    under [transpileContext->cleansed_entrypoint].  The device's answer is
    the handle returned; the chain is what matters here, so the creation
    call is recorded and the handle left out. *)
Definition SDL_ShaderCross_INTERNAL_CompileFromSPIRV (bytecode : bytes) (entrypoint : string)
  (shaderStage : SDL_ShaderCross_ShaderStage) (targetFormat : Z) : run unit :=
  let go (backend : spvc_backend) (shadermodel : Z) :=
    let* transpileContext := transpile backend shadermodel shaderStage bytecode entrypoint in
    let* c := deref transpileContext in
    (if targetFormat =? SDL_GPU_SHADERFORMAT_DXBC then
       SDL_ShaderCross_INTERNAL_CompileDXBCFromHLSL (translated_source c)
         (cleansed_entrypoint c) None shaderStage false
     else if targetFormat =? SDL_GPU_SHADERFORMAT_DXIL then
       SDL_ShaderCross_CompileDXILFromHLSL (translated_source c)
         (cleansed_entrypoint c) None shaderStage
     else ret None) ;;;
    if stage_eqb shaderStage SDL_SHADERCROSS_SHADERSTAGE_COMPUTE
    then call (CallCreateGPUComputePipeline targetFormat (cleansed_entrypoint c))
    else call (CallCreateGPUShader targetFormat (cleansed_entrypoint c)) in
  if targetFormat =? SDL_GPU_SHADERFORMAT_DXBC then go SPVC_BACKEND_HLSL 51
  else if targetFormat =? SDL_GPU_SHADERFORMAT_DXIL then go SPVC_BACKEND_HLSL 60
  else if targetFormat =? SDL_GPU_SHADERFORMAT_MSL then go SPVC_BACKEND_MSL 0
  else ret tt.
End Chains.

(** ** The loader of the revision that opens SPIRV-Cross at run time *)

(** In that revision of [SDL_gpu_shadercross.c] SPIRV-Cross is a shared
    library resolved by [SDL_ShaderCross_Init] unless
    [SDL_GPU_SHADERCROSS_STATIC] is defined, DXC is always loaded at run
    time, and the DXIL signing library is probed.  The feature macros
    [SDL_GPU_SHADERCROSS_HLSL] and [SDL_GPU_SHADERCROSS_SPIRVCROSS] are
    taken at the value 1 the header gives them; [SDL_ShaderCross_Init]
    does not compile without them. *)
Module Dynload.

Record build_config := {
  SDL_GPU_SHADERCROSS_STATIC : bool;
  (** the macro [SDL_ShaderCross_Quit] tests with [#ifdef]; the header
      defines [SDL_GPU_SHADERCROSS_SPIRVCROSS], not this one *)
  SDL_GPU_SHADERCROSS_SPIRV : bool;
  GAMING_XBOX : bool;
  DXCOMPILER_DLL : string;
  DXIL_DLL : string;
  D3DCOMPILER_DLL : string;
  SDL_GPU_SPIRV_CROSS_DLL : string
}.

(** The eleven [SDL_spvc_*] pointers, by the name they are resolved with. *)
Definition spvc_symbols : list string :=
  [ "spvc_context_create"; "spvc_context_destroy"; "spvc_context_parse_spirv";
    "spvc_context_create_compiler"; "spvc_compiler_create_compiler_options";
    "spvc_compiler_options_set_uint"; "spvc_compiler_install_compiler_options";
    "spvc_compiler_compile"; "spvc_context_get_last_error_string";
    "spvc_compiler_get_execution_model"; "spvc_compiler_get_cleansed_entry_point_name" ].

Record loader_state := {
  dxcompiler_dll : option Z;
  SDL_DxcCreateInstance : option Z;
  d3dcompiler_dll : option Z;
  SDL_D3DCompile : option Z;
  spirvcross_dll : option Z;
  SDL_spvc : list (string * option Z)
}.

Definition reset_state : loader_state :=
  {| dxcompiler_dll := None; SDL_DxcCreateInstance := None;
     d3dcompiler_dll := None; SDL_D3DCompile := None;
     spirvcross_dll := None;
     SDL_spvc := map (fun n => (n, None)) spvc_symbols |}.

Definition with_dxcompiler (s : loader_state) (dll f : option Z) : loader_state :=
  {| dxcompiler_dll := dll; SDL_DxcCreateInstance := f;
     d3dcompiler_dll := d3dcompiler_dll s; SDL_D3DCompile := SDL_D3DCompile s;
     spirvcross_dll := spirvcross_dll s; SDL_spvc := SDL_spvc s |}.

Definition with_d3dcompiler (s : loader_state) (dll f : option Z) : loader_state :=
  {| dxcompiler_dll := dxcompiler_dll s; SDL_DxcCreateInstance := SDL_DxcCreateInstance s;
     d3dcompiler_dll := dll; SDL_D3DCompile := f;
     spirvcross_dll := spirvcross_dll s; SDL_spvc := SDL_spvc s |}.

Definition with_spirvcross (s : loader_state) (dll : option Z) (fns : list (string * option Z))
  : loader_state :=
  {| dxcompiler_dll := dxcompiler_dll s; SDL_DxcCreateInstance := SDL_DxcCreateInstance s;
     d3dcompiler_dll := d3dcompiler_dll s; SDL_D3DCompile := SDL_D3DCompile s;
     spirvcross_dll := dll; SDL_spvc := fns |}.

Definition init_dxcompiler (cfg : build_config) (h : host) (s : loader_state)
  : loader_state * list Z :=
  match SDL_LoadObject h (DXCOMPILER_DLL cfg) with
  | None => (with_dxcompiler s None (SDL_DxcCreateInstance s), [])
  | Some dll =>
      let '(kept, u) :=
        if GAMING_XBOX cfg then (true, [])
        else match SDL_LoadObject h (DXIL_DLL cfg) with
             | None => (false, [dll])
             | Some dxil_dll => (true, [dxil_dll])
             end in
      if kept then
        match SDL_LoadFunction h dll "DxcCreateInstance" with
        | Some f => (with_dxcompiler s (Some dll) (Some f), u)
        | None => (with_dxcompiler s None None, u ++ [dll])
        end
      else (with_dxcompiler s None (SDL_DxcCreateInstance s), u)
  end.

Definition init_d3dcompiler (cfg : build_config) (h : host) (s : loader_state)
  : loader_state * list Z :=
  match SDL_LoadObject h (D3DCOMPILER_DLL cfg) with
  | None => (with_d3dcompiler s None (SDL_D3DCompile s), [])
  | Some dll =>
      match SDL_LoadFunction h dll "D3DCompile" with
      | Some f => (with_d3dcompiler s (Some dll) (Some f), [])
      | None => (with_d3dcompiler s None None, [dll])
      end
  end.

(** [CHECK_FUNC]: a pointer that is still null is resolved. *)
Definition CHECK_FUNC (h : host) (dll : Z) (p : string * option Z) : string * option Z :=
  match snd p with
  | Some _ => p
  | None => (fst p, SDL_LoadFunction h dll (fst p))
  end.

Definition init_spirvcross (cfg : build_config) (h : host) (s : loader_state)
  : loader_state * list Z :=
  if SDL_GPU_SHADERCROSS_STATIC cfg then (s, [])
  else
    match SDL_LoadObject h (SDL_GPU_SPIRV_CROSS_DLL cfg) with
    | None => (with_spirvcross s None (SDL_spvc s), [])
    | Some dll =>
        let fns := map (CHECK_FUNC h dll) (SDL_spvc s) in
        let spvc_loaded := forallb (fun p => negb (is_null (snd p))) fns in
        if spvc_loaded then (with_spirvcross s (Some dll) fns, [])
        else (with_spirvcross s None fns, [dll])
    end.

Definition SDL_ShaderCross_Init (cfg : build_config) (h : host) (s : loader_state)
  : loader_state * list Z :=
  let '(s, u1) := init_dxcompiler cfg h s in
  let '(s, u2) := init_d3dcompiler cfg h s in
  let '(s, u3) := init_spirvcross cfg h s in
  (s, u1 ++ u2 ++ u3).

Definition quit_spirvcross (cfg : build_config) (s : loader_state) : loader_state * list Z :=
  if SDL_GPU_SHADERCROSS_SPIRV cfg && negb (SDL_GPU_SHADERCROSS_STATIC cfg) then
    match spirvcross_dll s with
    | Some dll => (with_spirvcross s None (map (fun p => (fst p, None)) (SDL_spvc s)), [dll])
    | None => (s, [])
    end
  else (s, []).

Definition quit_d3dcompiler (s : loader_state) : loader_state * list Z :=
  match d3dcompiler_dll s with
  | Some dll => (with_d3dcompiler s None None, [dll])
  | None => (s, [])
  end.

Definition quit_dxcompiler (s : loader_state) : loader_state * list Z :=
  match dxcompiler_dll s with
  | Some dll => (with_dxcompiler s None None, [dll])
  | None => (s, [])
  end.

Definition SDL_ShaderCross_Quit (cfg : build_config) (s : loader_state)
  : loader_state * list Z :=
  let '(s, u1) := quit_spirvcross cfg s in
  let '(s, u2) := quit_d3dcompiler s in
  let '(s, u3) := quit_dxcompiler s in
  (s, u1 ++ u2 ++ u3).

(** SPIRV-Cross can be called: it is linked in, or its library is loaded. *)
Definition spirvcross_usable (cfg : build_config) (s : loader_state) : bool :=
  SDL_GPU_SHADERCROSS_STATIC cfg || negb (is_null (spirvcross_dll s)).

Definition SDL_ShaderCross_GetSPIRVShaderFormats (cfg : build_config) (s : loader_state) : Z :=
  let supportedFormats := SDL_GPU_SHADERFORMAT_SPIRV in
  if spirvcross_usable cfg s then
    let supportedFormats := Z.lor supportedFormats SDL_GPU_SHADERFORMAT_MSL in
    let supportedFormats :=
      if negb (is_null (dxcompiler_dll s))
      then Z.lor supportedFormats SDL_GPU_SHADERFORMAT_DXIL
      else supportedFormats in
    let supportedFormats :=
      if negb (is_null (d3dcompiler_dll s))
      then Z.lor supportedFormats SDL_GPU_SHADERFORMAT_DXBC
      else supportedFormats in
    supportedFormats
  else supportedFormats.

(** Every handle and every resolved pointer is null. *)
Definition all_null (s : loader_state) : bool :=
  is_null (dxcompiler_dll s) && is_null (SDL_DxcCreateInstance s)
  && is_null (d3dcompiler_dll s) && is_null (SDL_D3DCompile s)
  && is_null (spirvcross_dll s)
  && forallb (fun p => is_null (snd p)) (SDL_spvc s).

End Dynload.

(** Every handle and every resolved pointer is null. *)
Definition all_null (s : loader_state) : bool :=
  is_null (dxcompiler_dll s) && is_null (SDL_DxcCreateInstance s)
  && is_null (d3dcompiler_dll s) && is_null (SDL_D3DCompile s).

(** ** Sample modules, libraries and hosts for the examples *)

Definition resource_at (i s b : Z) : spvc_reflected_resource :=
  {| id := i; DescriptorSet := Some s; Binding := Some b |}.

Definition undecorated (i : Z) : spvc_reflected_resource :=
  {| id := i; DescriptorSet := None; Binding := None |}.

(** A compiler whose calls all succeed, for a module with the given
    resources and local size; the entry point is cleansed by appending
    ["0"], as the MSL backend does to [main]. *)
Definition sample_compiler (sampled separate images buffers uniforms : list spvc_reflected_resource)
  (local_size : Z * Z * Z) : spvc_compiler :=
  {| spvc_compiler_create_compiler_options := 0;
     spvc_compiler_create_shader_resources := 0;
     spvc_resources_get_resource_list_for_type := fun t =>
       match t with
       | SPVC_RESOURCE_TYPE_SAMPLED_IMAGE => (0, sampled)
       | SPVC_RESOURCE_TYPE_SEPARATE_SAMPLERS => (0, separate)
       | SPVC_RESOURCE_TYPE_STORAGE_IMAGE => (0, images)
       | SPVC_RESOURCE_TYPE_STORAGE_BUFFER => (0, buffers)
       | SPVC_RESOURCE_TYPE_UNIFORM_BUFFER => (0, uniforms)
       end;
     spvc_compiler_msl_add_resource_binding := fun _ => 0;
     spvc_compiler_install_compiler_options := fun _ => 0;
     spvc_compiler_compile := fun _ _ => (0, "translated");
     spvc_compiler_get_execution_model := SpvExecutionModelGLCompute;
     spvc_compiler_get_cleansed_entry_point_name := fun name _ => (name ++ "0")%string;
     LocalSize := fun i =>
       let '(x, y, z) := local_size in
       if i =? 0 then x else if i =? 1 then y else z |}.

(** The same compiler with the entry point always emitted as [main], as
    the HLSL backend does. *)
Definition emitting_main (c : spvc_compiler) : spvc_compiler :=
  {| spvc_compiler_create_compiler_options := spvc_compiler_create_compiler_options c;
     spvc_compiler_create_shader_resources := spvc_compiler_create_shader_resources c;
     spvc_resources_get_resource_list_for_type := spvc_resources_get_resource_list_for_type c;
     spvc_compiler_msl_add_resource_binding := spvc_compiler_msl_add_resource_binding c;
     spvc_compiler_install_compiler_options := spvc_compiler_install_compiler_options c;
     spvc_compiler_compile := spvc_compiler_compile c;
     spvc_compiler_get_execution_model := spvc_compiler_get_execution_model c;
     spvc_compiler_get_cleansed_entry_point_name := fun _ _ => "main";
     LocalSize := LocalSize c |}.

(** A library that parses every buffer to the module of [compiler]. *)
Definition sample_library (compiler : spvc_compiler) : spvc_library :=
  {| spvc_context_create := 0;
     spvc_context_parse_spirv := fun _ _ =>
       Some {| spvc_context_create_compiler := fun _ => Some compiler |} |}.

(** A library that rejects every buffer ([SPVC_ERROR_INVALID_SPIRV]). *)
Definition rejecting_library : spvc_library :=
  {| spvc_context_create := 0;
     spvc_context_parse_spirv := fun _ _ => None |}.

Definition four_bytes : bytes := [Byte.x00; Byte.x01; Byte.x02; Byte.x03].

(** The vertex shader of scenario E2: one sampler at (0, 0), one uniform
    buffer at (1, 0). *)
Definition e2_vertex : spvc_compiler :=
  sample_compiler [resource_at 10 0 0] [] [] [] [resource_at 11 1 0] (0, 0, 0).

(** The compute shader of scenario E4: a read-write storage buffer at
    (1, 0), a uniform buffer at (2, 0), local size (8, 8, 1). *)
Definition e4_compute : spvc_compiler :=
  sample_compiler [] [] [] [resource_at 20 1 0] [resource_at 21 2 0] (8, 8, 1).



(** A compute shader laid out by the convention: read-only storage
    textures at (0, 0) and (0, 1), a read-write storage texture at (1, 0). *)
Definition three_storage_textures : spvc_compiler :=
  sample_compiler [] [] [resource_at 1 0 0; resource_at 2 0 1; resource_at 3 1 0] [] [] (1, 1, 1).

(** A graphics shader whose only uniform buffer sits in set 0 and whose
    sampler has no decoration at all. *)
Definition unconventional_vertex : spvc_compiler :=
  sample_compiler [undecorated 1] [] [] [] [resource_at 2 0 0] (0, 0, 0).

(** A compute shader with a sampler in set 5 and a uniform buffer in set 0. *)
Definition unconventional_compute : spvc_compiler :=
  sample_compiler [resource_at 1 5 0] [] [] [] [resource_at 2 0 0] (1, 1, 1).

(** Backends around a SPIRV-Cross library: DXC answers with four bytes,
    D3DCompile with an empty blob. *)
Definition sample_backends (lib : spvc_library) : backends :=
  {| spvc := lib;
     Dxc := fun _ _ _ _ _ => Some four_bytes;
     D3DCompile := fun _ _ _ => Some [] |}.

Definition desktop_with_dxc : build_config :=
  {| SDL_GPU_SHADERCROSS_DXC := true; SDL_PLATFORM_XBOX := false;
     DXCOMPILER_DLL := "dxcompiler.dll"; D3DCOMPILER_DLL := "d3dcompiler_47.dll" |}.

Definition desktop_without_dxc : build_config :=
  {| SDL_GPU_SHADERCROSS_DXC := false; SDL_PLATFORM_XBOX := false;
     DXCOMPILER_DLL := "dxcompiler.dll"; D3DCOMPILER_DLL := "libvkd3d-utils.so.1" |}.

Definition xbox : build_config :=
  {| SDL_GPU_SHADERCROSS_DXC := true; SDL_PLATFORM_XBOX := true;
     DXCOMPILER_DLL := "dxcompiler_xs.dll"; D3DCOMPILER_DLL := "d3dcompiler_47.dll" |}.

(** A host on which no library can be opened. *)
Definition bare_host : host :=
  {| SDL_LoadObject := fun _ => None; SDL_LoadFunction := fun _ _ => None |}.

(** A host on which every library opens (at address 4096) and every symbol
    resolves (at address 8192). *)
Definition full_host : host :=
  {| SDL_LoadObject := fun _ => Some 4096; SDL_LoadFunction := fun _ _ => Some 8192 |}.

(** A host whose SPIRV-Cross library is too old to export
    [spvc_compiler_get_cleansed_entry_point_name]. *)
Definition old_spirvcross_host : host :=
  {| SDL_LoadObject := fun _ => Some 4096;
     SDL_LoadFunction := fun _ name =>
       if String.eqb name "spvc_compiler_get_cleansed_entry_point_name"
       then None else Some 8192 |}.

Definition loaded_state : loader_state :=
  {| dxcompiler_dll := None; SDL_DxcCreateInstance := None;
     d3dcompiler_dll := Some 4096; SDL_D3DCompile := Some 8192 |}.

Definition dynload_build : Dynload.build_config :=
  {| Dynload.SDL_GPU_SHADERCROSS_STATIC := false;
     Dynload.SDL_GPU_SHADERCROSS_SPIRV := false;
     Dynload.GAMING_XBOX := false;
     Dynload.DXCOMPILER_DLL := "dxcompiler.dll";
     Dynload.DXIL_DLL := "dxil.dll";
     Dynload.D3DCOMPILER_DLL := "d3dcompiler_47.dll";
     Dynload.SDL_GPU_SPIRV_CROSS_DLL := "spirv-cross-c-shared.dll" |}.

Definition dynload_build_with_teardown : Dynload.build_config :=
  {| Dynload.SDL_GPU_SHADERCROSS_STATIC := false;
     Dynload.SDL_GPU_SHADERCROSS_SPIRV := true;
     Dynload.GAMING_XBOX := false;
     Dynload.DXCOMPILER_DLL := "dxcompiler.dll";
     Dynload.DXIL_DLL := "dxil.dll";
     Dynload.D3DCOMPILER_DLL := "d3dcompiler_47.dll";
     Dynload.SDL_GPU_SPIRV_CROSS_DLL := "spirv-cross-c-shared.dll" |}.

(** ** Tactics for stepping through the driver *)

(** [guard_in H] splits on the test of an early return in [H];
    [done_in H] reads the state a body returned; [next_loop H s L] names
    the state [s] the next loop of [H] ends in. *)
Ltac guard_in H :=
  match type of H with
  | (if ?c then _ else None) = Some _ =>
      let E := fresh "E" in destruct c eqn:E; [|discriminate H]
  end.

Ltac done_in H := inversion H; subst; clear H; simpl.

Ltac next_loop H s L :=
  match type of H with
  | match for_each ?b ?l ?s0 with _ => _ end = _ =>
      destruct (for_each b l s0) as [s|] eqn:L; [|discriminate H]
  end.

(** ** Formats the HLSL entry points report *)

Definition SDL_ShaderCross_GetHLSLShaderFormats (cfg : build_config) (s : loader_state) : Z :=
  let supportedFormats := 0 in
  let supportedFormats :=
    if SDL_GPU_SHADERCROSS_DXC cfg
    then Z.lor supportedFormats (Z.lor SDL_GPU_SHADERFORMAT_DXIL SDL_GPU_SHADERFORMAT_DXBC)
    else supportedFormats in
  let supportedFormats :=
    if negb (is_null (d3dcompiler_dll s))
    then Z.lor supportedFormats SDL_GPU_SHADERFORMAT_DXBC
    else supportedFormats in
  supportedFormats.

(** ** Loader bookkeeping *)

(** A library handle and the entry point resolved from it are null
    together.  [SDL_ShaderCross_GetSPIRVShaderFormats] looks at the handle,
    the compile functions look at the entry point. *)
Definition paired (s : loader_state) : bool :=
  Bool.eqb (is_null (dxcompiler_dll s)) (is_null (SDL_DxcCreateInstance s))
  && Bool.eqb (is_null (d3dcompiler_dll s)) (is_null (SDL_D3DCompile s)).

(** The handles [SDL_LoadObject] hands out while [SDL_ShaderCross_Init]
    runs, in the order of the calls. *)
Definition opened (cfg : build_config) (h : host) : list Z :=
  (if SDL_PLATFORM_XBOX cfg then loaded (SDL_LoadObject h (DXCOMPILER_DLL cfg)) else [])
  ++ loaded (SDL_LoadObject h (D3DCOMPILER_DLL cfg)).

(** The same for the revision that opens SPIRV-Cross at run time: the DXIL
    library is probed only once the compiler library is open. *)
Definition dynload_opened (cfg : Dynload.build_config) (h : host) : list Z :=
  match SDL_LoadObject h (Dynload.DXCOMPILER_DLL cfg) with
  | Some dll =>
      dll :: (if Dynload.GAMING_XBOX cfg then []
              else loaded (SDL_LoadObject h (Dynload.DXIL_DLL cfg)))
  | None => []
  end
  ++ loaded (SDL_LoadObject h (Dynload.D3DCOMPILER_DLL cfg))
  ++ (if Dynload.SDL_GPU_SHADERCROSS_STATIC cfg then []
      else loaded (SDL_LoadObject h (Dynload.SDL_GPU_SPIRV_CROSS_DLL cfg))).

(** Every [SDL_spvc_*] pointer is resolved. *)
Definition spvc_resolved (s : Dynload.loader_state) : bool :=
  forallb (fun p => negb (is_null (snd p))) (Dynload.SDL_spvc s).

(** Small permutations of unloaded handles. *)
Ltac perm_small :=
  simpl;
  repeat match goal with
         | |- Permutation [] [] => apply perm_nil
         | |- Permutation (?a :: _) (?a :: _) => apply perm_skip
         | |- Permutation (?a :: ?l) (?b :: ?a :: ?r) =>
             change (Permutation (a :: l) ([b] ++ a :: r));
             apply Permutation_cons_app; simpl
         | |- Permutation (?a :: ?l) (?b :: ?c :: ?a :: ?r) =>
             change (Permutation (a :: l) ([b; c] ++ a :: r));
             apply Permutation_cons_app; simpl
         | |- Permutation (?a :: ?l) (?b :: ?c :: ?d :: ?a :: ?r) =>
             change (Permutation (a :: l) ([b; c; d] ++ a :: r));
             apply Permutation_cons_app; simpl
         end.

(** ** The structs handed to SPIRV-Cross *)

(** The same compiler with another answer to
    [spvc_compiler_msl_add_resource_binding]. *)
Definition answering (c : spvc_compiler)
  (f : spvc_msl_resource_binding -> spvc_result) : spvc_compiler :=
  {| spvc_compiler_create_compiler_options := spvc_compiler_create_compiler_options c;
     spvc_compiler_create_shader_resources := spvc_compiler_create_shader_resources c;
     spvc_resources_get_resource_list_for_type := spvc_resources_get_resource_list_for_type c;
     spvc_compiler_msl_add_resource_binding := f;
     spvc_compiler_install_compiler_options := spvc_compiler_install_compiler_options c;
     spvc_compiler_compile := spvc_compiler_compile c;
     spvc_compiler_get_execution_model := spvc_compiler_get_execution_model c;
     spvc_compiler_get_cleansed_entry_point_name :=
       spvc_compiler_get_cleansed_entry_point_name c;
     LocalSize := LocalSize c |}.

(** The fields that tell SPIRV-Cross which resource a struct is for hold
    the execution model and the resource's own set and binding. *)
Definition identifies (em : SpvExecutionModel) (c : binding_call) : Prop :=
  stage (arg c) = Some em
  /\ desc_set (arg c) = Some (set_of (res c))
  /\ binding (arg c) = Some (binding_of (res c)).

(** A call for a texture-sampler or a storage texture. *)
Definition for_texture (c : binding_call) : bool :=
  match kind c with
  | TextureSampler | StorageTexture => true
  | StorageBuffer | UniformBuffer => false
  end.

(** Two states of a remapping loop that differ at most in [result]. *)
Definition same_but_result (s t : remap_state) : Prop :=
  local_binding s = local_binding t /\ num_textures s = num_textures t
  /\ num_buffers s = num_buffers t /\ calls s = calls t.

(** The calls recorded so far all satisfy [P]. *)
Definition recorded_calls (P : binding_call -> Prop) (s : remap_state) : Prop :=
  Forall P (calls s).

(** An answer of [spvc_compiler_msl_add_resource_binding] that fails for
    every struct with a buffer index. *)
Definition failing_for_buffers (b : spvc_msl_resource_binding) : spvc_result :=
  match msl_buffer b with Some _ => -1 | None => 0 end.

(** A field of the struct no statement has written yet: not in the local
    and not in any struct passed so far. *)
Definition unwritten (field : spvc_msl_resource_binding -> option Z) (s : remap_state)
  : Prop :=
  field (local_binding s) = None /\ Forall (fun c => field (arg c) = None) (calls s).

(** [body_in H] goes through the tests of a loop body that returned in
    [H]; [loops_in H] names the states the loops of a remapping that
    returned in [H] end in. *)
Ltac body_in H :=
  cbv zeta in H;
  repeat match type of H with
         | (if ?c then _ else _) = Some _ =>
             let E := fresh "E" in destruct c eqn:E; try discriminate H
         end;
  inversion H; subst; clear H; simpl.

Ltac list_in H l :=
  match type of H with
  | match resource_list ?c ?t with _ => _ end = _ =>
      let r := fresh "r" in let E := fresh "Q" in
      destruct (resource_list c t) as [[r l]|] eqn:E; [|discriminate H]
  | match texture_sampler_list ?c with _ => _ end = _ =>
      let r := fresh "r" in let E := fresh "Q" in
      destruct (texture_sampler_list c) as [[r l]|] eqn:E; [|discriminate H]
  end.

(** ** The DXC driver, statement by statement *)

(** How a function that indexes an array, reads through pointers and
    declares locals without initialising them ends. *)
Inductive completion (A : Type) :=
| Returned (a : A)
| ReadsNull
| ReadsUnwritten
| WritesOutside.
Arguments Returned {A} a.
Arguments ReadsNull {A}.
Arguments ReadsUnwritten {A}.
Arguments WritesOutside {A}.

(** [SDL_strlen] *)
Definition SDL_strlen (s : string) : Z := Z.of_nat (String.length s).

(** [SDL_ShaderCross_INTERNAL_CompileUsingDXC] in full: the COM objects it
    creates and releases, the strings it converts and frees, the argument
    array it fills and the answers of DXC it looks at.  In the chains above
    all of this sits behind the one function [Dxc]. *)
Module DxcDriver.

(** The COM objects and the converted strings, by the name of the local
    that holds them. *)
Inductive com_object := dxcInstance | utils | includeHandler | dxcResult | errors | blob.
Inductive converted := entryPointUtf16 | includeDirUtf16.

Inductive clsid := CLSID_DxcCompiler | CLSID_DxcUtils.

(** What [IDxcResult::GetOutput] gives for the two kinds the code asks
    for: the errors blob ([None] is [NULL]), and an [HRESULT] with the
    object blob. *)
Record IDxcResult := {
  DXC_OUT_ERRORS : option bytes;
  DXC_OUT_OBJECT : Z * option bytes
}.

(** DXC as the code calls it.  [DxcCreateInstance] tells whether the out
    pointer was set; [Compile] receives [source.Ptr], [source.Size], the
    array and [argCount], and answers with an [HRESULT] and the result
    object. *)
Record dxc_library := {
  DxcCreateInstance : clsid -> bool;
  CreateDefaultIncludeHandler : bool;
  Compile : string -> Z -> list (option string) -> Z -> Z * option IDxcResult
}.

(** The two SDL string functions involved: [SDL_iconv_string] from UTF-8 to
    [WCHAR_T] receives the string and the byte count it is told to read. *)
Record sdl_strings := {
  SDL_utf8strlen : string -> Z;
  SDL_iconv_string : string -> Z -> option string
}.

Inductive event :=
| Release (o : com_object)
| SDL_free (w : converted)
| CallCompile (Ptr : string) (Size : Z) (args : list (option string)) (argCount : Z).

(** [args[i] = v] on an array of [length args] slots. *)
Definition store (args : list (option string)) (i : Z) (v : string)
  : option (list (option string)) :=
  if (0 <=? i) && (i <? Z.of_nat (List.length args))
  then Some (firstn (Z.to_nat i) args ++ Some v :: skipn (S (Z.to_nat i)) args)
  else None.

(** [args[argCount++] = v]; [argCount] is a [Uint32]. *)
Definition push (a : list (option string) * Z) (v : string)
  : option (list (option string) * Z) :=
  let '(args, argCount) := a in
  args <- store args argCount v ;;
  Some (args, add_unsigned argCount 1).

(** The argument array, from its initialiser to the call of [Compile]. *)
Definition arguments (cfg : build_config) (entryPoint : string) (includeDir : option string)
  (shaderStage : SDL_ShaderCross_ShaderStage) (spirv : bool)
  : option (list (option string) * Z) :=
  let args := [Some "-E"; Some entryPoint; None; None; None; None; None; None] in
  let argCount := 2 in
  a <- match includeDir with
       | Some dir =>
           args <- store args 2 "-I" ;;
           args <- store args 3 dir ;;
           Some (args, add_unsigned argCount 2)
       | None => Some (args, argCount)
       end ;;
  a <- match shaderStage with
       | SDL_SHADERCROSS_SHADERSTAGE_VERTEX =>
           a <- push a "-T" ;; push a "vs_6_0"
       | SDL_SHADERCROSS_SHADERSTAGE_FRAGMENT =>
           a <- push a "-T" ;; push a "ps_6_0"
       | SDL_SHADERCROSS_SHADERSTAGE_COMPUTE =>
           a <- push a "-T" ;; push a "cs_6_0"
       end ;;
  a <- (if spirv then push a "-spirv" else Some a) ;;
  a <- (if SDL_PLATFORM_XBOX cfg then push a "-D__XBOX_DISABLE_PRECOMPILE=1" else Some a) ;;
  Some a.

(** The conversion of [includeDir], when there is one: [None] is the
    failure of [SDL_iconv_string]. *)
Definition convert_include_dir (sdl : sdl_strings) (includeDir : option string)
  : option (option string) :=
  match includeDir with
  | None => Some None
  | Some dir =>
      let includeDirLength := SDL_utf8strlen sdl dir + 1 in
      match SDL_iconv_string sdl dir includeDirLength with
      | Some w => Some (Some w)
      | None => None
      end
  end.

Definition SDL_ShaderCross_INTERNAL_CompileUsingDXC (cfg : build_config) (st : loader_state)
  (sdl : sdl_strings) (dxc : dxc_library) (hlslSource entrypoint : string)
  (includeDir : option string) (shaderStage : SDL_ShaderCross_ShaderStage) (spirv : bool)
  : list event * completion (option bytes) :=
  if negb (SDL_GPU_SHADERCROSS_DXC cfg) then ([], Returned None) else
  let entryPointLength := SDL_utf8strlen sdl entrypoint + 1 in
  if SDL_PLATFORM_XBOX cfg && is_null (SDL_DxcCreateInstance st) then ([], Returned None) else
  let created_dxcInstance := DxcCreateInstance dxc CLSID_DxcCompiler in
  let created_utils := DxcCreateInstance dxc CLSID_DxcUtils in
  if negb created_dxcInstance then ([], Returned None) else
  if negb created_utils then ([Release dxcInstance], Returned None) else
  if negb (CreateDefaultIncludeHandler dxc)
  then ([Release dxcInstance; Release utils], Returned None) else
  match SDL_iconv_string sdl entrypoint entryPointLength with
  | None => ([Release dxcInstance; Release utils], Returned None)
  | Some entryPoint =>
      match convert_include_dir sdl includeDir with
      | None =>
          ([Release dxcInstance; Release utils; SDL_free entryPointUtf16], Returned None)
      | Some includeDirW =>
          match arguments cfg entryPoint includeDirW shaderStage spirv with
          | None => ([], WritesOutside)
          | Some (args, argCount) =>
              let '(ret, result) :=
                Compile dxc hlslSource (SDL_strlen hlslSource + 1) args argCount in
              let compiled :=
                [CallCompile hlslSource (SDL_strlen hlslSource + 1) args argCount;
                 SDL_free entryPointUtf16]
                ++ (if is_null includeDirW then [] else [SDL_free includeDirUtf16]) in
              if ret <? 0
              then (compiled ++ [Release dxcInstance; Release utils], Returned None)
              else
                match result with
                | None => (compiled ++ [Release dxcInstance; Release utils], Returned None)
                | Some r =>
                    if match DXC_OUT_ERRORS r with
                       | Some e => negb (size_of e =? 0)
                       | None => false
                       end
                    then (compiled ++ [Release dxcResult; Release dxcInstance; Release utils],
                          Returned None)
                    else
                      let '(ret, object) := DXC_OUT_OBJECT r in
                      if ret <? 0
                      then (compiled
                            ++ [Release dxcResult; Release dxcInstance; Release utils],
                            Returned None)
                      else
                        match object with
                        | None => (compiled, ReadsNull)
                        | Some b =>
                            (compiled ++ [Release blob; Release dxcResult;
                                          Release dxcInstance; Release utils],
                             Returned (Some b))
                        end
                end
          end
      end
  end.

Definition com_eqb (a b : com_object) : bool :=
  match a, b with
  | dxcInstance, dxcInstance | utils, utils | includeHandler, includeHandler
  | dxcResult, dxcResult | errors, errors | blob, blob => true
  | _, _ => false
  end.

(** How often [Release] was called on an object, and [SDL_free] on a
    converted string. *)
Definition released (o : com_object) (ev : list event) : Z :=
  Z.of_nat (List.length
    (filter (fun e => match e with Release o' => com_eqb o o' | _ => false end) ev)).

Definition freed (w : converted) (ev : list event) : Z :=
  Z.of_nat (List.length
    (filter (fun e =>
       match e, w with
       | SDL_free entryPointUtf16, entryPointUtf16
       | SDL_free includeDirUtf16, includeDirUtf16 => true
       | _, _ => false
       end) ev)).

(** The profile each stage is compiled for. *)
Definition target_profile (shaderStage : SDL_ShaderCross_ShaderStage) : string :=
  match shaderStage with
  | SDL_SHADERCROSS_SHADERSTAGE_VERTEX => "vs_6_0"
  | SDL_SHADERCROSS_SHADERSTAGE_FRAGMENT => "ps_6_0"
  | SDL_SHADERCROSS_SHADERSTAGE_COMPUTE => "cs_6_0"
  end.

(** The command line the array is meant to hold. *)
Definition command_line (cfg : build_config) (entryPoint : string)
  (includeDir : option string) (shaderStage : SDL_ShaderCross_ShaderStage) (spirv : bool)
  : list string :=
  ["-E"; entryPoint]
  ++ match includeDir with Some dir => ["-I"; dir] | None => [] end
  ++ ["-T"; target_profile shaderStage]
  ++ (if spirv then ["-spirv"] else [])
  ++ (if SDL_PLATFORM_XBOX cfg then ["-D__XBOX_DISABLE_PRECOMPILE=1"] else []).

(** DXC wrote nothing to its diagnostics buffer. *)
Definition quiet (r : IDxcResult) : bool :=
  match DXC_OUT_ERRORS r with
  | Some e => size_of e =? 0
  | None => true
  end.

(** The function got as far as creating its two instances. *)
Definition reaches_dxc (cfg : build_config) (st : loader_state) : bool :=
  SDL_GPU_SHADERCROSS_DXC cfg
  && negb (SDL_PLATFORM_XBOX cfg && is_null (SDL_DxcCreateInstance st)).

End DxcDriver.

(** Strings converted letter for letter, and a DXC that compiles whatever
    it is given to four bytes, with an empty diagnostics buffer or with
    one warning in it. *)
Definition sample_strings : DxcDriver.sdl_strings :=
  {| DxcDriver.SDL_utf8strlen := fun s => Z.of_nat (String.length s);
     DxcDriver.SDL_iconv_string := fun s _ => Some s |}.

Definition sample_dxc (diagnostics : option bytes) : DxcDriver.dxc_library :=
  {| DxcDriver.DxcCreateInstance := fun _ => true;
     DxcDriver.CreateDefaultIncludeHandler := true;
     DxcDriver.Compile := fun _ _ _ _ =>
       (0, Some {| DxcDriver.DXC_OUT_ERRORS := diagnostics;
                   DxcDriver.DXC_OUT_OBJECT := (0, Some four_bytes) |}) |}.

(** ** Shader objects for a device *)

(** The characters of a C string with its terminator. *)
Definition c_string (s : string) : bytes := list_byte_of_string s ++ [Byte.x00].

(** [SDL_GPUShaderStage], the stage type of the graphics entry points. *)
Inductive SDL_GPUShaderStage :=
| SDL_GPU_SHADERSTAGE_VERTEX
| SDL_GPU_SHADERSTAGE_FRAGMENT.

(** [(SDL_ShaderCross_ShaderStage)graphicsShaderStage]: the two
    enumerations share their first two values. *)
Definition shadercross_stage (s : SDL_GPUShaderStage) : SDL_ShaderCross_ShaderStage :=
  match s with
  | SDL_GPU_SHADERSTAGE_VERTEX => SDL_SHADERCROSS_SHADERSTAGE_VERTEX
  | SDL_GPU_SHADERSTAGE_FRAGMENT => SDL_SHADERCROSS_SHADERSTAGE_FRAGMENT
  end.

(** [(SDL_GPUShaderStage)shaderStage], taken where [shaderStage] is not
    the compute stage. *)
Definition gpu_stage (s : SDL_ShaderCross_ShaderStage) : SDL_GPUShaderStage :=
  match s with
  | SDL_SHADERCROSS_SHADERSTAGE_FRAGMENT => SDL_GPU_SHADERSTAGE_FRAGMENT
  | _ => SDL_GPU_SHADERSTAGE_VERTEX
  end.

(** [SDL_ShaderCross_INTERNAL_CreateShaderFromSPIRV],
    [SDL_ShaderCross_INTERNAL_CreateShaderFromHLSL] and the public entry
    points around them, with [SDL_ShaderCross_INTERNAL_CompileFromSPIRV]
    once more, this time with the struct it fills for the device.  The
    device itself is outside the program: what it is asked for is what a
    function returns here, and [None] is a return of [NULL] without a call
    to the device. *)
Module Device.

(** The struct filled for [SDL_CreateGPUShader]: a local that is not
    initialised.  [code] is [None] for [NULL]; [code_size] is [None] while
    no statement has written it; [reflected] is [None] when the reflection
    pass returned [false], which leaves the four counts unwritten.  [stage]
    holds the value of [(SDL_GPUShaderStage)shaderStage]. *)
Record shader_create_info := {
  code : option bytes;
  code_size : option Z;
  entrypoint : string;
  format : Z;
  stage : SDL_ShaderCross_ShaderStage;
  props : Z;
  reflected : option SDL_GPUShaderCreateInfo
}.

(** The struct filled for [SDL_CreateGPUComputePipeline]. *)
Record pipeline_create_info := {
  p_code : option bytes;
  p_code_size : option Z;
  p_entrypoint : string;
  p_format : Z;
  p_props : Z;
  p_reflected : option SDL_GPUComputePipelineCreateInfo
}.

Inductive device_request :=
| SDL_CreateGPUShader (createInfo : shader_create_info)
| SDL_CreateGPUComputePipeline (createInfo : pipeline_create_info).

Definition request_format (r : device_request) : Z :=
  match r with
  | SDL_CreateGPUShader i => format i
  | SDL_CreateGPUComputePipeline i => p_format i
  end.

Definition request_entrypoint (r : device_request) : string :=
  match r with
  | SDL_CreateGPUShader i => entrypoint i
  | SDL_CreateGPUComputePipeline i => p_entrypoint i
  end.

Definition request_code (r : device_request) : option bytes :=
  match r with
  | SDL_CreateGPUShader i => code i
  | SDL_CreateGPUComputePipeline i => p_code i
  end.

Definition request_code_size (r : device_request) : option Z :=
  match r with
  | SDL_CreateGPUShader i => code_size i
  | SDL_CreateGPUComputePipeline i => p_code_size i
  end.


Section Device.
Variable cfg : build_config.
Variable st : loader_state.
Variable be : backends.

(** The [if] chain that fills [createInfo.code] and [createInfo.code_size];
    both branches of [SDL_ShaderCross_INTERNAL_CompileFromSPIRV] have it.
    Without the round trip, [SDL_ShaderCross_INTERNAL_CompileDXBCFromHLSL]
    writes 0 to the size when it returns [NULL];
    [SDL_ShaderCross_CompileDXILFromHLSL] writes the size only when it
    returns a buffer. *)
Definition compiled_code (targetFormat : Z) (c : SPIRVTranspileContext)
  (shaderStage : SDL_ShaderCross_ShaderStage) : run (option bytes * option Z) :=
  if targetFormat =? SDL_GPU_SHADERFORMAT_DXBC then
    let* code := SDL_ShaderCross_INTERNAL_CompileDXBCFromHLSL cfg st be (translated_source c)
                   (cleansed_entrypoint c) None shaderStage false in
    ret (code, Some match code with Some b => size_of b | None => 0 end)
  else if targetFormat =? SDL_GPU_SHADERFORMAT_DXIL then
    let* code := SDL_ShaderCross_CompileDXILFromHLSL cfg st be (translated_source c)
                   (cleansed_entrypoint c) None shaderStage in
    ret (code, match code with Some b => Some (size_of b) | None => None end)
  else
    ret (Some (c_string (translated_source c)), Some (SDL_strlen (translated_source c) + 1)).

(** [SDL_ShaderCross_INTERNAL_CompileFromSPIRV] from the call of the
    transpiler on, [backend] and [shadermodel] being chosen. *)
Definition create_transpiled (bytecode : bytes) (entrypoint : string)
  (shaderStage : SDL_ShaderCross_ShaderStage) (targetFormat : Z)
  (backend : spvc_backend) (shadermodel : Z) : run (option device_request) :=
  let* transpileContext := transpile be backend shadermodel shaderStage bytecode entrypoint in
  if stage_eqb shaderStage SDL_SHADERCROSS_SHADERSTAGE_COMPUTE then
    let reflected := SDL_ShaderCross_INTERNAL_ReflectComputeSPIRV (spvc be) bytecode in
    let* c := deref transpileContext in
    let* compiled := compiled_code targetFormat c shaderStage in
    call (CallCreateGPUComputePipeline targetFormat (cleansed_entrypoint c)) ;;;
    ret (Some (SDL_CreateGPUComputePipeline
                 {| p_code := fst compiled; p_code_size := snd compiled;
                    p_entrypoint := cleansed_entrypoint c; p_format := targetFormat;
                    p_props := 0; p_reflected := reflected |}))
  else
    let reflected := SDL_ShaderCross_INTERNAL_ReflectGraphicsSPIRV (spvc be) bytecode in
    let* c := deref transpileContext in
    let* compiled := compiled_code targetFormat c shaderStage in
    call (CallCreateGPUShader targetFormat (cleansed_entrypoint c)) ;;;
    ret (Some (SDL_CreateGPUShader
                 {| code := fst compiled; code_size := snd compiled;
                    entrypoint := cleansed_entrypoint c; format := targetFormat;
                    stage := shaderStage; props := 0; reflected := reflected |})).

Definition SDL_ShaderCross_INTERNAL_CompileFromSPIRV (bytecode : bytes) (entrypoint : string)
  (shaderStage : SDL_ShaderCross_ShaderStage) (targetFormat : Z)
  : run (option device_request) :=
  if targetFormat =? SDL_GPU_SHADERFORMAT_DXBC
  then create_transpiled bytecode entrypoint shaderStage targetFormat SPVC_BACKEND_HLSL 51
  else if targetFormat =? SDL_GPU_SHADERFORMAT_DXIL
  then create_transpiled bytecode entrypoint shaderStage targetFormat SPVC_BACKEND_HLSL 60
  else if targetFormat =? SDL_GPU_SHADERFORMAT_MSL
  then create_transpiled bytecode entrypoint shaderStage targetFormat SPVC_BACKEND_MSL 0
  else ret None.

(** The format the shader is translated to on a device that does not take
    SPIR-V. *)
Definition translation_target (shader_formats : Z) : option Z :=
  if has_format shader_formats SDL_GPU_SHADERFORMAT_MSL then Some SDL_GPU_SHADERFORMAT_MSL
  else if has_format shader_formats SDL_GPU_SHADERFORMAT_DXBC
          && negb (is_null (SDL_D3DCompile st))
  then Some SDL_GPU_SHADERFORMAT_DXBC
  else if SDL_GPU_SHADERCROSS_DXC cfg && has_format shader_formats SDL_GPU_SHADERFORMAT_DXIL
  then Some SDL_GPU_SHADERFORMAT_DXIL
  else None.

(** [shader_formats] is what [SDL_GetGPUShaderFormats (device)] answers. *)
Definition SDL_ShaderCross_INTERNAL_CreateShaderFromSPIRV (shader_formats : Z)
  (bytecode : bytes) (entrypoint : string) (shaderStage : SDL_ShaderCross_ShaderStage)
  : run (option device_request) :=
  if has_format shader_formats SDL_GPU_SHADERFORMAT_SPIRV then
    if stage_eqb shaderStage SDL_SHADERCROSS_SHADERSTAGE_COMPUTE then
      let reflected := SDL_ShaderCross_INTERNAL_ReflectComputeSPIRV (spvc be) bytecode in
      call (CallCreateGPUComputePipeline SDL_GPU_SHADERFORMAT_SPIRV entrypoint) ;;;
      ret (Some (SDL_CreateGPUComputePipeline
                   {| p_code := Some bytecode; p_code_size := Some (size_of bytecode);
                      p_entrypoint := entrypoint; p_format := SDL_GPU_SHADERFORMAT_SPIRV;
                      p_props := 0; p_reflected := reflected |}))
    else
      let reflected := SDL_ShaderCross_INTERNAL_ReflectGraphicsSPIRV (spvc be) bytecode in
      call (CallCreateGPUShader SDL_GPU_SHADERFORMAT_SPIRV entrypoint) ;;;
      ret (Some (SDL_CreateGPUShader
                   {| code := Some bytecode; code_size := Some (size_of bytecode);
                      entrypoint := entrypoint; format := SDL_GPU_SHADERFORMAT_SPIRV;
                      stage := shaderStage; props := 0; reflected := reflected |}))
  else
    match translation_target shader_formats with
    | None => ret None
    | Some format =>
        SDL_ShaderCross_INTERNAL_CompileFromSPIRV bytecode entrypoint shaderStage format
    end.

Definition SDL_ShaderCross_CompileGraphicsShaderFromSPIRV (shader_formats : Z)
  (bytecode : bytes) (entrypoint : string) (shaderStage : SDL_GPUShaderStage)
  : run (option device_request) :=
  SDL_ShaderCross_INTERNAL_CreateShaderFromSPIRV shader_formats bytecode entrypoint
    (shadercross_stage shaderStage).

Definition SDL_ShaderCross_CompileComputePipelineFromSPIRV (shader_formats : Z)
  (bytecode : bytes) (entrypoint : string) : run (option device_request) :=
  SDL_ShaderCross_INTERNAL_CreateShaderFromSPIRV shader_formats bytecode entrypoint
    SDL_SHADERCROSS_SHADERSTAGE_COMPUTE.

(** [format = SDL_GetGPUShaderFormats (device)] is read and not used. *)
Definition SDL_ShaderCross_INTERNAL_CreateShaderFromHLSL (shader_formats : Z)
  (hlslSource entrypoint : string) (includeDir : option string)
  (shaderStage : SDL_ShaderCross_ShaderStage) : run (option device_request) :=
  let* spirv := SDL_ShaderCross_CompileSPIRVFromHLSL cfg st be hlslSource entrypoint
                  includeDir shaderStage in
  match spirv with
  | None => ret None
  | Some spirv =>
      if stage_eqb shaderStage SDL_SHADERCROSS_SHADERSTAGE_COMPUTE
      then SDL_ShaderCross_CompileComputePipelineFromSPIRV shader_formats spirv entrypoint
      else SDL_ShaderCross_CompileGraphicsShaderFromSPIRV shader_formats spirv entrypoint
             (gpu_stage shaderStage)
  end.

Definition SDL_ShaderCross_CompileGraphicsShaderFromHLSL (shader_formats : Z)
  (hlslSource entrypoint : string) (includeDir : option string)
  (graphicsShaderStage : SDL_GPUShaderStage) : run (option device_request) :=
  SDL_ShaderCross_INTERNAL_CreateShaderFromHLSL shader_formats hlslSource entrypoint
    includeDir (shadercross_stage graphicsShaderStage).

Definition SDL_ShaderCross_CompileComputePipelineFromHLSL (shader_formats : Z)
  (hlslSource entrypoint : string) (includeDir : option string)
  : run (option device_request) :=
  SDL_ShaderCross_INTERNAL_CreateShaderFromHLSL shader_formats hlslSource entrypoint
    includeDir SDL_SHADERCROSS_SHADERSTAGE_COMPUTE.

End Device.

(** The device calls of a run. *)
Definition device_calls (t : list backend_call) : list backend_call :=
  filter (fun c =>
            match c with
            | CallCreateGPUShader _ _ | CallCreateGPUComputePipeline _ _ => true
            | _ => false
            end) t.

End Device.


(** A device that takes DXIL only. *)
Definition dxil_device : Z := SDL_GPU_SHADERFORMAT_DXIL.

(** ** The command line tool *)

(** [main] of [cli.c], with [check_for_metal_tools] and
    [compile_metallib] behind it.  The tool is written against a revision
    of the library whose entry points take no include directory and whose
    HLSL transpiler takes a shader model; the library, the file system and
    the processes it starts are outside the program and answer through
    [world].  What is logged and what is freed is not recorded. *)
Module Cli.

Inductive ShaderCross_ShaderFormat :=
| SHADERFORMAT_INVALID
| SHADERFORMAT_SPIRV
| SHADERFORMAT_DXBC
| SHADERFORMAT_DXIL
| SHADERFORMAT_MSL
| SHADERFORMAT_METALLIB
| SHADERFORMAT_HLSL.

Inductive ShaderCross_Platform :=
| PLATFORM_METAL_MACOS
| PLATFORM_METAL_IOS.

Inductive SDL_ShaderCross_ShaderModel :=
| SDL_SHADERCROSS_SHADERMODEL_5_0
| SDL_SHADERCROSS_SHADERMODEL_6_0.

(** The locals of [main] the argument loop works on.  [shaderModel] and
    [platform] are declared without an initialiser: [None] until an option
    sets them. *)
Record locals := {
  sourceValid : bool;
  destinationValid : bool;
  stageValid : bool;
  shaderModelValid : bool;
  platformValid : bool;
  spirvSource : bool;
  destinationFormat : ShaderCross_ShaderFormat;
  shaderStage : SDL_ShaderCross_ShaderStage;
  shaderModel : option SDL_ShaderCross_ShaderModel;
  platform : option ShaderCross_Platform;
  outputFilename : option string;
  entrypointName : string;
  filename : option string;
  accept_optionals : bool
}.

(** Their values when the loop starts. *)
Definition initial : locals :=
  {| sourceValid := false; destinationValid := false; stageValid := false;
     shaderModelValid := false; platformValid := false;
     spirvSource := false; destinationFormat := SHADERFORMAT_INVALID;
     shaderStage := SDL_SHADERCROSS_SHADERSTAGE_VERTEX;
     shaderModel := None; platform := None;
     outputFilename := None; entrypointName := "main";
     filename := None; accept_optionals := true |}.

Definition with_source (l : locals) (spirv : bool) : locals :=
  {| sourceValid := true; destinationValid := destinationValid l;
     stageValid := stageValid l; shaderModelValid := shaderModelValid l;
     platformValid := platformValid l; spirvSource := spirv;
     destinationFormat := destinationFormat l; shaderStage := shaderStage l;
     shaderModel := shaderModel l; platform := platform l;
     outputFilename := outputFilename l; entrypointName := entrypointName l;
     filename := filename l; accept_optionals := accept_optionals l |}.

Definition with_destination (l : locals) (f : ShaderCross_ShaderFormat) : locals :=
  {| sourceValid := sourceValid l; destinationValid := true;
     stageValid := stageValid l; shaderModelValid := shaderModelValid l;
     platformValid := platformValid l; spirvSource := spirvSource l;
     destinationFormat := f; shaderStage := shaderStage l;
     shaderModel := shaderModel l; platform := platform l;
     outputFilename := outputFilename l; entrypointName := entrypointName l;
     filename := filename l; accept_optionals := accept_optionals l |}.

Definition with_stage (l : locals) (s : SDL_ShaderCross_ShaderStage) : locals :=
  {| sourceValid := sourceValid l; destinationValid := destinationValid l;
     stageValid := true; shaderModelValid := shaderModelValid l;
     platformValid := platformValid l; spirvSource := spirvSource l;
     destinationFormat := destinationFormat l; shaderStage := s;
     shaderModel := shaderModel l; platform := platform l;
     outputFilename := outputFilename l; entrypointName := entrypointName l;
     filename := filename l; accept_optionals := accept_optionals l |}.

Definition with_entrypoint (l : locals) (e : string) : locals :=
  {| sourceValid := sourceValid l; destinationValid := destinationValid l;
     stageValid := stageValid l; shaderModelValid := shaderModelValid l;
     platformValid := platformValid l; spirvSource := spirvSource l;
     destinationFormat := destinationFormat l; shaderStage := shaderStage l;
     shaderModel := shaderModel l; platform := platform l;
     outputFilename := outputFilename l; entrypointName := e;
     filename := filename l; accept_optionals := accept_optionals l |}.

Definition with_model (l : locals) (m : SDL_ShaderCross_ShaderModel) : locals :=
  {| sourceValid := sourceValid l; destinationValid := destinationValid l;
     stageValid := stageValid l; shaderModelValid := true;
     platformValid := platformValid l; spirvSource := spirvSource l;
     destinationFormat := destinationFormat l; shaderStage := shaderStage l;
     shaderModel := Some m; platform := platform l;
     outputFilename := outputFilename l; entrypointName := entrypointName l;
     filename := filename l; accept_optionals := accept_optionals l |}.

Definition with_platform (l : locals) (p : ShaderCross_Platform) : locals :=
  {| sourceValid := sourceValid l; destinationValid := destinationValid l;
     stageValid := stageValid l; shaderModelValid := shaderModelValid l;
     platformValid := true; spirvSource := spirvSource l;
     destinationFormat := destinationFormat l; shaderStage := shaderStage l;
     shaderModel := shaderModel l; platform := Some p;
     outputFilename := outputFilename l; entrypointName := entrypointName l;
     filename := filename l; accept_optionals := accept_optionals l |}.

Definition with_output (l : locals) (o : string) : locals :=
  {| sourceValid := sourceValid l; destinationValid := destinationValid l;
     stageValid := stageValid l; shaderModelValid := shaderModelValid l;
     platformValid := platformValid l; spirvSource := spirvSource l;
     destinationFormat := destinationFormat l; shaderStage := shaderStage l;
     shaderModel := shaderModel l; platform := platform l;
     outputFilename := Some o; entrypointName := entrypointName l;
     filename := filename l; accept_optionals := accept_optionals l |}.

Definition with_filename (l : locals) (f : string) : locals :=
  {| sourceValid := sourceValid l; destinationValid := destinationValid l;
     stageValid := stageValid l; shaderModelValid := shaderModelValid l;
     platformValid := platformValid l; spirvSource := spirvSource l;
     destinationFormat := destinationFormat l; shaderStage := shaderStage l;
     shaderModel := shaderModel l; platform := platform l;
     outputFilename := outputFilename l; entrypointName := entrypointName l;
     filename := Some f; accept_optionals := accept_optionals l |}.

Definition without_optionals (l : locals) : locals :=
  {| sourceValid := sourceValid l; destinationValid := destinationValid l;
     stageValid := stageValid l; shaderModelValid := shaderModelValid l;
     platformValid := platformValid l; spirvSource := spirvSource l;
     destinationFormat := destinationFormat l; shaderStage := shaderStage l;
     shaderModel := shaderModel l; platform := platform l;
     outputFilename := outputFilename l; entrypointName := entrypointName l;
     filename := filename l; accept_optionals := false |}.

(** The assignments the inference blocks make: the value alone. *)
Definition assign_spirvSource (l : locals) (spirv : bool) : locals :=
  {| sourceValid := sourceValid l; destinationValid := destinationValid l;
     stageValid := stageValid l; shaderModelValid := shaderModelValid l;
     platformValid := platformValid l; spirvSource := spirv;
     destinationFormat := destinationFormat l; shaderStage := shaderStage l;
     shaderModel := shaderModel l; platform := platform l;
     outputFilename := outputFilename l; entrypointName := entrypointName l;
     filename := filename l; accept_optionals := accept_optionals l |}.

Definition assign_destinationFormat (l : locals) (f : ShaderCross_ShaderFormat) : locals :=
  {| sourceValid := sourceValid l; destinationValid := destinationValid l;
     stageValid := stageValid l; shaderModelValid := shaderModelValid l;
     platformValid := platformValid l; spirvSource := spirvSource l;
     destinationFormat := f; shaderStage := shaderStage l;
     shaderModel := shaderModel l; platform := platform l;
     outputFilename := outputFilename l; entrypointName := entrypointName l;
     filename := filename l; accept_optionals := accept_optionals l |}.

Definition assign_shaderStage (l : locals) (s : SDL_ShaderCross_ShaderStage) : locals :=
  {| sourceValid := sourceValid l; destinationValid := destinationValid l;
     stageValid := stageValid l; shaderModelValid := shaderModelValid l;
     platformValid := platformValid l; spirvSource := spirvSource l;
     destinationFormat := destinationFormat l; shaderStage := s;
     shaderModel := shaderModel l; platform := platform l;
     outputFilename := outputFilename l; entrypointName := entrypointName l;
     filename := filename l; accept_optionals := accept_optionals l |}.

(** [SDL_strcmp (a, b) == 0] *)
Definition same (a b : string) : bool := String.eqb a b.

(** [arg[0] == '-'] *)
Definition dashed (arg : string) : bool :=
  match arg with
  | String c _ => Ascii.eqb c "-"%char
  | EmptyString => false
  end.

(** [SDL_strstr (haystack, needle)] is not [NULL]. *)
Definition SDL_strstr (haystack needle : string) : bool :=
  negb (is_null (String.index 0 needle haystack)).

(** The argument loop either returns from [main] or falls through. *)
Inductive parsed :=
| Return (code : Z)
| Continue (l : locals).

Section Main.
(** [SDL_strcasecmp] and [SDL_strcasestr] compare by case folding; they are
    taken as SDL has them. *)
Variable SDL_strcasecmp : string -> string -> Z.
Variable SDL_strcasestr : string -> string -> bool.

(** The loop [for (int i = 1; i < argc; i += 1)] over [argv[i]]; an option
    that takes a value advances [i] once more. *)
Fixpoint arguments (argv : list string) (l : locals) : parsed :=
  match argv with
  | [] => Continue l
  | arg :: argv =>
      if accept_optionals l && dashed arg then
        if same arg "-h" || same arg "--help" then Return 0
        else if same arg "-s" || same arg "--source" then
          match argv with
          | [] => Return 1
          | value :: argv =>
              if SDL_strcasecmp value "spirv" =? 0 then arguments argv (with_source l true)
              else if SDL_strcasecmp value "hlsl" =? 0 then arguments argv (with_source l false)
              else Return 1
          end
        else if same arg "-d" || same arg "--dest" then
          match argv with
          | [] => Return 1
          | value :: argv =>
              if SDL_strcasecmp value "DXBC" =? 0
              then arguments argv (with_destination l SHADERFORMAT_DXBC)
              else if SDL_strcasecmp value "DXIL" =? 0
              then arguments argv (with_destination l SHADERFORMAT_DXIL)
              else if SDL_strcasecmp value "MSL" =? 0
              then arguments argv (with_destination l SHADERFORMAT_MSL)
              else if SDL_strcasecmp value "SPIRV" =? 0
              then arguments argv (with_destination l SHADERFORMAT_SPIRV)
              else if SDL_strcasecmp value "HLSL" =? 0
              then arguments argv (with_destination l SHADERFORMAT_HLSL)
              else if SDL_strcasecmp value "METALLIB" =? 0
              then arguments argv (with_destination l SHADERFORMAT_METALLIB)
              else Return 1
          end
        else if same arg "-t" || same arg "--stage" then
          match argv with
          | [] => Return 1
          | value :: argv =>
              if SDL_strcasecmp value "vertex" =? 0
              then arguments argv (with_stage l SDL_SHADERCROSS_SHADERSTAGE_VERTEX)
              else if SDL_strcasecmp value "fragment" =? 0
              then arguments argv (with_stage l SDL_SHADERCROSS_SHADERSTAGE_FRAGMENT)
              else if SDL_strcasecmp value "compute" =? 0
              then arguments argv (with_stage l SDL_SHADERCROSS_SHADERSTAGE_COMPUTE)
              else Return 1
          end
        else if same arg "-e" || same arg "--entrypoint" then
          match argv with
          | [] => Return 1
          | value :: argv => arguments argv (with_entrypoint l value)
          end
        else if same arg "-m" || same arg "--model" then
          match argv with
          | [] => Return 1
          | value :: argv =>
              if same value "5.0"
              then arguments argv (with_model l SDL_SHADERCROSS_SHADERMODEL_5_0)
              else if same value "6.0"
              then arguments argv (with_model l SDL_SHADERCROSS_SHADERMODEL_6_0)
              else Return 1
          end
        else if same arg "-p" || same arg "--platform" then
          match argv with
          | [] => Return 1
          | value :: argv =>
              if SDL_strcasecmp value "macOS" =? 0
              then arguments argv (with_platform l PLATFORM_METAL_MACOS)
              else if SDL_strcasecmp value "iOS" =? 0
              then arguments argv (with_platform l PLATFORM_METAL_IOS)
              else Return 1
          end
        else if same arg "-o" || same arg "--output" then
          match argv with
          | [] => Return 1
          | value :: argv => arguments argv (with_output l value)
          end
        else if same arg "--" then arguments argv (without_optionals l)
        else Return 1
      else if is_null (filename l) then arguments argv (with_filename l arg)
      else Return 1
  end.

(** The three blocks that infer what no option has set, from the names of
    the input and the output file. *)
Definition infer_source (l : locals) (filename : string) : option locals :=
  if sourceValid l then Some l
  else if SDL_strstr filename ".spv" then Some (assign_spirvSource l true)
  else if SDL_strstr filename ".hlsl" then Some (assign_spirvSource l false)
  else None.

Definition infer_destination (l : locals) (outputFilename : string) : option locals :=
  if destinationValid l then Some l
  else if SDL_strstr outputFilename ".dxbc"
  then Some (assign_destinationFormat l SHADERFORMAT_DXBC)
  else if SDL_strstr outputFilename ".dxil"
  then Some (assign_destinationFormat l SHADERFORMAT_DXIL)
  else if SDL_strstr outputFilename ".msl"
  then Some (assign_destinationFormat l SHADERFORMAT_MSL)
  else if SDL_strstr outputFilename ".metallib"
  then Some (assign_destinationFormat l SHADERFORMAT_METALLIB)
  else if SDL_strstr outputFilename ".spv"
  then Some (assign_destinationFormat l SHADERFORMAT_SPIRV)
  else if SDL_strstr outputFilename ".hlsl"
  then Some (assign_destinationFormat l SHADERFORMAT_HLSL)
  else None.

Definition infer_stage (l : locals) (filename : string) : option locals :=
  if stageValid l then Some l
  else if SDL_strcasestr filename ".vert"
  then Some (assign_shaderStage l SDL_SHADERCROSS_SHADERSTAGE_VERTEX)
  else if SDL_strcasestr filename ".frag"
  then Some (assign_shaderStage l SDL_SHADERCROSS_SHADERSTAGE_FRAGMENT)
  else if SDL_strcasestr filename ".comp"
  then Some (assign_shaderStage l SDL_SHADERCROSS_SHADERSTAGE_COMPUTE)
  else None.

End Main.

(** The platform the tool is built for. *)
Inductive host_platform :=
| SDL_PLATFORM_MACOS
| SDL_PLATFORM_WINDOWS
| SDL_PLATFORM_OTHER.

(** A buffer a compile function hands back, with the value it has written
    to [*size], if it has written one. *)
Definition compiled : Type := option bytes * option Z.

(** What is outside the program.  [SDL_CreateProcess] answers with the exit
    status the process ends with, [None] when no process could be
    started. *)
Record world := {
  SDL_LoadFile : string -> option bytes;
  SDL_ShaderCross_Init : bool;
  SDL_IOFromFile : string -> string -> bool;
  SDL_ShaderCross_CompileDXBCFromSPIRV :
    bytes -> Z -> string -> SDL_ShaderCross_ShaderStage -> compiled;
  SDL_ShaderCross_CompileDXILFromSPIRV :
    bytes -> Z -> string -> SDL_ShaderCross_ShaderStage -> compiled;
  SDL_ShaderCross_TranspileMSLFromSPIRV :
    bytes -> option Z -> string -> SDL_ShaderCross_ShaderStage -> option string;
  SDL_ShaderCross_TranspileHLSLFromSPIRV :
    bytes -> option Z -> string -> SDL_ShaderCross_ShaderStage ->
    SDL_ShaderCross_ShaderModel -> option string;
  SDL_ShaderCross_CompileDXBCFromHLSL :
    bytes -> string -> SDL_ShaderCross_ShaderStage -> compiled;
  SDL_ShaderCross_CompileDXILFromHLSL :
    bytes -> string -> SDL_ShaderCross_ShaderStage -> compiled;
  SDL_ShaderCross_CompileSPIRVFromHLSL :
    bytes -> string -> SDL_ShaderCross_ShaderStage -> compiled;
  SDL_CreateProcessWithProperties : list string -> bool;
  SDL_CreateProcess : list string -> option Z
}.

(** What the tool does to the outside, in order.  A stream is named by the
    file it was opened on; [None] is a [NULL] stream. *)
Inductive event :=
| LoadFile (file : string)
| ShaderCross_Init
| IOFromFile (file mode : string)
| CompileDXBCFromSPIRV (data : bytes) (entrypoint : string)
    (stage : SDL_ShaderCross_ShaderStage)
| CompileDXILFromSPIRV (data : bytes) (entrypoint : string)
    (stage : SDL_ShaderCross_ShaderStage)
| TranspileMSLFromSPIRV (data : bytes) (entrypoint : string)
    (stage : SDL_ShaderCross_ShaderStage)
| TranspileHLSLFromSPIRV (data : bytes) (entrypoint : string)
    (stage : SDL_ShaderCross_ShaderStage) (model : SDL_ShaderCross_ShaderModel)
| CompileDXBCFromHLSL (data : bytes) (entrypoint : string)
    (stage : SDL_ShaderCross_ShaderStage)
| CompileDXILFromHLSL (data : bytes) (entrypoint : string)
    (stage : SDL_ShaderCross_ShaderStage)
| CompileSPIRVFromHLSL (data : bytes) (entrypoint : string)
    (stage : SDL_ShaderCross_ShaderStage)
| WriteIO (stream : option string) (buffer : option bytes) (size : option Z)
| IOprintf (stream : option string) (text : option string)
| CloseIO (stream : option string)
| CreateProcessWithProperties (args : list string)
| CreateProcess (args : list string)
| RemovePath (path : string)
| ShaderCross_Quit.

Definition script (A : Type) : Type := list event * completion A.

Definition done {A : Type} (a : A) : script A := ([], Returned a).

Definition after {A : Type} (ev : list event) (m : script A) : script A :=
  (ev ++ fst m, snd m).

Section Tool.
Variable SDL_strcasecmp : string -> string -> Z.
Variable SDL_strcasestr : string -> string -> bool.
Variable host : host_platform.
Variable w : world.

Definition check_for_metal_tools : script bool :=
  match host with
  | SDL_PLATFORM_OTHER => done false
  | _ =>
      let compilerName :=
        match host with SDL_PLATFORM_MACOS => "xcrun" | _ => "metal" end in
      after [CreateProcessWithProperties [compilerName; "--help"]]
        (done (SDL_CreateProcessWithProperties w [compilerName; "--help"]))
  end.

(** [exitcode] is a local [SDL_WaitProcess] writes only for a process that
    exists; the test that follows reads it.  At the second test it still
    holds the 0 of the first process when the second could not be
    started. *)
Definition compile_metallib (platform : ShaderCross_Platform) (outputFilename : string)
  : script Z :=
  let '(stdString, minversion) :=
    match platform with
    | PLATFORM_METAL_MACOS => ("-std=macos-metal2.0", "-mmacosx-version-min=10.13")
    | PLATFORM_METAL_IOS => ("-std=ios-metal2.0", "-miphoneos-version-min=13.0")
    end in
  let sdkString :=
    match platform with PLATFORM_METAL_MACOS => "macosx" | PLATFORM_METAL_IOS => "iphoneos" end in
  let '(compileToIRCommand, compileToMetallibCommand) :=
    match host with
    | SDL_PLATFORM_MACOS =>
        (["xcrun"; "-sdk"; sdkString; "metal"; stdString; minversion; "-Wall"; "-O3"; "-c";
          "tmp.metal"; "-o"; "tmp.ir"],
         ["xcrun"; "-sdk"; sdkString; "metallib"; "tmp.ir"; "-o"; outputFilename])
    | _ =>
        (["metal"; stdString; minversion; "-Wall"; "-O3"; "-c"; "tmp.metal"; "-o"; "tmp.ir"],
         ["metallib"; "tmp.ir"; "-o"; outputFilename])
    end in
  after [CreateProcess compileToIRCommand; RemovePath "tmp.metal"]
    match SDL_CreateProcess w compileToIRCommand with
    | None => ([], ReadsUnwritten)
    | Some exitcode =>
        if negb (exitcode =? 0) then done exitcode
        else
          after [CreateProcess compileToMetallibCommand; RemovePath "tmp.ir"]
            match SDL_CreateProcess w compileToMetallibCommand with
            | None => done 0
            | Some exitcode => if negb (exitcode =? 0) then done exitcode else done 0
            end
    end.

(** The two [METALLIB] cases from the closing of the output stream on:
    [spirv] and its size come from the input file or from the compile that
    precedes. *)
Definition metallib (l : locals) (outputFilename : string) (platform : ShaderCross_Platform)
  (spirv : bytes) (size : option Z) (k : script Z) : script Z :=
  let tempFileIO :=
    if SDL_IOFromFile w "tmp.metal" "w" then Some "tmp.metal" else None in
  let buffer :=
    SDL_ShaderCross_TranspileMSLFromSPIRV w spirv size (entrypointName l) (shaderStage l) in
  after [CloseIO (Some outputFilename); IOFromFile "tmp.metal" "w";
         TranspileMSLFromSPIRV spirv (entrypointName l) (shaderStage l);
         IOprintf tempFileIO buffer; CloseIO tempFileIO]
    match compile_metallib platform outputFilename with
    | (ev, Returned exitcode) => after ev (if negb (exitcode =? 0) then done 1 else k)
    | (ev, ReadsNull) => (ev, ReadsNull)
    | (ev, ReadsUnwritten) => (ev, ReadsUnwritten)
    | (ev, WritesOutside) => (ev, WritesOutside)
    end.

(** [SDL_CloseIO (outputIO); SDL_free (fileData); SDL_ShaderCross_Quit ();
    return 0;] *)
Definition finish (outputIO : option string) : script Z :=
  after [CloseIO outputIO; ShaderCross_Quit] (done 0).

(** The two [switch] statements. *)
Definition convert (l : locals) (outputFilename : string) (fileData : bytes) : script Z :=
  let outputIO := Some outputFilename in
  let fileSize := size_of fileData in
  let entrypointName := entrypointName l in
  let shaderStage := shaderStage l in
  if spirvSource l then
    match destinationFormat l with
    | SHADERFORMAT_DXBC =>
        let '(buffer, bytecodeSize) :=
          SDL_ShaderCross_CompileDXBCFromSPIRV w fileData fileSize entrypointName shaderStage in
        after [CompileDXBCFromSPIRV fileData entrypointName shaderStage;
               WriteIO outputIO buffer bytecodeSize]
          (finish outputIO)
    | SHADERFORMAT_DXIL =>
        let '(buffer, bytecodeSize) :=
          SDL_ShaderCross_CompileDXILFromSPIRV w fileData fileSize entrypointName shaderStage in
        after [CompileDXILFromSPIRV fileData entrypointName shaderStage;
               WriteIO outputIO buffer bytecodeSize]
          (finish outputIO)
    | SHADERFORMAT_MSL =>
        let buffer :=
          SDL_ShaderCross_TranspileMSLFromSPIRV w fileData (Some fileSize) entrypointName
            shaderStage in
        after [TranspileMSLFromSPIRV fileData entrypointName shaderStage;
               IOprintf outputIO buffer]
          (finish outputIO)
    | SHADERFORMAT_METALLIB =>
        if negb (platformValid l) then done 1
        else
          match check_for_metal_tools with
          | (ev, Returned true) =>
              after ev
                match platform l with
                | None => ([], ReadsUnwritten)
                | Some platform =>
                    metallib l outputFilename platform fileData (Some fileSize) (finish None)
                end
          | (ev, Returned false) => after ev (done 1)
          | (ev, ReadsNull) => (ev, ReadsNull)
          | (ev, ReadsUnwritten) => (ev, ReadsUnwritten)
          | (ev, WritesOutside) => (ev, WritesOutside)
          end
    | SHADERFORMAT_HLSL =>
        if negb (shaderModelValid l) then done 1
        else
          match shaderModel l with
          | None => ([], ReadsUnwritten)
          | Some shaderModel =>
              let buffer :=
                SDL_ShaderCross_TranspileHLSLFromSPIRV w fileData (Some fileSize)
                  entrypointName shaderStage shaderModel in
              after [TranspileHLSLFromSPIRV fileData entrypointName shaderStage shaderModel;
                     IOprintf outputIO buffer]
                (finish outputIO)
          end
    | SHADERFORMAT_SPIRV => done 1
    | SHADERFORMAT_INVALID => done 1
    end
  else
    match destinationFormat l with
    | SHADERFORMAT_DXBC =>
        let '(buffer, bytecodeSize) :=
          SDL_ShaderCross_CompileDXBCFromHLSL w fileData entrypointName shaderStage in
        after [CompileDXBCFromHLSL fileData entrypointName shaderStage;
               WriteIO outputIO buffer bytecodeSize]
          (finish outputIO)
    | SHADERFORMAT_DXIL =>
        let '(buffer, bytecodeSize) :=
          SDL_ShaderCross_CompileDXILFromHLSL w fileData entrypointName shaderStage in
        after [CompileDXILFromHLSL fileData entrypointName shaderStage;
               WriteIO outputIO buffer bytecodeSize]
          (finish outputIO)
    | SHADERFORMAT_MSL =>
        let '(spirv, bytecodeSize) :=
          SDL_ShaderCross_CompileSPIRVFromHLSL w fileData entrypointName shaderStage in
        after [CompileSPIRVFromHLSL fileData entrypointName shaderStage]
          match spirv with
          | None => done 1
          | Some spirv =>
              let buffer :=
                SDL_ShaderCross_TranspileMSLFromSPIRV w spirv bytecodeSize entrypointName
                  shaderStage in
              after [TranspileMSLFromSPIRV spirv entrypointName shaderStage;
                     IOprintf outputIO buffer]
                (finish outputIO)
          end
    | SHADERFORMAT_METALLIB =>
        if negb (platformValid l) then done 1
        else
          match check_for_metal_tools with
          | (ev, Returned true) =>
              after ev
                (let '(spirv, bytecodeSize) :=
                   SDL_ShaderCross_CompileSPIRVFromHLSL w fileData entrypointName shaderStage in
                 after [CompileSPIRVFromHLSL fileData entrypointName shaderStage]
                   match spirv with
                   | None => done 1
                   | Some spirv =>
                       match platform l with
                       | None => ([], ReadsUnwritten)
                       | Some platform =>
                           metallib l outputFilename platform spirv bytecodeSize (finish None)
                       end
                   end)
          | (ev, Returned false) => after ev (done 1)
          | (ev, ReadsNull) => (ev, ReadsNull)
          | (ev, ReadsUnwritten) => (ev, ReadsUnwritten)
          | (ev, WritesOutside) => (ev, WritesOutside)
          end
    | SHADERFORMAT_SPIRV =>
        let '(buffer, bytecodeSize) :=
          SDL_ShaderCross_CompileSPIRVFromHLSL w fileData entrypointName shaderStage in
        after [CompileSPIRVFromHLSL fileData entrypointName shaderStage;
               WriteIO outputIO buffer bytecodeSize]
          (done 0)
    | SHADERFORMAT_HLSL =>
        if negb (shaderModelValid l) then done 1
        else
          let '(spirv, bytecodeSize) :=
            SDL_ShaderCross_CompileSPIRVFromHLSL w fileData entrypointName shaderStage in
          after [CompileSPIRVFromHLSL fileData entrypointName shaderStage]
            match spirv with
            | None => done 1
            | Some spirv =>
                match shaderModel l with
                | None => ([], ReadsUnwritten)
                | Some shaderModel =>
                    let buffer :=
                      SDL_ShaderCross_TranspileHLSLFromSPIRV w spirv bytecodeSize
                        entrypointName shaderStage shaderModel in
                    after [TranspileHLSLFromSPIRV spirv entrypointName shaderStage shaderModel;
                           IOprintf outputIO buffer]
                      (finish outputIO)
                end
            end
    | SHADERFORMAT_INVALID => done 1
    end.

(** [main], [argv[0]] included in [argv]. *)
Definition main (argv : list string) : script Z :=
  match arguments SDL_strcasecmp (tl argv) initial with
  | Return code => done code
  | Continue l =>
      match filename l with
      | None => done 1
      | Some filename =>
          match outputFilename l with
          | None => done 1
          | Some outputFilename =>
              after [LoadFile filename]
                match SDL_LoadFile w filename with
                | None => done 1
                | Some fileData =>
                    after [ShaderCross_Init]
                      (if negb (SDL_ShaderCross_Init w) then done 1
                       else
                         match infer_source l filename with
                         | None => done 1
                         | Some l =>
                             match infer_destination l outputFilename with
                             | None => done 1
                             | Some l =>
                                 match infer_stage SDL_strcasestr l filename with
                                 | None => done 1
                                 | Some l =>
                                     after [IOFromFile outputFilename "w"]
                                       (if negb (SDL_IOFromFile w outputFilename "w")
                                        then done 1
                                        else convert l outputFilename fileData)
                                 end
                             end
                         end)
                end
          end
      end
  end.

End Tool.

(** Two worlds in which the file system, the processes and
    [SDL_ShaderCross_Init] answer alike, and in which
    [SDL_ShaderCross_CompileSPIRVFromHLSL] returns [NULL] for the same
    sources. *)
Definition alike (w1 w2 : world) : Prop :=
  (forall f, SDL_LoadFile w1 f = SDL_LoadFile w2 f)
  /\ SDL_ShaderCross_Init w1 = SDL_ShaderCross_Init w2
  /\ (forall f m, SDL_IOFromFile w1 f m = SDL_IOFromFile w2 f m)
  /\ (forall d e s,
        is_null (fst (SDL_ShaderCross_CompileSPIRVFromHLSL w1 d e s))
        = is_null (fst (SDL_ShaderCross_CompileSPIRVFromHLSL w2 d e s)))
  /\ (forall a, SDL_CreateProcessWithProperties w1 a = SDL_CreateProcessWithProperties w2 a)
  /\ (forall a, SDL_CreateProcess w1 a = SDL_CreateProcess w2 a).

End Cli.

(** [SDL_strcasecmp] and [SDL_strcasestr] on plain letters: upper case is
    folded to lower case, byte by byte. *)
Definition fold_case (c : ascii) : ascii :=
  let n := nat_of_ascii c in
  if ((65 <=? n) && (n <=? 90))%nat then ascii_of_nat (n + 32) else c.

Fixpoint fold_string (s : string) : string :=
  match s with
  | EmptyString => EmptyString
  | String c s => String (fold_case c) (fold_string s)
  end.

Definition ascii_strcasecmp (a b : string) : Z :=
  if String.eqb (fold_string a) (fold_string b) then 0 else 1.

Definition ascii_strcasestr (haystack needle : string) : bool :=
  Cli.SDL_strstr (fold_string haystack) (fold_string needle).

(** A world in which files load as four bytes, every stream opens and every
    library function returns [NULL]. *)
Definition failing_world : Cli.world :=
  {| Cli.SDL_LoadFile := fun _ => Some four_bytes;
     Cli.SDL_ShaderCross_Init := true;
     Cli.SDL_IOFromFile := fun _ _ => true;
     Cli.SDL_ShaderCross_CompileDXBCFromSPIRV := fun _ _ _ _ => (None, None);
     Cli.SDL_ShaderCross_CompileDXILFromSPIRV := fun _ _ _ _ => (None, None);
     Cli.SDL_ShaderCross_TranspileMSLFromSPIRV := fun _ _ _ _ => None;
     Cli.SDL_ShaderCross_TranspileHLSLFromSPIRV := fun _ _ _ _ _ => None;
     Cli.SDL_ShaderCross_CompileDXBCFromHLSL := fun _ _ _ => (None, Some 0);
     Cli.SDL_ShaderCross_CompileDXILFromHLSL := fun _ _ _ => (None, None);
     Cli.SDL_ShaderCross_CompileSPIRVFromHLSL := fun _ _ _ => (None, None);
     Cli.SDL_CreateProcessWithProperties := fun _ => false;
     Cli.SDL_CreateProcess := fun _ => None |}.

(** The same world with a library that compiles and transpiles SPIR-V and
    compiles HLSL to DXBC and DXIL; of an HLSL source it makes no SPIR-V, as
    in the world above. *)
Definition working_world : Cli.world :=
  {| Cli.SDL_LoadFile := fun _ => Some four_bytes;
     Cli.SDL_ShaderCross_Init := true;
     Cli.SDL_IOFromFile := fun _ _ => true;
     Cli.SDL_ShaderCross_CompileDXBCFromSPIRV := fun _ _ _ _ => (Some four_bytes, Some 4);
     Cli.SDL_ShaderCross_CompileDXILFromSPIRV := fun _ _ _ _ => (Some four_bytes, Some 4);
     Cli.SDL_ShaderCross_TranspileMSLFromSPIRV := fun _ _ _ _ => Some "msl";
     Cli.SDL_ShaderCross_TranspileHLSLFromSPIRV := fun _ _ _ _ _ => Some "hlsl";
     Cli.SDL_ShaderCross_CompileDXBCFromHLSL := fun _ _ _ => (Some four_bytes, Some 4);
     Cli.SDL_ShaderCross_CompileDXILFromHLSL := fun _ _ _ => (Some four_bytes, Some 4);
     Cli.SDL_ShaderCross_CompileSPIRVFromHLSL := fun _ _ _ => (None, None);
     Cli.SDL_CreateProcessWithProperties := fun _ => false;
     Cli.SDL_CreateProcess := fun _ => None |}.

(** ** The revision that loads its libraries at run time: compiling and creating *)

(** The functions of that revision between the loader and the device.  The
    shader profile is a string the caller passes; the create-info structs
    are passed as [const void *] and read through the three members the two
    struct types share.  SPIRV-Cross is called through the [SDL_spvc_*]
    names, which stand for the library's functions here; the pointers
    behind [SDL_DxcCreateInstance] and [SDL_D3DCompile] are those of the
    loader state. *)
Module DynloadChain.

(** [SDL_GPUShaderCreateInfo] and [SDL_GPUComputePipelineCreateInfo]:
    [code] is [None] for [NULL]; [stage] is [None] in a pipeline struct and
    in a shader struct whose [stage] no statement has written; [rest]
    stands for the members the code never names, [None] while they are
    unwritten. *)
Record create_info := {
  code : option bytes;
  code_size : Z;
  entrypoint : string;
  format : Z;
  stage : option SDL_GPUShaderStage;
  rest : option Z
}.

(** [newCreateInfo = *createInfo] followed by the three assignments. *)
Definition with_code (createInfo : create_info) (bytecode : option bytes) (bytecodeSize : Z)
  (f : Z) : create_info :=
  {| code := bytecode; code_size := bytecodeSize; entrypoint := entrypoint createInfo;
     format := f; stage := stage createInfo; rest := rest createInfo |}.

(** The libraries as the code calls them.  [D3DCompile] receives the
    source, [SrcDataSize], the entry point and the target, and answers with
    its [HRESULT], [*ppCode] and [*ppErrorMsgs]. *)
Record libraries := {
  D3DCompile : string -> Z -> string -> string -> Z * option bytes * option string;
  dxc : DxcDriver.dxc_library;
  spvc : spvc_library
}.

(** What a function asks of the compilers and of the device, in order.
    The device functions receive a pointer; [None] is [NULL]. *)
Inductive event :=
| CallD3DCompile (pSrcData : string) (SrcDataSize : Z) (pEntrypoint pTarget : string)
| CallCompile (Ptr : string) (Size : Z) (args : list (option string)) (argCount : Z)
| Release (o : DxcDriver.com_object)
| SDL_CreateGPUShader (createInfo : option create_info)
| SDL_CreateGPUComputePipeline (createInfo : option create_info).

Definition run (A : Type) : Type := list event * completion A.

Definition ret {A : Type} (a : A) : run A := ([], Returned a).

Definition then_ {A B : Type} (m : run A) (k : A -> run B) : run B :=
  match snd m with
  | Returned a => (fst m ++ fst (k a), snd (k a))
  | ReadsNull => (fst m, ReadsNull)
  | ReadsUnwritten => (fst m, ReadsUnwritten)
  | WritesOutside => (fst m, WritesOutside)
  end.

Notation "x <~ e ;; k" := (then_ e (fun x => k))
  (at level 61, e at next level, right associativity).

Definition call (e : event) : run unit := ([e], Returned tt).

(** [shaderProfile[0] == 'c' && shaderProfile[1] == 's'] *)
Definition starts_cs (shaderProfile : string) : bool :=
  match shaderProfile with
  | String c (String s _) => Ascii.eqb c "c"%char && Ascii.eqb s "s"%char
  | _ => false
  end.

(** The argument array of the DXC driver: six slots, the first two filled
    by the initialiser. *)
Definition arguments (cfg : Dynload.build_config) (shaderProfile : string) (spirv : bool)
  : option (list (option string) * Z) :=
  let a := ([Some "-E"; Some "main"; None; None; None; None], 2) in
  a <- (if String.eqb shaderProfile "ps_6_0"
        then a <- DxcDriver.push a "-T" ;; DxcDriver.push a "ps_6_0"
        else if String.eqb shaderProfile "vs_6_0"
        then a <- DxcDriver.push a "-T" ;; DxcDriver.push a "vs_6_0"
        else if String.eqb shaderProfile "cs_6_0"
        then a <- DxcDriver.push a "-T" ;; DxcDriver.push a "cs_6_0"
        else Some a) ;;
  a <- (if spirv then DxcDriver.push a "-spirv" else Some a) ;;
  a <- (if Dynload.GAMING_XBOX cfg
        then DxcDriver.push a "-D__XBOX_DISABLE_PRECOMPILE=1" else Some a) ;;
  Some a.

(** The command line the array is meant to hold. *)
Definition command_line (cfg : Dynload.build_config) (shaderProfile : string) (spirv : bool)
  : list string :=
  ["-E"; "main"]
  ++ (if String.eqb shaderProfile "ps_6_0" || String.eqb shaderProfile "vs_6_0"
         || String.eqb shaderProfile "cs_6_0"
      then ["-T"; shaderProfile] else [])
  ++ (if spirv then ["-spirv"] else [])
  ++ (if Dynload.GAMING_XBOX cfg then ["-D__XBOX_DISABLE_PRECOMPILE=1"] else []).

Section Chain.
Variable cfg : Dynload.build_config.
Variable st : Dynload.loader_state.
Variable lib : libraries.

(** The buffer returned and what [*size] holds: [None] while the function
    has not written it.  [SDL_DxcCreateInstance] is called without a test
    of the pointer. *)
Definition SDL_ShaderCross_INTERNAL_CompileUsingDXC (hlslSource entrypoint shaderProfile : string)
  (spirv : bool) : run (option bytes * option Z) :=
  if is_null (Dynload.SDL_DxcCreateInstance st) then ([], ReadsNull) else
  if negb (DxcDriver.DxcCreateInstance (dxc lib) DxcDriver.CLSID_DxcCompiler)
  then ret (None, None) else
  match arguments cfg shaderProfile spirv with
  | None => ([], WritesOutside)
  | Some (args, argCount) =>
      let '(result, dxcResult) :=
        DxcDriver.Compile (dxc lib) hlslSource (SDL_strlen hlslSource + 1) args argCount in
      let compiled := [CallCompile hlslSource (SDL_strlen hlslSource + 1) args argCount] in
      if result <? 0 then (compiled ++ [Release DxcDriver.dxcInstance], Returned (None, None))
      else
        match dxcResult with
        | None => (compiled ++ [Release DxcDriver.dxcInstance], Returned (None, None))
        | Some r =>
            if match DxcDriver.DXC_OUT_ERRORS r with
               | Some e => negb (size_of e =? 0)
               | None => false
               end
            then (compiled ++ [Release DxcDriver.dxcResult; Release DxcDriver.dxcInstance],
                  Returned (None, None))
            else
              let '(result, blob) := DxcDriver.DXC_OUT_OBJECT r in
              if result <? 0
              then (compiled ++ [Release DxcDriver.dxcResult; Release DxcDriver.dxcInstance],
                    Returned (None, None))
              else
                match blob with
                | None => (compiled, ReadsNull)
                | Some b =>
                    (compiled ++ [Release DxcDriver.dxcResult; Release DxcDriver.dxcInstance],
                     Returned (Some b, Some (size_of b)))
                end
        end
  end.

Definition SDL_ShaderCross_CompileDXILFromHLSL (hlslSource entrypoint shaderProfile : string)
  : run (option bytes * option Z) :=
  SDL_ShaderCross_INTERNAL_CompileUsingDXC hlslSource entrypoint shaderProfile false.

Definition SDL_ShaderCross_CompileSPIRVFromHLSL (hlslSource entrypoint shaderProfile : string)
  : run (option bytes * option Z) :=
  SDL_ShaderCross_INTERNAL_CompileUsingDXC hlslSource entrypoint shaderProfile true.

(** [newCreateInfo.code_size = bytecodeSize] reads the local the compile
    function has written when it returned a buffer. *)
Definition create_from (createInfo : create_info) (shaderProfile : string)
  (bytecode : option bytes * option Z) (f : Z) : run (option create_info) :=
  match fst bytecode with
  | None => ret None
  | Some b =>
      match snd bytecode with
      | None => ([], ReadsUnwritten)
      | Some bytecodeSize =>
          let newCreateInfo := with_code createInfo (Some b) bytecodeSize f in
          _ <~ call (if starts_cs shaderProfile
                     then SDL_CreateGPUComputePipeline (Some newCreateInfo)
                     else SDL_CreateGPUShader (Some newCreateInfo)) ;;
          ret (Some newCreateInfo)
      end
  end.

Definition SDL_ShaderCross_INTERNAL_CreateShaderFromDXC (createInfo : create_info)
  (hlslSource shaderProfile : string) (spirv : bool) : run (option create_info) :=
  bytecode <~ SDL_ShaderCross_INTERNAL_CompileUsingDXC hlslSource (entrypoint createInfo)
                shaderProfile spirv ;;
  create_from createInfo shaderProfile bytecode
    (if spirv then SDL_GPU_SHADERFORMAT_SPIRV else SDL_GPU_SHADERFORMAT_DXIL).

(** [SDL_D3DCompile] is called without a test of the pointer; when it
    fails, the text of [errorBlob] is read for the log. *)
Definition SDL_ShaderCross_INTERNAL_CompileDXBC (hlslSource entrypoint shaderProfile : string)
  : run (option bytes) :=
  if is_null (Dynload.SDL_D3DCompile st) then ([], ReadsNull) else
  let '(result, blob, errorBlob) :=
    D3DCompile lib hlslSource (SDL_strlen hlslSource) entrypoint shaderProfile in
  let compiled := [CallD3DCompile hlslSource (SDL_strlen hlslSource) entrypoint shaderProfile] in
  if result <? 0 then
    match errorBlob with
    | None => (compiled, ReadsNull)
    | Some _ => (compiled, Returned None)
    end
  else (compiled, Returned blob).

Definition SDL_ShaderCross_CompileDXBCFromHLSL (hlslSource entrypoint shaderProfile : string)
  : run (option bytes * option Z) :=
  blob <~ SDL_ShaderCross_INTERNAL_CompileDXBC hlslSource entrypoint shaderProfile ;;
  match blob with
  | None => ret (None, Some 0)
  | Some b =>
      _ <~ call (Release DxcDriver.blob) ;;
      ret (Some b, Some (size_of b))
  end.

Definition SDL_ShaderCross_INTERNAL_CreateShaderFromDXBC (createInfo : create_info)
  (hlslSource shaderProfile : string) : run (option create_info) :=
  bytecode <~ SDL_ShaderCross_CompileDXBCFromHLSL hlslSource (entrypoint createInfo)
                shaderProfile ;;
  create_from createInfo shaderProfile bytecode SDL_GPU_SHADERFORMAT_DXBC.

(** [shader_formats] is what [SDL_GetGPUShaderFormats (device)] returns. *)
Definition SDL_ShaderCross_INTERNAL_CreateShaderFromHLSL (shader_formats : Z)
  (createInfo : create_info) (hlslSource shaderProfile : string) : run (option create_info) :=
  if has_format shader_formats SDL_GPU_SHADERFORMAT_DXBC
  then SDL_ShaderCross_INTERNAL_CreateShaderFromDXBC createInfo hlslSource shaderProfile
  else if has_format shader_formats SDL_GPU_SHADERFORMAT_DXIL
  then SDL_ShaderCross_INTERNAL_CreateShaderFromDXC createInfo hlslSource shaderProfile false
  else if has_format shader_formats SDL_GPU_SHADERFORMAT_SPIRV
  then SDL_ShaderCross_INTERNAL_CreateShaderFromDXC createInfo hlslSource shaderProfile true
  else ret None.

Definition SDL_ShaderCross_CompileGraphicsShaderFromHLSL (shader_formats : Z)
  (createInfo : create_info) (hlslSource shaderProfile : string) : run (option create_info) :=
  SDL_ShaderCross_INTERNAL_CreateShaderFromHLSL shader_formats createInfo hlslSource
    shaderProfile.

Definition SDL_ShaderCross_CompileComputePipelineFromHLSL (shader_formats : Z)
  (createInfo : create_info) (hlslSource shaderProfile : string) : run (option create_info) :=
  SDL_ShaderCross_INTERNAL_CreateShaderFromHLSL shader_formats createInfo hlslSource
    shaderProfile.

(** [backend] and [shadermodel] as the first [if] chain leaves them:
    [shadermodel] stays unwritten for MSL. *)
Definition backend_for (shaderFormat : Z) : option (spvc_backend * option Z) :=
  if shaderFormat =? SDL_GPU_SHADERFORMAT_DXBC then Some (SPVC_BACKEND_HLSL, Some 50)
  else if shaderFormat =? SDL_GPU_SHADERFORMAT_DXIL then Some (SPVC_BACKEND_HLSL, Some 60)
  else if shaderFormat =? SDL_GPU_SHADERFORMAT_MSL then Some (SPVC_BACKEND_MSL, None)
  else None.

(** [(shadermodel == 50) ? five : six] *)
Definition profile_for (shadermodel : option Z) (five six : string) : option string :=
  match shadermodel with
  | Some m => Some (if m =? 50 then five else six)
  | None => None
  end.

(** The [if] chain that fills [newCreateInfo->code] and
    [newCreateInfo->code_size]; the size holds the copy of the caller's
    until a compile function writes it. *)
Definition translated_code (shaderFormat : Z) (translated_source cleansed_entrypoint : string)
  (profile : option string) (size : Z) : run (option bytes * Z) :=
  if shaderFormat =? SDL_GPU_SHADERFORMAT_DXBC then
    match profile with
    | None => ([], ReadsUnwritten)
    | Some profile =>
        r <~ SDL_ShaderCross_CompileDXBCFromHLSL translated_source cleansed_entrypoint
               profile ;;
        ret (fst r, match snd r with Some z => z | None => size end)
    end
  else if shaderFormat =? SDL_GPU_SHADERFORMAT_DXIL then
    match profile with
    | None => ([], ReadsUnwritten)
    | Some profile =>
        r <~ SDL_ShaderCross_CompileDXILFromHLSL translated_source cleansed_entrypoint
               profile ;;
        ret (fst r, match snd r with Some z => z | None => size end)
    end
  else ret (Some (c_string translated_source), SDL_strlen translated_source + 1).

(** [originalCreateInfo] is [None] for a pointer no statement has written.
    The buffer goes to the parser as it is; a [NULL] buffer ends the model
    there. *)
Definition SDL_ShaderCross_INTERNAL_TranslateFromSPIRV (shaderFormat : Z)
  (originalCreateInfo : option create_info) (isCompute : bool) : run (option create_info) :=
  match backend_for shaderFormat with
  | None => ret None
  | Some (backend, shadermodel) =>
      if failed (spvc_context_create (spvc lib)) then ret None else
      match originalCreateInfo with
      | None => ([], ReadsUnwritten)
      | Some createInfo =>
          match code createInfo with
          | None => ([], ReadsNull)
          | Some words =>
              match spvc_context_parse_spirv (spvc lib) words (code_size createInfo / 4) with
              | None => ret None
              | Some ir =>
                  match spvc_context_create_compiler ir backend with
                  | None => ret None
                  | Some compiler =>
                      if failed (spvc_compiler_create_compiler_options compiler)
                      then ret None else
                      let options :=
                        match shadermodel with
                        | Some m => hlsl_options backend m
                        | None => []
                        end in
                      if failed (spvc_compiler_install_compiler_options compiler options)
                      then ret None else
                      let '(result, translated_source) :=
                        spvc_compiler_compile compiler options [] in
                      if failed result then ret None else
                      let cleansed_entrypoint :=
                        spvc_compiler_get_cleansed_entry_point_name compiler
                          (entrypoint createInfo)
                          (spvc_compiler_get_execution_model compiler) in
                      if isCompute then
                        c <~ translated_code shaderFormat translated_source
                               cleansed_entrypoint
                               (profile_for shadermodel "cs_5_0" "cs_6_0")
                               (code_size createInfo) ;;
                        ret (Some {| code := fst c; code_size := snd c;
                                     entrypoint := cleansed_entrypoint;
                                     format := shaderFormat;
                                     stage := stage createInfo;
                                     rest := rest createInfo |})
                      else
                        match stage createInfo with
                        | None => ([], ReadsUnwritten)
                        | Some s =>
                            let profile :=
                              match s with
                              | SDL_GPU_SHADERSTAGE_VERTEX =>
                                  profile_for shadermodel "vs_5_0" "vs_6_0"
                              | SDL_GPU_SHADERSTAGE_FRAGMENT =>
                                  profile_for shadermodel "ps_5_0" "ps_6_0"
                              end in
                            c <~ translated_code shaderFormat translated_source
                                   cleansed_entrypoint profile (code_size createInfo) ;;
                            ret (Some {| code := fst c; code_size := snd c;
                                         entrypoint := cleansed_entrypoint;
                                         format := shaderFormat;
                                         stage := stage createInfo;
                                         rest := rest createInfo |})
                        end
                  end
              end
          end
      end
  end.

(** The local struct is filled member by member; [translatedCreateInfo] is
    read without a test. *)
Definition SDL_ShaderCross_INTERNAL_CompileFromSPIRV (shaderFormat : Z) (bytecode : bytes)
  (bytecodeSize : Z) (entrypoint : string) (shaderStage : SDL_ShaderCross_ShaderStage)
  : run (option bytes * Z) :=
  let isCompute := stage_eqb shaderStage SDL_SHADERCROSS_SHADERSTAGE_COMPUTE in
  let createInfo :=
    {| code := Some bytecode; code_size := bytecodeSize; entrypoint := entrypoint;
       format := SDL_GPU_SHADERFORMAT_SPIRV;
       stage := if isCompute then None else Some (gpu_stage shaderStage);
       rest := None |} in
  translatedCreateInfo <~ SDL_ShaderCross_INTERNAL_TranslateFromSPIRV shaderFormat
                            (Some createInfo) isCompute ;;
  match translatedCreateInfo with
  | None => ([], ReadsNull)
  | Some t => ret (code t, code_size t)
  end.

Definition SDL_ShaderCross_TranspileMSLFromSPIRV (bytecode : bytes) (bytecodeSize : Z)
  (entrypoint : string) (shaderStage : SDL_ShaderCross_ShaderStage) : run (option bytes) :=
  r <~ SDL_ShaderCross_INTERNAL_CompileFromSPIRV SDL_GPU_SHADERFORMAT_MSL bytecode bytecodeSize
         entrypoint shaderStage ;;
  ret (fst r).

Definition SDL_ShaderCross_CompileDXBCFromSPIRV (bytecode : bytes) (bytecodeSize : Z)
  (entrypoint : string) (shaderStage : SDL_ShaderCross_ShaderStage) : run (option bytes * Z) :=
  SDL_ShaderCross_INTERNAL_CompileFromSPIRV SDL_GPU_SHADERFORMAT_DXBC bytecode bytecodeSize
    entrypoint shaderStage.

Definition SDL_ShaderCross_CompileDXILFromSPIRV (bytecode : bytes) (bytecodeSize : Z)
  (entrypoint : string) (shaderStage : SDL_ShaderCross_ShaderStage) : run (option bytes * Z) :=
  SDL_ShaderCross_INTERNAL_CompileFromSPIRV SDL_GPU_SHADERFORMAT_DXIL bytecode bytecodeSize
    entrypoint shaderStage.

(** The format a device without SPIR-V is translated for. *)
Definition translated_format (shader_formats : Z) : option Z :=
  if has_format shader_formats SDL_GPU_SHADERFORMAT_DXBC then Some SDL_GPU_SHADERFORMAT_DXBC
  else if has_format shader_formats SDL_GPU_SHADERFORMAT_DXIL then Some SDL_GPU_SHADERFORMAT_DXIL
  else if has_format shader_formats SDL_GPU_SHADERFORMAT_MSL then Some SDL_GPU_SHADERFORMAT_MSL
  else None.

(** The local [createInfo] is declared and passed on; no statement assigns
    it.  After the device call the members of the translated struct are
    read to be freed. *)
Definition SDL_ShaderCross_INTERNAL_CreateShaderFromSPIRV (shader_formats : Z)
  (originalCreateInfo : create_info) (isCompute : bool) : run (option create_info) :=
  if has_format shader_formats SDL_GPU_SHADERFORMAT_SPIRV then
    _ <~ call (if isCompute
               then SDL_CreateGPUComputePipeline (Some originalCreateInfo)
               else SDL_CreateGPUShader (Some originalCreateInfo)) ;;
    ret (Some originalCreateInfo)
  else
    match translated_format shader_formats with
    | None => ret None
    | Some f =>
        let createInfo : option create_info := None in
        translatedCreateInfo <~ SDL_ShaderCross_INTERNAL_TranslateFromSPIRV f createInfo
                                  isCompute ;;
        _ <~ call (if isCompute
                   then SDL_CreateGPUComputePipeline translatedCreateInfo
                   else SDL_CreateGPUShader translatedCreateInfo) ;;
        match translatedCreateInfo with
        | None => ([], ReadsNull)
        | Some t => ret (Some t)
        end
    end.

Definition SDL_ShaderCross_CompileGraphicsShaderFromSPIRV (shader_formats : Z)
  (createInfo : create_info) : run (option create_info) :=
  SDL_ShaderCross_INTERNAL_CreateShaderFromSPIRV shader_formats createInfo false.

Definition SDL_ShaderCross_CompileComputePipelineFromSPIRV (shader_formats : Z)
  (createInfo : create_info) : run (option create_info) :=
  SDL_ShaderCross_INTERNAL_CreateShaderFromSPIRV shader_formats createInfo true.

End Chain.

Definition SDL_ShaderCross_GetHLSLShaderFormats (s : Dynload.loader_state) : Z :=
  let supportedFormats := 0 in
  let supportedFormats :=
    if negb (is_null (Dynload.dxcompiler_dll s))
    then Z.lor (Z.lor supportedFormats SDL_GPU_SHADERFORMAT_DXIL) SDL_GPU_SHADERFORMAT_SPIRV
    else supportedFormats in
  let supportedFormats :=
    if negb (is_null (Dynload.d3dcompiler_dll s))
    then Z.lor supportedFormats SDL_GPU_SHADERFORMAT_DXBC
    else supportedFormats in
  supportedFormats.

(** The calls of the device in a trace, and the calls of the two
    compilers. *)
Definition device_calls (ev : list event) : list event :=
  filter (fun e => match e with
                   | SDL_CreateGPUShader _ | SDL_CreateGPUComputePipeline _ => true
                   | _ => false
                   end) ev.

Definition dxc_calls (ev : list event) : list event :=
  filter (fun e => match e with CallCompile _ _ _ _ => true | _ => false end) ev.

Definition d3d_calls (ev : list event) : list event :=
  filter (fun e => match e with CallD3DCompile _ _ _ _ => true | _ => false end) ev.

End DynloadChain.

(** A library set for that revision: [D3DCompile] compiles to four bytes,
    DXC as [sample_dxc] has it, SPIRV-Cross as [sample_library]. *)
Definition sample_libraries (c : spvc_compiler) : DynloadChain.libraries :=
  {| DynloadChain.D3DCompile := fun _ _ _ _ => (0, Some four_bytes, None);
     DynloadChain.dxc := sample_dxc None;
     DynloadChain.spvc := sample_library c |}.


(** A vertex shader struct as a caller fills it. *)
Definition sample_create_info : DynloadChain.create_info :=
  {| DynloadChain.code := Some four_bytes; DynloadChain.code_size := 4;
     DynloadChain.entrypoint := "main"; DynloadChain.format := SDL_GPU_SHADERFORMAT_SPIRV;
     DynloadChain.stage := Some SDL_GPU_SHADERSTAGE_VERTEX; DynloadChain.rest := Some 0 |}.

(** * Properties *)

(** ** Arithmetic and loops *)


Lemma failed_false (r : spvc_result) : r >= 0 -> negb (failed r) = true.
Proof.
  intros H. unfold failed. destruct (r <? 0) eqn:E; [|reflexivity].
  apply Z.ltb_lt in E. lia.
Qed.



(** A loop whose body skips the elements outside [keep] and, for the
    others, records the assignment made at the counter [cnt] and then
    increments the counter; [other] is left alone. *)
Lemma counting_loop (body : remap_state -> spvc_reflected_resource -> option remap_state)
  (cnt other : remap_state -> Z)
  (ok keep : spvc_reflected_resource -> bool)
  (assign : Z -> spvc_reflected_resource -> assignment) :
  (forall s r s', body s r = Some s' ->
     ok r = true /\ other s' = other s /\
     if keep r
     then map assignment_of (calls s') = map assignment_of (calls s) ++ [assign (cnt s) r]
          /\ cnt s' = add_unsigned (cnt s) 1
     else calls s' = calls s /\ cnt s' = cnt s) ->
  forall l s s', for_each body l s = Some s' ->
    forallb ok l = true /\ other s' = other s /\
    map assignment_of (calls s') =
      map assignment_of (calls s) ++ fst (numbering assign (cnt s) (filter keep l)) /\
    cnt s' = snd (numbering assign (cnt s) (filter keep l)).
Proof.
  intros Hstep. induction l as [|r l IH]; intros s s' H; simpl in H.
  - inversion H; subst. simpl. rewrite app_nil_r. repeat split; reflexivity.
  - destruct (body s r) as [s1|] eqn:Hb; [|discriminate].
    destruct (Hstep _ _ _ Hb) as [Hok [Hother Hk]].
    destruct (IH _ _ H) as [Hl [Ho [Hc Hn]]].
    simpl. rewrite Hok, Hl. split; [reflexivity|].
    split; [congruence|].
    destruct (keep r).
    + destruct Hk as [Hk1 Hk2]. simpl.
      rewrite Hk2 in Hc, Hn.
      destruct (numbering assign (add_unsigned (cnt s) 1) (filter keep l)) as [rest c'].
      simpl in *. split; [|exact Hn].
      rewrite Hc, Hk1, <- app_assoc. reflexivity.
    + destruct Hk as [Hk1 Hk2]. rewrite Hk1, Hk2 in *. split; assumption.
Qed.

(** ** The bodies of the graphics loops *)

Lemma set_in_intro (a b : Z) (r : spvc_reflected_resource) :
  has_set_and_binding r = true ->
  (spvc_compiler_get_decoration r SpvDecorationDescriptorSet =? a)
  || (spvc_compiler_get_decoration r SpvDecorationDescriptorSet =? b) = true ->
  set_in a b r = true.
Proof.
  intros H1 H2. unfold set_in, set_of. rewrite H1, H2. reflexivity.
Qed.





(** The two list queries, in terms of the lists themselves. *)
Lemma texture_sampler_list_some compiler result l :
  texture_sampler_list compiler = Some (result, l) ->
  l = texture_samplers_of compiler /\ result >= 0.
Proof.
  unfold texture_sampler_list, texture_samplers_of, resources_of, count_of.
  destruct (spvc_resources_get_resource_list_for_type compiler SPVC_RESOURCE_TYPE_SAMPLED_IMAGE)
    as [r1 l1] eqn:E1.
  simpl. intros H. guard_in H.
  destruct (Z.of_nat (Datatypes.length l1) =? 0).
  - destruct (spvc_resources_get_resource_list_for_type compiler
                SPVC_RESOURCE_TYPE_SEPARATE_SAMPLERS) as [r2 l2] eqn:E2.
    guard_in H. inversion H; subst. simpl. split; [reflexivity|].
    unfold failed in E0. apply negb_true_iff in E0. apply Z.ltb_ge in E0. lia.
  - inversion H; subst. split; [reflexivity|].
    unfold failed in E. apply negb_true_iff in E. apply Z.ltb_ge in E. lia.
Qed.

Lemma resource_list_some compiler t result l :
  resource_list compiler t = Some (result, l) ->
  l = resources_of compiler t /\ result >= 0.
Proof.
  unfold resource_list, resources_of.
  destruct (spvc_resources_get_resource_list_for_type compiler t) as [r1 l1].
  simpl. intros H. guard_in H. inversion H; subst. split; [reflexivity|].
  unfold failed in E. apply negb_true_iff in E. apply Z.ltb_ge in E. lia.
Qed.

Lemma texture_sampler_list_total compiler :
  (forall t, fst (spvc_resources_get_resource_list_for_type compiler t) >= 0) ->
  exists result, texture_sampler_list compiler = Some (result, texture_samplers_of compiler)
                 /\ result >= 0.
Proof.
  intros Hq. unfold texture_sampler_list, texture_samplers_of, resources_of, count_of.
  pose proof (Hq SPVC_RESOURCE_TYPE_SAMPLED_IMAGE) as H1.
  pose proof (Hq SPVC_RESOURCE_TYPE_SEPARATE_SAMPLERS) as H2.
  destruct (spvc_resources_get_resource_list_for_type compiler SPVC_RESOURCE_TYPE_SAMPLED_IMAGE)
    as [r1 l1].
  destruct (spvc_resources_get_resource_list_for_type compiler SPVC_RESOURCE_TYPE_SEPARATE_SAMPLERS)
    as [r2 l2].
  simpl in *. rewrite (failed_false _ H1).
  destruct (Z.of_nat (Datatypes.length l1) =? 0).
  - rewrite (failed_false _ H2). exists r2. split; [reflexivity|assumption].
  - exists r1. split; [reflexivity|assumption].
Qed.

Lemma resource_list_total compiler t :
  (forall t, fst (spvc_resources_get_resource_list_for_type compiler t) >= 0) ->
  exists result, resource_list compiler t = Some (result, resources_of compiler t)
                 /\ result >= 0.
Proof.
  intros Hq. unfold resource_list, resources_of. pose proof (Hq t) as H1.
  destruct (spvc_resources_get_resource_list_for_type compiler t) as [r1 l1].
  simpl in *. rewrite (failed_false _ H1). exists r1. split; [reflexivity|assumption].
Qed.


Lemma set_in_false_of (a b : Z) (r : spvc_reflected_resource) :
  set_of r <> a -> set_of r <> b -> set_in a b r = false.
Proof.
  intros Ha Hb. unfold set_in.
  apply Z.eqb_neq in Ha. apply Z.eqb_neq in Hb. rewrite Ha, Hb.
  apply andb_false_r.
Qed.

Lemma rejected_not_all (ok : spvc_reflected_resource -> bool)
  (l : list spvc_reflected_resource) (r : spvc_reflected_resource) :
  In r l -> ok r = false -> forallb ok l = true -> False.
Proof.
  intros Hin Hr Hall. rewrite forallb_forall in Hall.
  rewrite (Hall r Hin) in Hr. discriminate.
Qed.


(** The bodies of the graphics loops go through when the library reports
    no error and the resource is accepted. *)

Lemma set_in_elim (a b : Z) (r : spvc_reflected_resource) :
  set_in a b r = true ->
  has_set_and_binding r = true /\
  (spvc_compiler_get_decoration r SpvDecorationDescriptorSet =? a)
  || (spvc_compiler_get_decoration r SpvDecorationDescriptorSet =? b) = true.
Proof.
  unfold set_in, set_of. intros H. apply andb_true_iff in H. exact H.
Qed.








(** ** Graphics remapping *)



(** ** Compute remapping *)

Lemma set_is_intro (a : Z) (r : spvc_reflected_resource) :
  has_set_and_binding r = true ->
  (spvc_compiler_get_decoration r SpvDecorationDescriptorSet =? a) = true ->
  set_is a r = true.
Proof.
  intros H1 H2. unfold set_is, set_of. rewrite H1, H2. reflexivity.
Qed.

Lemma filter_all {A : Type} (l : list A) : filter (fun _ => true) l = l.
Proof.
  induction l as [|x l IH]; simpl; [reflexivity|]. rewrite IH. reflexivity.
Qed.

Lemma compute_texture_sampler_step compiler em s r s' :
  compute_texture_sampler compiler em s r = Some s' ->
  set_is 0 r = true /\ num_buffers s' = num_buffers s /\
  if (fun _ : spvc_reflected_resource => true) r
  then map assignment_of (calls s') =
         map assignment_of (calls s) ++ [texture_and_sampler_at r (num_textures s)]
       /\ num_textures s' = add_unsigned (num_textures s) 1
  else calls s' = calls s /\ num_textures s' = num_textures s.
Proof.
  unfold compute_texture_sampler. intros H.
  guard_in H. guard_in H. cbv zeta in H. guard_in H. done_in H.
  split; [apply set_is_intro; assumption|]. split; [reflexivity|].
  rewrite map_app. split; reflexivity.
Qed.

Lemma compute_readonly_storage_texture_step em s r s' :
  compute_readonly_storage_texture em s r = Some s' ->
  set_in 0 1 r = true /\ num_buffers s' = num_buffers s /\
  if set_of r =? 0
  then map assignment_of (calls s') =
         map assignment_of (calls s)
         ++ [texture_at r (add_unsigned (num_textures s) (binding_of r))]
       /\ num_textures s' = add_unsigned (num_textures s) 1
  else calls s' = calls s /\ num_textures s' = num_textures s.
Proof.
  unfold compute_readonly_storage_texture. intros H.
  guard_in H. guard_in H. cbv zeta in H.
  split; [apply set_in_intro; assumption|].
  unfold set_of. destruct (spvc_compiler_get_decoration r SpvDecorationDescriptorSet =? 0);
    simpl in H.
  - guard_in H. done_in H. split; [reflexivity|]. rewrite map_app. split; reflexivity.
  - done_in H. repeat split; reflexivity.
Qed.

Lemma compute_readwrite_storage_texture_step em s r s' :
  compute_readwrite_storage_texture em s r = Some s' ->
  (fun _ : spvc_reflected_resource => true) r = true /\ num_buffers s' = num_buffers s /\
  if set_of r =? 1
  then map assignment_of (calls s') =
         map assignment_of (calls s)
         ++ [texture_at r (add_unsigned (num_textures s) (binding_of r))]
       /\ num_textures s' = add_unsigned (num_textures s) 1
  else calls s' = calls s /\ num_textures s' = num_textures s.
Proof.
  unfold compute_readwrite_storage_texture. intros H. cbv zeta in H.
  split; [reflexivity|].
  unfold set_of. destruct (spvc_compiler_get_decoration r SpvDecorationDescriptorSet =? 1);
    simpl in H.
  - guard_in H. done_in H. split; [reflexivity|]. rewrite map_app. split; reflexivity.
  - done_in H. repeat split; reflexivity.
Qed.

Lemma compute_readonly_storage_buffer_step em s r s' :
  compute_readonly_storage_buffer em s r = Some s' ->
  set_in 0 1 r = true /\ num_textures s' = num_textures s /\
  if set_of r =? 0
  then map assignment_of (calls s') =
         map assignment_of (calls s) ++ [buffer_at StorageBuffer r (binding_of r)]
       /\ num_buffers s' = add_unsigned (num_buffers s) 1
  else calls s' = calls s /\ num_buffers s' = num_buffers s.
Proof.
  unfold compute_readonly_storage_buffer. intros H.
  guard_in H. guard_in H. cbv zeta in H.
  split; [apply set_in_intro; assumption|].
  unfold set_of. destruct (spvc_compiler_get_decoration r SpvDecorationDescriptorSet =? 0);
    simpl in H.
  - guard_in H. done_in H. split; [reflexivity|]. rewrite map_app. split; reflexivity.
  - done_in H. repeat split; reflexivity.
Qed.

Lemma compute_readwrite_storage_buffer_step em s r s' :
  compute_readwrite_storage_buffer em s r = Some s' ->
  (fun _ : spvc_reflected_resource => true) r = true /\ num_textures s' = num_textures s /\
  if set_of r =? 1
  then map assignment_of (calls s') =
         map assignment_of (calls s)
         ++ [buffer_at StorageBuffer r (add_unsigned (num_buffers s) (binding_of r))]
       /\ num_buffers s' = add_unsigned (num_buffers s) 1
  else calls s' = calls s /\ num_buffers s' = num_buffers s.
Proof.
  unfold compute_readwrite_storage_buffer. intros H. cbv zeta in H.
  split; [reflexivity|].
  unfold set_of. destruct (spvc_compiler_get_decoration r SpvDecorationDescriptorSet =? 1);
    simpl in H.
  - guard_in H. done_in H. split; [reflexivity|]. rewrite map_app. split; reflexivity.
  - done_in H. repeat split; reflexivity.
Qed.

Lemma compute_uniform_buffer_step em s r s' :
  compute_uniform_buffer em s r = Some s' ->
  set_is 2 r = true /\ num_textures s' = num_textures s /\
  if (fun _ : spvc_reflected_resource => true) r
  then map assignment_of (calls s') =
         map assignment_of (calls s)
         ++ [buffer_at UniformBuffer r (add_unsigned (num_buffers s) (binding_of r))]
       /\ num_buffers s' = add_unsigned (num_buffers s) 1
  else calls s' = calls s /\ num_buffers s' = num_buffers s.
Proof.
  unfold compute_uniform_buffer. intros H.
  guard_in H. guard_in H. cbv zeta in H. guard_in H. done_in H.
  split; [apply set_is_intro; assumption|]. split; [reflexivity|].
  rewrite map_app. split; reflexivity.
Qed.

(** What a successful compute remapping has done. *)
Lemma remap_compute_some compiler em added :
  remap_compute compiler em = Some added ->
  map assignment_of added =
    compute_rules (texture_samplers_of compiler)
      (resources_of compiler SPVC_RESOURCE_TYPE_STORAGE_IMAGE)
      (resources_of compiler SPVC_RESOURCE_TYPE_STORAGE_BUFFER)
      (resources_of compiler SPVC_RESOURCE_TYPE_UNIFORM_BUFFER)
  /\ forallb (set_is 0) (texture_samplers_of compiler) = true
  /\ forallb (set_in 0 1) (resources_of compiler SPVC_RESOURCE_TYPE_STORAGE_IMAGE) = true
  /\ forallb (set_in 0 1) (resources_of compiler SPVC_RESOURCE_TYPE_STORAGE_BUFFER) = true
  /\ forallb (set_is 2) (resources_of compiler SPVC_RESOURCE_TYPE_UNIFORM_BUFFER) = true.
Proof.
  unfold remap_compute. intros H. guard_in H.
  destruct (texture_sampler_list compiler) as [[r0 ts]|] eqn:Ets; [|discriminate].
  apply texture_sampler_list_some in Ets. destruct Ets as [-> _].
  cbv zeta in H.
  next_loop H s1 L1.
  apply (counting_loop _ num_textures num_buffers (set_is 0) (fun _ => true)
           (fun T r => texture_and_sampler_at r T)
           (compute_texture_sampler_step compiler em)) in L1.
  destruct L1 as [Ok1 [B1 [C1 T1]]]. rewrite filter_all in C1, T1. simpl in C1, T1, B1.
  destruct (resource_list compiler SPVC_RESOURCE_TYPE_STORAGE_IMAGE) as [[r2 st]|] eqn:Est;
    [|discriminate].
  apply resource_list_some in Est. destruct Est as [-> _].
  next_loop H s2 L2.
  apply (counting_loop _ num_textures num_buffers (set_in 0 1) (fun r => set_of r =? 0)
           (fun T r => texture_at r (add_unsigned T (binding_of r)))
           (compute_readonly_storage_texture_step em)) in L2.
  destruct L2 as [Ok2 [B2 [C2 T2]]]. simpl in C2, T2, B2.
  next_loop H s3 L3.
  apply (counting_loop _ num_textures num_buffers (fun _ => true) (fun r => set_of r =? 1)
           (fun T r => texture_at r (add_unsigned T (binding_of r)))
           (compute_readwrite_storage_texture_step em)) in L3.
  destruct L3 as [_ [B3 [C3 T3]]].
  destruct (resource_list compiler SPVC_RESOURCE_TYPE_STORAGE_BUFFER) as [[r3 sb]|] eqn:Esb;
    [|discriminate].
  apply resource_list_some in Esb. destruct Esb as [-> _].
  next_loop H s4 L4.
  apply (counting_loop _ num_buffers num_textures (set_in 0 1) (fun r => set_of r =? 0)
           (fun B r => buffer_at StorageBuffer r (binding_of r))
           (compute_readonly_storage_buffer_step em)) in L4.
  destruct L4 as [Ok4 [_ [C4 T4]]]. simpl in C4, T4.
  next_loop H s5 L5.
  apply (counting_loop _ num_buffers num_textures (fun _ => true) (fun r => set_of r =? 1)
           (fun B r => buffer_at StorageBuffer r (add_unsigned B (binding_of r)))
           (compute_readwrite_storage_buffer_step em)) in L5.
  destruct L5 as [_ [_ [C5 T5]]].
  destruct (resource_list compiler SPVC_RESOURCE_TYPE_UNIFORM_BUFFER) as [[r4 ub]|] eqn:Eub;
    [|discriminate].
  apply resource_list_some in Eub. destruct Eub as [-> _].
  next_loop H s6 L6.
  apply (counting_loop _ num_buffers num_textures (set_is 2) (fun _ => true)
           (fun B r => buffer_at UniformBuffer r (add_unsigned B (binding_of r)))
           (compute_uniform_buffer_step em)) in L6.
  destruct L6 as [Ok6 [_ [C6 _]]]. rewrite filter_all in C6. simpl in C6.
  inversion H; subst added. clear H.
  repeat split; try assumption.
  unfold compute_rules, rule_texture_samplers, rule_storage_textures,
    rule_readonly_buffers, rule_offset_buffers, on_set.
  rewrite C6, C5, C4, C3, C2, C1. clear C1 C2 C3 C4 C5 C6.
  rewrite B1 in B2. rewrite B2 in B3. rewrite B3 in T4 |- *. clear B1 B2 B3.
  rewrite T1 in T2 |- *.
  destruct (numbering _ 0 (texture_samplers_of compiler)) as [a1 t1]. simpl in T2 |- *.
  rewrite T2 in T3 |- *.
  destruct (numbering _ t1 _) as [a2 t2]. simpl in T3 |- *.
  destruct (numbering _ t2 _) as [a3 t3]. simpl.
  rewrite T4 in T5 |- *.
  destruct (numbering _ 0 _) as [a4 b4]. simpl in T5 |- *.
  rewrite T5.
  destruct (numbering _ b4 _) as [a5 b5]. simpl.
  destruct (numbering _ b5 _) as [a6 b6]. simpl.
  rewrite <- !app_assoc. reflexivity.
Qed.














(** ** Reflection *)

Lemma count_of_cons (r : spvc_reflected_resource) (l : list spvc_reflected_resource) :
  count_of (r :: l) = 1 + count_of l.
Proof.
  unfold count_of. simpl Datatypes.length. lia.
Qed.

(** The storage-texture loop of compute reflection: every resource has both
    decorations and sits in set 0 or 1; the first counter has grown by the
    number of set-0 resources, the second by the number of set-1 ones. *)
Lemma reflect_storage_texture_loop (l : list spvc_reflected_resource) :
  forall ro rw ro' rw',
    for_each reflect_storage_texture l (ro, rw) = Some (ro', rw') ->
    forallb (set_in 0 1) l = true /\
    ro' = ro + count_of (on_set 0 l) /\ rw' = rw + count_of (on_set 1 l).
Proof.
  induction l as [|r l IH]; intros ro rw ro' rw' H; simpl in H.
  - inversion H; subst. unfold count_of. simpl. repeat split; lia.
  - unfold reflect_storage_texture at 1 in H.
    destruct (has_set_and_binding r) eqn:Hd; [|discriminate].
    cbv zeta in H. unfold on_set. simpl. unfold set_in, set_of. rewrite Hd.
    destruct (spvc_compiler_get_decoration r SpvDecorationDescriptorSet =? 0) eqn:E0.
    + apply Z.eqb_eq in E0. rewrite E0. simpl.
      apply IH in H. destruct H as [Hl [Hro Hrw]]. fold (on_set 0 l). fold (on_set 1 l).
      rewrite count_of_cons. unfold set_in, set_of in Hl. rewrite Hl.
      unfold on_set, set_of in *. repeat split; lia.
    + destruct (spvc_compiler_get_decoration r SpvDecorationDescriptorSet =? 1) eqn:E1;
        [|discriminate].
      simpl. apply IH in H. destruct H as [Hl [Hro Hrw]]. fold (on_set 0 l). fold (on_set 1 l).
      rewrite count_of_cons. unfold set_in, set_of in Hl. rewrite Hl.
      unfold on_set, set_of in *. repeat split; lia.
Qed.

Lemma reflect_storage_buffer_loop (l : list spvc_reflected_resource) :
  forall ro rw ro' rw',
    for_each reflect_storage_buffer l (ro, rw) = Some (ro', rw') ->
    forallb (set_in 0 1) l = true /\
    ro' = ro + count_of (on_set 0 l) /\ rw' = rw + count_of (on_set 1 l).
Proof.
  induction l as [|r l IH]; intros ro rw ro' rw' H; simpl in H.
  - inversion H; subst. unfold count_of. simpl. repeat split; lia.
  - unfold reflect_storage_buffer at 1 in H.
    destruct (has_set_and_binding r) eqn:Hd; [|discriminate].
    cbv zeta in H. unfold on_set. simpl. unfold set_in, set_of. rewrite Hd.
    destruct (spvc_compiler_get_decoration r SpvDecorationDescriptorSet =? 0) eqn:E0.
    + apply Z.eqb_eq in E0. rewrite E0. simpl.
      rewrite E0 in H. simpl in H.
      apply IH in H. destruct H as [Hl [Hro Hrw]]. fold (on_set 0 l). fold (on_set 1 l).
      rewrite count_of_cons. unfold set_in, set_of in Hl. rewrite Hl.
      unfold on_set, set_of in *. repeat split; lia.
    + destruct (spvc_compiler_get_decoration r SpvDecorationDescriptorSet =? 1) eqn:E1;
        [|discriminate].
      simpl in H. simpl. apply IH in H. destruct H as [Hl [Hro Hrw]].
      fold (on_set 0 l). fold (on_set 1 l).
      rewrite count_of_cons. unfold set_in, set_of in Hl. rewrite Hl.
      unfold on_set, set_of in *. repeat split; lia.
Qed.

Lemma reflect_storage_texture_total (l : list spvc_reflected_resource) :
  forallb (set_in 0 1) l = true ->
  forall acc, exists acc', for_each reflect_storage_texture l acc = Some acc'.
Proof.
  induction l as [|r l IH]; intros Hl acc.
  - exists acc. reflexivity.
  - simpl in Hl. apply andb_true_iff in Hl. destruct Hl as [Hr Hl].
    apply set_in_elim in Hr. destruct Hr as [H1 H2].
    simpl. unfold reflect_storage_texture at 1. destruct acc as [ro rw]. rewrite H1.
    cbv zeta.
    destruct (spvc_compiler_get_decoration r SpvDecorationDescriptorSet =? 0);
      [apply IH; exact Hl|].
    simpl in H2. rewrite H2. apply IH; exact Hl.
Qed.

Lemma reflect_storage_buffer_total (l : list spvc_reflected_resource) :
  forallb (set_in 0 1) l = true ->
  forall acc, exists acc', for_each reflect_storage_buffer l acc = Some acc'.
Proof.
  induction l as [|r l IH]; intros Hl acc.
  - exists acc. reflexivity.
  - simpl in Hl. apply andb_true_iff in Hl. destruct Hl as [Hr Hl].
    apply set_in_elim in Hr. destruct Hr as [H1 H2].
    simpl. unfold reflect_storage_buffer at 1. destruct acc as [ro rw]. rewrite H1, H2.
    cbv zeta.
    destruct (spvc_compiler_get_decoration r SpvDecorationDescriptorSet =? 0);
      [apply IH; exact Hl|].
    simpl in H2. rewrite H2. apply IH; exact Hl.
Qed.

(** C3.  Compute reflection of a module SPIRV-Cross parses.  When it
    returns [true], every storage image and storage buffer carries both
    decorations and sits in set 0 or 1, the read-only counts are the
    numbers of set-0 resources and the read-write counts the numbers of
    set-1 resources, the uniform buffers are counted, and the thread
    counts are the three LocalSize arguments (counts stored as [Uint32]).
    It does return [true] when SPIRV-Cross reports no error and the
    storage resources are as described; a storage resource in any other
    set makes it return [false]. *)
Theorem reflect_compute_classifies (spvc : spvc_library) (code : bytes)
  (compiler : spvc_compiler) :
  compiler_for spvc SPVC_BACKEND_NONE code = Some compiler ->
  let st := resources_of compiler SPVC_RESOURCE_TYPE_STORAGE_IMAGE in
  let sb := resources_of compiler SPVC_RESOURCE_TYPE_STORAGE_BUFFER in
  let ub := resources_of compiler SPVC_RESOURCE_TYPE_UNIFORM_BUFFER in
  (forall info,
     SDL_ShaderCross_INTERNAL_ReflectComputeSPIRV spvc code = Some info ->
     forallb (set_in 0 1) st = true /\ forallb (set_in 0 1) sb = true /\
     num_readonly_storage_textures info = to_unsigned (count_of (on_set 0 st)) /\
     num_readwrite_storage_textures info = to_unsigned (count_of (on_set 1 st)) /\
     num_readonly_storage_buffers info = to_unsigned (count_of (on_set 0 sb)) /\
     num_readwrite_storage_buffers info = to_unsigned (count_of (on_set 1 sb)) /\
     c_num_uniform_buffers info = to_unsigned (count_of ub) /\
     threadcount_x info = LocalSize compiler 0 /\
     threadcount_y info = LocalSize compiler 1 /\
     threadcount_z info = LocalSize compiler 2)
  /\ (spvc_context_create spvc >= 0 ->
      spvc_compiler_create_shader_resources compiler >= 0 ->
      (forall t, fst (spvc_resources_get_resource_list_for_type compiler t) >= 0) ->
      forallb (set_in 0 1) st = true -> forallb (set_in 0 1) sb = true ->
      exists info, SDL_ShaderCross_INTERNAL_ReflectComputeSPIRV spvc code = Some info)
  /\ (forall r, (In r st \/ In r sb) -> set_of r <> 0 -> set_of r <> 1 ->
      SDL_ShaderCross_INTERNAL_ReflectComputeSPIRV spvc code = None).
Proof.
  intros Hc st sb ub.
  assert (Hsome : forall info,
     SDL_ShaderCross_INTERNAL_ReflectComputeSPIRV spvc code = Some info ->
     forallb (set_in 0 1) st = true /\ forallb (set_in 0 1) sb = true /\
     num_readonly_storage_textures info = to_unsigned (count_of (on_set 0 st)) /\
     num_readwrite_storage_textures info = to_unsigned (count_of (on_set 1 st)) /\
     num_readonly_storage_buffers info = to_unsigned (count_of (on_set 0 sb)) /\
     num_readwrite_storage_buffers info = to_unsigned (count_of (on_set 1 sb)) /\
     c_num_uniform_buffers info = to_unsigned (count_of ub) /\
     threadcount_x info = LocalSize compiler 0 /\
     threadcount_y info = LocalSize compiler 1 /\
     threadcount_z info = LocalSize compiler 2).
  { intros info H. unfold SDL_ShaderCross_INTERNAL_ReflectComputeSPIRV in H.
    unfold compiler_for in Hc.
    guard_in H.
    destruct (spvc_context_parse_spirv spvc code (size_of code / 4)) as [ir|]; [|discriminate].
    rewrite Hc in H. guard_in H.
    destruct (texture_sampler_list compiler) as [[r0 ts]|]; [|discriminate].
    destruct (resource_list compiler SPVC_RESOURCE_TYPE_STORAGE_IMAGE) as [[r1 l1]|] eqn:E1;
      [|discriminate].
    apply resource_list_some in E1. destruct E1 as [-> _]. simpl snd in H.
    destruct (for_each reflect_storage_texture _ (0, 0)) as [[tro trw]|] eqn:L1; [|discriminate].
    apply reflect_storage_texture_loop in L1. destruct L1 as [A1 [-> ->]].
    destruct (resource_list compiler SPVC_RESOURCE_TYPE_STORAGE_BUFFER) as [[r2 l2]|] eqn:E2;
      [|discriminate].
    apply resource_list_some in E2. destruct E2 as [-> _]. simpl snd in H.
    destruct (for_each reflect_storage_buffer _ (0, 0)) as [[bro brw]|] eqn:L2; [|discriminate].
    apply reflect_storage_buffer_loop in L2. destruct L2 as [A2 [-> ->]].
    destruct (resource_list compiler SPVC_RESOURCE_TYPE_UNIFORM_BUFFER) as [[r3 l3]|] eqn:E3;
      [|discriminate].
    apply resource_list_some in E3. destruct E3 as [-> _]. simpl snd in H.
    inversion H; subst info; clear H. simpl.
    repeat split; try assumption; reflexivity. }
  split; [exact Hsome|]. split.
  - intros Hctx Hres Hq A1 A2. unfold st, sb in A1, A2.
    unfold SDL_ShaderCross_INTERNAL_ReflectComputeSPIRV. unfold compiler_for in Hc.
    rewrite failed_false by exact Hctx.
    destruct (spvc_context_parse_spirv spvc code (size_of code / 4)) as [ir|]; [|discriminate].
    rewrite Hc. rewrite failed_false by exact Hres.
    destruct (texture_sampler_list_total compiler Hq) as [r0 [-> _]].
    destruct (resource_list_total compiler SPVC_RESOURCE_TYPE_STORAGE_IMAGE Hq) as [r1 [-> _]].
    simpl snd.
    destruct (reflect_storage_texture_total _ A1 (0, 0)) as [t ->].
    destruct (resource_list_total compiler SPVC_RESOURCE_TYPE_STORAGE_BUFFER Hq) as [r2 [-> _]].
    simpl snd.
    destruct (reflect_storage_buffer_total _ A2 (0, 0)) as [b ->].
    destruct (resource_list_total compiler SPVC_RESOURCE_TYPE_UNIFORM_BUFFER Hq) as [r3 [-> _]].
    eexists. reflexivity.
  - intros r Hin H0 H1.
    destruct (SDL_ShaderCross_INTERNAL_ReflectComputeSPIRV spvc code) as [info|] eqn:E;
      [|reflexivity].
    exfalso. destruct (Hsome info eq_refl) as [A1 [A2 _]].
    destruct Hin as [Hin|Hin];
      eapply (rejected_not_all (set_in 0 1)); eauto using set_in_false_of.
Qed.

(** Scenario E4: one read-write storage buffer, one uniform buffer, thread
    counts 8, 8, 1. *)
Lemma reflect_compute_classifies_e4 :
  compiler_for (sample_library e4_compute) SPVC_BACKEND_NONE four_bytes = Some e4_compute
  /\ forall info,
       SDL_ShaderCross_INTERNAL_ReflectComputeSPIRV (sample_library e4_compute) four_bytes
         = Some info ->
       num_readwrite_storage_buffers info = 1 /\ c_num_uniform_buffers info = 1 /\
       threadcount_x info = 8 /\ threadcount_y info = 8 /\ threadcount_z info = 1.
Proof.
  split; [reflexivity|]. intros info H.
  destruct (reflect_compute_classifies (sample_library e4_compute) four_bytes e4_compute
              eq_refl) as [Hsome _].
  destruct (Hsome info H) as [_ [_ [_ [_ [_ [Hrw [Hub [Hx [Hy Hz]]]]]]]]].
  rewrite Hrw, Hub, Hx, Hy, Hz. repeat split; reflexivity.
Defined.

(** C4.  Reflection does not enforce the conventions on every resource.
    Graphics reflection returns the counts of a vertex shader whose sampler
    has neither decoration and whose uniform buffer sits in set 0; compute
    reflection returns the counts of a shader with a sampler in set 5 and a
    uniform buffer in set 0. *)
Theorem reflection_leaves_resources_unchecked :
  SDL_ShaderCross_INTERNAL_ReflectGraphicsSPIRV (sample_library unconventional_vertex)
    four_bytes
  = Some {| num_samplers := 1; num_storage_textures := 0;
            num_storage_buffers := 0; num_uniform_buffers := 1 |}
  /\ SDL_ShaderCross_INTERNAL_ReflectComputeSPIRV (sample_library unconventional_compute)
       four_bytes
     = Some {| c_num_samplers := 1;
               num_readonly_storage_textures := 0; num_readonly_storage_buffers := 0;
               num_readwrite_storage_textures := 0; num_readwrite_storage_buffers := 0;
               c_num_uniform_buffers := 1;
               threadcount_x := 1; threadcount_y := 1; threadcount_z := 1 |}.
Proof.
  split; reflexivity.
Qed.

(** Graphics reflection looks at no decoration at all: its answer is made
    of the four list lengths. *)
Lemma reflect_graphics_counts_only (spvc : spvc_library) (code : bytes)
  (info : SDL_GPUShaderCreateInfo) :
  SDL_ShaderCross_INTERNAL_ReflectGraphicsSPIRV spvc code = Some info ->
  exists compiler, compiler_for spvc SPVC_BACKEND_NONE code = Some compiler /\
    info = {| num_samplers := to_unsigned (count_of (texture_samplers_of compiler));
              num_storage_textures :=
                to_unsigned (count_of (resources_of compiler SPVC_RESOURCE_TYPE_STORAGE_IMAGE));
              num_storage_buffers :=
                to_unsigned (count_of (resources_of compiler SPVC_RESOURCE_TYPE_STORAGE_BUFFER));
              num_uniform_buffers :=
                to_unsigned (count_of (resources_of compiler SPVC_RESOURCE_TYPE_UNIFORM_BUFFER)) |}.
Proof.
  unfold SDL_ShaderCross_INTERNAL_ReflectGraphicsSPIRV, compiler_for. intros H.
  guard_in H.
  destruct (spvc_context_parse_spirv spvc code (size_of code / 4)) as [ir|]; [|discriminate].
  destruct (spvc_context_create_compiler ir SPVC_BACKEND_NONE) as [compiler|]; [|discriminate].
  guard_in H.
  destruct (texture_sampler_list compiler) as [[r0 ts]|] eqn:L0; [|discriminate].
  apply texture_sampler_list_some in L0. destruct L0 as [-> _].
  destruct (resource_list compiler SPVC_RESOURCE_TYPE_STORAGE_IMAGE) as [[r1 l1]|] eqn:L1;
    [|discriminate].
  apply resource_list_some in L1. destruct L1 as [-> _].
  destruct (resource_list compiler SPVC_RESOURCE_TYPE_STORAGE_BUFFER) as [[r2 l2]|] eqn:L2;
    [|discriminate].
  apply resource_list_some in L2. destruct L2 as [-> _].
  destruct (resource_list compiler SPVC_RESOURCE_TYPE_UNIFORM_BUFFER) as [[r3 l3]|] eqn:L3;
    [|discriminate].
  apply resource_list_some in L3. destruct L3 as [-> _].
  simpl in H. inversion H; subst info. exists compiler. split; reflexivity.
Qed.

(** ** Distinct Metal indices *)











(** The compute remapper reuses an index even on a shader laid out by the
    convention: with two read-only storage textures and one read-write
    storage texture, the second and the third both get [msl_texture] 2. *)
Lemma compute_remapping_reuses_an_index :
  exists added,
    msl_remap three_storage_textures SPVC_BACKEND_MSL SDL_SHADERCROSS_SHADERSTAGE_COMPUTE
      = Some added
    /\ indices msl_texture_space (map assignment_of added) = [0; 2; 2].
Proof.
  eexists. split; reflexivity.
Qed.

(** ** Translation chains *)

Lemma transpile_parse_failure (spvc : spvc_library) backend shadermodel shaderStage
  (code : bytes) (entrypoint : string) :
  spvc_context_parse_spirv spvc code (size_of code / 4) = None ->
  SDL_ShaderCross_INTERNAL_TranspileFromSPIRV spvc backend shadermodel shaderStage
    code entrypoint = None.
Proof.
  intros H. unfold SDL_ShaderCross_INTERNAL_TranspileFromSPIRV. rewrite H.
  destruct (negb (failed (spvc_context_create spvc))); reflexivity.
Qed.

(** C7.  On a buffer SPIRV-Cross cannot parse, the driver returns [NULL]
    and both public transpile functions go on to read
    [context->translated_source] through that null pointer: neither of
    them returns. *)
Theorem public_transpile_reads_null_context (be : backends) (bytecode : bytes)
  (entrypoint : string) (shaderStage : SDL_ShaderCross_ShaderStage) :
  spvc_context_parse_spirv (spvc be) bytecode (size_of bytecode / 4) = None ->
  SDL_ShaderCross_INTERNAL_TranspileFromSPIRV (spvc be) SPVC_BACKEND_MSL 0 shaderStage
    bytecode entrypoint = None
  /\ result_of (SDL_ShaderCross_TranspileMSLFromSPIRV be bytecode entrypoint shaderStage)
     = NullDereference
  /\ result_of (SDL_ShaderCross_TranspileHLSLFromSPIRV be bytecode entrypoint shaderStage)
     = NullDereference.
Proof.
  intros H.
  unfold SDL_ShaderCross_TranspileMSLFromSPIRV, SDL_ShaderCross_TranspileHLSLFromSPIRV,
    transpile.
  rewrite !(transpile_parse_failure _ _ _ _ _ _ H).
  repeat split; reflexivity.
Qed.

(** Scenario E1: four bytes that are not SPIR-V. *)
Lemma public_transpile_reads_null_context_e1 :
  spvc_context_parse_spirv rejecting_library four_bytes (size_of four_bytes / 4) = None
  /\ result_of (SDL_ShaderCross_TranspileMSLFromSPIRV (sample_backends rejecting_library)
                  four_bytes "main" SDL_SHADERCROSS_SHADERSTAGE_VERTEX)
     = NullDereference.
Proof.
  split; [reflexivity|].
  apply (public_transpile_reads_null_context (sample_backends rejecting_library)
           four_bytes "main" SDL_SHADERCROSS_SHADERSTAGE_VERTEX).
  reflexivity.
Defined.

(** C5.  The HLSL to DXIL round trip: DXC compiles the caller's HLSL to
    SPIR-V, the transpiler turns it back into HLSL, and DXC compiles that
    text under [entrypoint], the name the caller passed, not under the
    [cleansed_entrypoint] the transpiler has just determined. *)
Theorem dxil_roundtrip_keeps_callers_entrypoint (cfg : build_config) (st : loader_state)
  (be : backends) (hlslSource entrypoint : string) (includeDir : option string)
  (shaderStage : SDL_ShaderCross_ShaderStage) (spirv : bytes) (c : SPIRVTranspileContext) :
  dxc_usable cfg st = true ->
  Dxc be hlslSource entrypoint includeDir shaderStage true = Some spirv ->
  SDL_ShaderCross_INTERNAL_TranspileFromSPIRV (spvc be) SPVC_BACKEND_HLSL 60 shaderStage
    spirv entrypoint = Some c ->
  trace (SDL_ShaderCross_CompileDXILFromHLSL cfg st be hlslSource entrypoint includeDir
           shaderStage)
  = [ CallDxc hlslSource entrypoint includeDir shaderStage true;
      CallTranspile SPVC_BACKEND_HLSL 60 shaderStage spirv entrypoint;
      CallDxc (translated_source c) entrypoint includeDir shaderStage false ].
Proof.
  intros Hdxc Hspirv Hc.
  unfold SDL_ShaderCross_CompileDXILFromHLSL, SDL_ShaderCross_CompileSPIRVFromHLSL,
    SDL_ShaderCross_INTERNAL_CompileUsingDXC, SDL_ShaderCross_TranspileHLSLFromSPIRV,
    transpile.
  rewrite Hdxc. simpl. rewrite Hspirv. simpl. rewrite Hc. simpl.
  destruct (Dxc be (translated_source c) entrypoint includeDir shaderStage false);
    reflexivity.
Qed.

(** With a transpiler that emits the entry point as [main], an HLSL shader
    whose entry point is [VSMain] is compiled back under [VSMain]. *)
Lemma dxil_roundtrip_keeps_callers_entrypoint_vsmain :
  dxc_usable desktop_with_dxc loaded_state = true
  /\ SDL_ShaderCross_INTERNAL_TranspileFromSPIRV (sample_library (emitting_main e2_vertex))
       SPVC_BACKEND_HLSL 60 SDL_SHADERCROSS_SHADERSTAGE_VERTEX four_bytes "VSMain"
     = Some {| translated_source := "translated"; cleansed_entrypoint := "main" |}
  /\ trace (SDL_ShaderCross_CompileDXILFromHLSL desktop_with_dxc loaded_state
              (sample_backends (sample_library (emitting_main e2_vertex))) "hlsl" "VSMain"
              None SDL_SHADERCROSS_SHADERSTAGE_VERTEX)
     = [ CallDxc "hlsl" "VSMain" None SDL_SHADERCROSS_SHADERSTAGE_VERTEX true;
         CallTranspile SPVC_BACKEND_HLSL 60 SDL_SHADERCROSS_SHADERSTAGE_VERTEX four_bytes
           "VSMain";
         CallDxc "translated" "VSMain" None SDL_SHADERCROSS_SHADERSTAGE_VERTEX false ].
Proof.
  split; [reflexivity|]. split; [reflexivity|].
  apply (dxil_roundtrip_keeps_callers_entrypoint desktop_with_dxc loaded_state
           (sample_backends (sample_library (emitting_main e2_vertex))) "hlsl" "VSMain" None
           SDL_SHADERCROSS_SHADERSTAGE_VERTEX four_bytes
           {| translated_source := "translated"; cleansed_entrypoint := "main" |});
    reflexivity.
Defined.

(** The chains that start from SPIR-V do pass the cleansed name on: the
    run-time path compiles and creates the shader under it. *)
Lemma runtime_path_uses_cleansed_entrypoint (cfg : build_config) (st : loader_state)
  (be : backends) (bytecode : bytes) (entrypoint : string)
  (shaderStage : SDL_ShaderCross_ShaderStage) (c : SPIRVTranspileContext) :
  is_null (SDL_D3DCompile st) = false ->
  SDL_ShaderCross_INTERNAL_TranspileFromSPIRV (spvc be) SPVC_BACKEND_HLSL 51 shaderStage
    bytecode entrypoint = Some c ->
  trace (SDL_ShaderCross_INTERNAL_CompileFromSPIRV cfg st be bytecode entrypoint shaderStage
           SDL_GPU_SHADERFORMAT_DXBC)
  = [ CallTranspile SPVC_BACKEND_HLSL 51 shaderStage bytecode entrypoint;
      CallD3DCompile (translated_source c) (cleansed_entrypoint c) (dxbc_profile shaderStage);
      if stage_eqb shaderStage SDL_SHADERCROSS_SHADERSTAGE_COMPUTE
      then CallCreateGPUComputePipeline SDL_GPU_SHADERFORMAT_DXBC (cleansed_entrypoint c)
      else CallCreateGPUShader SDL_GPU_SHADERFORMAT_DXBC (cleansed_entrypoint c) ].
Proof.
  intros Hd3d Hc.
  unfold SDL_ShaderCross_INTERNAL_CompileFromSPIRV, transpile,
    SDL_ShaderCross_INTERNAL_CompileDXBCFromHLSL, SDL_ShaderCross_INTERNAL_CompileDXBC.
  simpl. rewrite Hc. simpl. rewrite Hd3d. simpl.
  destruct (stage_eqb shaderStage SDL_SHADERCROSS_SHADERSTAGE_COMPUTE); reflexivity.
Qed.

(** So does the SPIR-V to DXIL chain for the compile that follows its own
    transpilation. *)
Lemma spirv_to_dxil_uses_cleansed_entrypoint (cfg : build_config) (st : loader_state)
  (be : backends) (bytecode : bytes) (entrypoint : string)
  (shaderStage : SDL_ShaderCross_ShaderStage) (c : SPIRVTranspileContext) :
  dxc_usable cfg st = true ->
  SDL_ShaderCross_INTERNAL_TranspileFromSPIRV (spvc be) SPVC_BACKEND_HLSL 60 shaderStage
    bytecode entrypoint = Some c ->
  exists rest,
    trace (SDL_ShaderCross_CompileDXILFromSPIRV cfg st be bytecode entrypoint shaderStage)
    = CallTranspile SPVC_BACKEND_HLSL 60 shaderStage bytecode entrypoint
      :: CallDxc (translated_source c) (cleansed_entrypoint c) None shaderStage true
      :: rest.
Proof.
  intros Hdxc Hc.
  assert (Hbuilt : SDL_GPU_SHADERCROSS_DXC cfg = true).
  { unfold dxc_usable in Hdxc. apply andb_true_iff in Hdxc. apply Hdxc. }
  unfold SDL_ShaderCross_CompileDXILFromSPIRV. rewrite Hbuilt. simpl.
  unfold transpile. simpl. rewrite Hc. simpl.
  unfold SDL_ShaderCross_CompileDXILFromHLSL, SDL_ShaderCross_CompileSPIRVFromHLSL,
    SDL_ShaderCross_INTERNAL_CompileUsingDXC.
  rewrite Hdxc. simpl.
  destruct (Dxc be (translated_source c) (cleansed_entrypoint c) None shaderStage true)
    as [spirv|]; simpl.
  - match goal with
    | |- context [bind ?m ?f] => destruct (bind m f) as [t o]
    end.
    simpl. eexists. reflexivity.
  - eexists. reflexivity.
Qed.

(** C8.  The requests [SDL_ShaderCross_CompileDXBCFromHLSL] makes: DXC to
    SPIR-V on the caller's HLSL first, the transpiler on that SPIR-V next,
    and only then, and only if both succeeded, D3DCompile on the
    transpiled text.  The requests [SDL_ShaderCross_CompileDXBCFromSPIRV]
    makes: the transpiler on the caller's SPIR-V, then D3DCompile on the
    transpiled text; DXC is never asked. *)
Theorem dxbc_routes (cfg : build_config) (st : loader_state) (be : backends) :
  (forall hlslSource entrypoint includeDir shaderStage,
     trace (SDL_ShaderCross_CompileDXBCFromHLSL cfg st be hlslSource entrypoint includeDir
              shaderStage)
     = if dxc_usable cfg st then
         CallDxc hlslSource entrypoint includeDir shaderStage true ::
         match Dxc be hlslSource entrypoint includeDir shaderStage true with
         | None => []
         | Some spirv =>
             CallTranspile SPVC_BACKEND_HLSL 60 shaderStage spirv entrypoint ::
             match SDL_ShaderCross_INTERNAL_TranspileFromSPIRV (spvc be) SPVC_BACKEND_HLSL 60
                     shaderStage spirv entrypoint with
             | None => []
             | Some c =>
                 if is_null (SDL_D3DCompile st) then []
                 else [CallD3DCompile (translated_source c) entrypoint
                         (dxbc_profile shaderStage)]
             end
         end
       else [])
  /\ (forall bytecode entrypoint shaderStage,
        trace (SDL_ShaderCross_CompileDXBCFromSPIRV cfg st be bytecode entrypoint shaderStage)
        = CallTranspile SPVC_BACKEND_HLSL 51 shaderStage bytecode entrypoint ::
          match SDL_ShaderCross_INTERNAL_TranspileFromSPIRV (spvc be) SPVC_BACKEND_HLSL 51
                  shaderStage bytecode entrypoint with
          | None => []
          | Some c =>
              if is_null (SDL_D3DCompile st) then []
              else [CallD3DCompile (translated_source c) (cleansed_entrypoint c)
                      (dxbc_profile shaderStage)]
          end).
Proof.
  split.
  - intros hlslSource entrypoint includeDir shaderStage.
    unfold SDL_ShaderCross_CompileDXBCFromHLSL, SDL_ShaderCross_INTERNAL_CompileDXBCFromHLSL,
      SDL_ShaderCross_CompileSPIRVFromHLSL, SDL_ShaderCross_INTERNAL_CompileUsingDXC,
      SDL_ShaderCross_TranspileHLSLFromSPIRV, SDL_ShaderCross_INTERNAL_CompileDXBC, transpile.
    destruct (dxc_usable cfg st); [|reflexivity]. simpl.
    destruct (Dxc be hlslSource entrypoint includeDir shaderStage true) as [spirv|];
      [|reflexivity].
    simpl.
    destruct (SDL_ShaderCross_INTERNAL_TranspileFromSPIRV (spvc be) SPVC_BACKEND_HLSL 60
                shaderStage spirv entrypoint) as [c|]; [|reflexivity].
    simpl. destruct (is_null (SDL_D3DCompile st)); reflexivity.
  - intros bytecode entrypoint shaderStage.
    unfold SDL_ShaderCross_CompileDXBCFromSPIRV, SDL_ShaderCross_INTERNAL_CompileDXBCFromHLSL,
      SDL_ShaderCross_INTERNAL_CompileDXBC, transpile.
    simpl.
    destruct (SDL_ShaderCross_INTERNAL_TranspileFromSPIRV (spvc be) SPVC_BACKEND_HLSL 51
                shaderStage bytecode entrypoint) as [c|]; [|reflexivity].
    simpl. destruct (is_null (SDL_D3DCompile st)); reflexivity.
Qed.

(** ** The loader *)

(** C6, as the code has it.  In every loader state of the revision that
    links SPIRV-Cross, the reported formats contain SPIR-V and MSL, contain
    DXBC exactly when the legacy compiler library is loaded, and contain
    DXIL whenever the HLSL compiler can be reached.  In every loader state
    of the revision that opens SPIRV-Cross at run time, they contain
    SPIR-V, contain MSL exactly when SPIRV-Cross can be called, DXIL
    exactly when moreover the HLSL compiler library is loaded, and DXBC
    exactly when moreover the legacy compiler library is loaded. *)
Theorem spirv_shader_formats_reported :
  (forall s : loader_state,
     let formats := SDL_ShaderCross_GetSPIRVShaderFormats s in
     has_format formats SDL_GPU_SHADERFORMAT_SPIRV = true
     /\ has_format formats SDL_GPU_SHADERFORMAT_MSL = true
     /\ has_format formats SDL_GPU_SHADERFORMAT_DXBC = negb (is_null (d3dcompiler_dll s))
     /\ forall cfg, dxc_usable cfg s = true ->
          has_format formats SDL_GPU_SHADERFORMAT_DXIL = true)
  /\ (forall (cfg : Dynload.build_config) (s : Dynload.loader_state),
        let formats := Dynload.SDL_ShaderCross_GetSPIRVShaderFormats cfg s in
        has_format formats SDL_GPU_SHADERFORMAT_SPIRV = true
        /\ has_format formats SDL_GPU_SHADERFORMAT_MSL = Dynload.spirvcross_usable cfg s
        /\ has_format formats SDL_GPU_SHADERFORMAT_DXIL =
             Dynload.spirvcross_usable cfg s && negb (is_null (Dynload.dxcompiler_dll s))
        /\ has_format formats SDL_GPU_SHADERFORMAT_DXBC =
             Dynload.spirvcross_usable cfg s && negb (is_null (Dynload.d3dcompiler_dll s))).
Proof.
  split.
  - intros s formats. subst formats. unfold SDL_ShaderCross_GetSPIRVShaderFormats.
    destruct (d3dcompiler_dll s); simpl; repeat split; reflexivity.
  - intros cfg s formats. subst formats.
    unfold Dynload.SDL_ShaderCross_GetSPIRVShaderFormats.
    destruct (Dynload.spirvcross_usable cfg s);
      destruct (Dynload.dxcompiler_dll s); destruct (Dynload.d3dcompiler_dll s);
      simpl; repeat split; reflexivity.
Qed.

(** On a desktop build with DXC and the legacy compiler loaded, all four
    formats are reported. *)
Lemma spirv_shader_formats_reported_desktop :
  dxc_usable desktop_with_dxc loaded_state = true
  /\ has_format (SDL_ShaderCross_GetSPIRVShaderFormats loaded_state)
       SDL_GPU_SHADERFORMAT_DXIL = true
  /\ has_format (SDL_ShaderCross_GetSPIRVShaderFormats loaded_state)
       SDL_GPU_SHADERFORMAT_DXBC = true.
Proof.
  split; [reflexivity|].
  destruct spirv_shader_formats_reported as [H _].
  destruct (H loaded_state) as [_ [_ [Hdxbc Hdxil]]].
  split; [apply (Hdxil desktop_with_dxc); reflexivity|exact Hdxbc].
Defined.

(** MSL is not always reported, and DXIL is reported without an HLSL
    compiler.  Where SPIRV-Cross is opened at run time and cannot be found,
    [SDL_ShaderCross_Init] leaves a state in which MSL is not reported.
    Where SPIRV-Cross is linked, DXIL is reported after Init by an Xbox
    build whose DXC library cannot be found and by a build without DXC
    support. *)
Lemma spirv_shader_formats_diverge :
  has_format
    (Dynload.SDL_ShaderCross_GetSPIRVShaderFormats dynload_build
       (fst (Dynload.SDL_ShaderCross_Init dynload_build bare_host Dynload.reset_state)))
    SDL_GPU_SHADERFORMAT_MSL = false
  /\ (dxc_usable xbox (fst (SDL_ShaderCross_Init xbox bare_host reset_state)) = false
      /\ has_format
           (SDL_ShaderCross_GetSPIRVShaderFormats
              (fst (SDL_ShaderCross_Init xbox bare_host reset_state)))
           SDL_GPU_SHADERFORMAT_DXIL = true)
  /\ (dxc_usable desktop_without_dxc
        (fst (SDL_ShaderCross_Init desktop_without_dxc full_host reset_state)) = false
      /\ has_format
           (SDL_ShaderCross_GetSPIRVShaderFormats
              (fst (SDL_ShaderCross_Init desktop_without_dxc full_host reset_state)))
           SDL_GPU_SHADERFORMAT_DXIL = true).
Proof.
  repeat split; reflexivity.
Qed.

(** The loader of the revision that links SPIRV-Cross.  Quit unloads the
    handles that are set and no other; whatever the host answers,
    [SDL_ShaderCross_Init] from the initial state followed by
    [SDL_ShaderCross_Quit] leaves every handle and pointer null; a second
    Quit changes nothing and unloads nothing. *)
Lemma linked_loader_quit_resets (cfg : build_config) (h : host) :
  (forall s, snd (SDL_ShaderCross_Quit cfg s)
             = loaded (d3dcompiler_dll s)
               ++ (if SDL_PLATFORM_XBOX cfg then loaded (dxcompiler_dll s) else []))
  /\ (let s := fst (SDL_ShaderCross_Init cfg h reset_state) in
      fst (SDL_ShaderCross_Quit cfg s) = reset_state
      /\ all_null (fst (SDL_ShaderCross_Quit cfg s)) = true
      /\ SDL_ShaderCross_Quit cfg (fst (SDL_ShaderCross_Quit cfg s)) = (reset_state, [])).
Proof.
  split.
  - intros s. unfold SDL_ShaderCross_Quit, quit_d3dcompiler, quit_dxcompiler.
    destruct (d3dcompiler_dll s); destruct (SDL_PLATFORM_XBOX cfg); simpl;
      try reflexivity; destruct (dxcompiler_dll s); reflexivity.
  - unfold SDL_ShaderCross_Init, SDL_ShaderCross_Quit, init_dxcompiler, init_d3dcompiler,
      quit_d3dcompiler, quit_dxcompiler.
    destruct (SDL_PLATFORM_XBOX cfg); simpl;
      repeat match goal with
             | |- context [SDL_LoadObject h ?n] => destruct (SDL_LoadObject h n); simpl
             | |- context [SDL_LoadFunction h ?d ?n] => destruct (SDL_LoadFunction h d n); simpl
             end;
      repeat split; reflexivity.
Qed.

(** C10.  In the revision that opens SPIRV-Cross at run time,
    [SDL_ShaderCross_Quit] does not reset the SPIRV-Cross part of the
    loader.  Its teardown block is compiled only under
    [SDL_GPU_SHADERCROSS_SPIRV], which the header does not define: after
    Init on a host where everything loads, Quit leaves the SPIRV-Cross
    handle and the eleven pointers set.  With the block compiled in, a
    SPIRV-Cross library that lacks one symbol makes Init drop the handle
    and keep the ten resolved pointers, which Quit then skips. *)
Theorem dynload_quit_leaves_state :
  (let s := fst (Dynload.SDL_ShaderCross_Init dynload_build full_host Dynload.reset_state) in
   let s' := fst (Dynload.SDL_ShaderCross_Quit dynload_build s) in
   Dynload.spirvcross_dll s' = Some 4096
   /\ Dynload.SDL_spvc s' = map (fun n => (n, Some 8192)) Dynload.spvc_symbols
   /\ Dynload.all_null s' = false)
  /\ (let s := fst (Dynload.SDL_ShaderCross_Init dynload_build_with_teardown
                      old_spirvcross_host Dynload.reset_state) in
      let s' := fst (Dynload.SDL_ShaderCross_Quit dynload_build_with_teardown s) in
      Dynload.spirvcross_dll s = None
      /\ In ("spvc_context_create", Some 8192) (Dynload.SDL_spvc s')
      /\ Dynload.all_null s' = false).
Proof.
  split.
  - repeat split; reflexivity.
  - split; [reflexivity|]. split; [left; reflexivity|reflexivity].
Qed.

(** In that revision too, Quit unloads nothing and changes nothing when it
    is called a second time. *)
Lemma dynload_quit_twice (cfg : Dynload.build_config) (s : Dynload.loader_state) :
  Dynload.SDL_ShaderCross_Quit cfg (fst (Dynload.SDL_ShaderCross_Quit cfg s))
  = (fst (Dynload.SDL_ShaderCross_Quit cfg s), []).
Proof.
  unfold Dynload.SDL_ShaderCross_Quit, Dynload.quit_spirvcross, Dynload.quit_d3dcompiler,
    Dynload.quit_dxcompiler.
  destruct s as [dx dxf d3 d3f sc fns].
  destruct (Dynload.SDL_GPU_SHADERCROSS_SPIRV cfg && negb (Dynload.SDL_GPU_SHADERCROSS_STATIC cfg));
    destruct sc; destruct d3; destruct dx; simpl; reflexivity.
Qed.

(** * Further properties of the code *)

(** ** The loader, continued *)

(** X1.  What [SDL_ShaderCross_GetHLSLShaderFormats] answers: never SPIR-V
    and never MSL; DXIL exactly when DXC support is compiled in; DXBC when
    DXC support is compiled in or the legacy compiler library is loaded.
    The answer is one of three values: nothing, DXBC alone, or DXIL with
    DXBC. *)
Theorem hlsl_shader_formats_reported (cfg : build_config) (s : loader_state) :
  let formats := SDL_ShaderCross_GetHLSLShaderFormats cfg s in
  has_format formats SDL_GPU_SHADERFORMAT_SPIRV = false
  /\ has_format formats SDL_GPU_SHADERFORMAT_MSL = false
  /\ has_format formats SDL_GPU_SHADERFORMAT_DXIL = SDL_GPU_SHADERCROSS_DXC cfg
  /\ has_format formats SDL_GPU_SHADERFORMAT_DXBC
     = SDL_GPU_SHADERCROSS_DXC cfg || negb (is_null (d3dcompiler_dll s))
  /\ (formats = 0 \/ formats = SDL_GPU_SHADERFORMAT_DXBC
      \/ formats = Z.lor SDL_GPU_SHADERFORMAT_DXIL SDL_GPU_SHADERFORMAT_DXBC).
Proof.
  intros formats. subst formats. unfold SDL_ShaderCross_GetHLSLShaderFormats.
  destruct (SDL_GPU_SHADERCROSS_DXC cfg); destruct (d3dcompiler_dll s); simpl;
    repeat split; try reflexivity; auto.
Qed.

(** X2.  [SDL_ShaderCross_CompileDXBCFromHLSL] hands back a buffer only
    when DXC can be reached and [D3DCompile] is resolved: it needs both
    compilers, the first for the round trip through SPIR-V.
    [SDL_ShaderCross_GetHLSLShaderFormats] reports DXBC as soon as one of
    the two is there. *)
Theorem dxbc_from_hlsl_needs_both_compilers (cfg : build_config) (st : loader_state)
  (be : backends) :
  (forall hlslSource entrypoint includeDir shaderStage b,
     result_of (SDL_ShaderCross_CompileDXBCFromHLSL cfg st be hlslSource entrypoint
                  includeDir shaderStage) = Returns (Some b) ->
     dxc_usable cfg st = true /\ is_null (SDL_D3DCompile st) = false)
  /\ (SDL_GPU_SHADERCROSS_DXC cfg = true ->
      has_format (SDL_ShaderCross_GetHLSLShaderFormats cfg st) SDL_GPU_SHADERFORMAT_DXBC = true)
  /\ (is_null (d3dcompiler_dll st) = false ->
      has_format (SDL_ShaderCross_GetHLSLShaderFormats cfg st) SDL_GPU_SHADERFORMAT_DXBC = true).
Proof.
  split; [|split].
  - intros hlslSource entrypoint includeDir shaderStage b.
    unfold SDL_ShaderCross_CompileDXBCFromHLSL, SDL_ShaderCross_INTERNAL_CompileDXBCFromHLSL,
      SDL_ShaderCross_CompileSPIRVFromHLSL, SDL_ShaderCross_INTERNAL_CompileUsingDXC,
      SDL_ShaderCross_TranspileHLSLFromSPIRV, SDL_ShaderCross_INTERNAL_CompileDXBC, transpile.
    destruct (dxc_usable cfg st); [|simpl; discriminate]. simpl.
    destruct (Dxc be hlslSource entrypoint includeDir shaderStage true) as [spirv|];
      [|simpl; discriminate].
    simpl.
    destruct (SDL_ShaderCross_INTERNAL_TranspileFromSPIRV (spvc be) SPVC_BACKEND_HLSL 60
                shaderStage spirv entrypoint) as [c|]; [|simpl; discriminate].
    simpl. destruct (is_null (SDL_D3DCompile st)); [simpl; discriminate|].
    intros _. split; reflexivity.
  - intros H. unfold SDL_ShaderCross_GetHLSLShaderFormats. rewrite H.
    destruct (d3dcompiler_dll st); reflexivity.
  - intros H. unfold SDL_ShaderCross_GetHLSLShaderFormats. rewrite H.
    destruct (SDL_GPU_SHADERCROSS_DXC cfg); reflexivity.
Qed.

(** X3.  From the initial state, [SDL_ShaderCross_Init] leaves each library
    handle null exactly when the entry point resolved from it is null, and
    [SDL_ShaderCross_Quit] keeps it so.  After such an Init, the DXBC bit of
    [SDL_ShaderCross_GetSPIRVShaderFormats], which tests the handle, tells
    whether [SDL_ShaderCross_INTERNAL_CompileDXBC], which tests the entry
    point, goes on to call [D3DCompile].  A second Init over a loaded state
    can break the pairing: when the library has gone, the handle is reset
    and the old entry point stays. *)
Theorem loader_pairs_handle_and_entry_point (cfg : build_config) :
  (forall h, paired (fst (SDL_ShaderCross_Init cfg h reset_state)) = true)
  /\ (forall s, paired s = true -> paired (fst (SDL_ShaderCross_Quit cfg s)) = true)
  /\ (forall h be hlslSource entrypoint shaderProfile,
        let s := fst (SDL_ShaderCross_Init cfg h reset_state) in
        trace (SDL_ShaderCross_INTERNAL_CompileDXBC s be hlslSource entrypoint shaderProfile)
        = if has_format (SDL_ShaderCross_GetSPIRVShaderFormats s) SDL_GPU_SHADERFORMAT_DXBC
          then [CallD3DCompile hlslSource entrypoint shaderProfile]
          else [])
  /\ (paired loaded_state = true
      /\ paired (fst (SDL_ShaderCross_Init cfg bare_host loaded_state)) = false).
Proof.
  split; [|split; [|split]].
  - intros h. unfold SDL_ShaderCross_Init, init_dxcompiler, init_d3dcompiler.
    destruct (SDL_PLATFORM_XBOX cfg); simpl;
      repeat match goal with
             | |- context [SDL_LoadObject h ?n] => destruct (SDL_LoadObject h n); simpl
             | |- context [SDL_LoadFunction h ?d ?n] => destruct (SDL_LoadFunction h d n); simpl
             end;
      reflexivity.
  - intros s. unfold paired, SDL_ShaderCross_Quit, quit_d3dcompiler, quit_dxcompiler.
    destruct s as [dx dxf d3 d3f].
    destruct (SDL_PLATFORM_XBOX cfg); destruct dx; destruct dxf; destruct d3; destruct d3f;
      simpl; intros H; try discriminate H; reflexivity.
  - intros h be hlslSource entrypoint shaderProfile.
    unfold SDL_ShaderCross_Init, init_dxcompiler, init_d3dcompiler,
      SDL_ShaderCross_INTERNAL_CompileDXBC, SDL_ShaderCross_GetSPIRVShaderFormats.
    destruct (SDL_PLATFORM_XBOX cfg); simpl;
      repeat match goal with
             | |- context [SDL_LoadObject h ?n] => destruct (SDL_LoadObject h n); simpl
             | |- context [SDL_LoadFunction h ?d ?n] => destruct (SDL_LoadFunction h d n); simpl
             end;
      reflexivity.
  - split; [reflexivity|].
    unfold SDL_ShaderCross_Init, init_dxcompiler, init_d3dcompiler.
    destruct (SDL_PLATFORM_XBOX cfg); reflexivity.
Qed.

(** X4.  Handles are balanced over one Init and one Quit, whatever state
    Init starts from and whatever the host answers: the handles Init
    unloads itself (a library without its entry point) together with the
    handles Quit unloads are the handles [SDL_LoadObject] handed out during
    Init, each unloaded once. *)
Theorem loader_unloads_what_it_opened (cfg : build_config) (h : host) (s : loader_state) :
  Permutation
    (snd (SDL_ShaderCross_Init cfg h s)
     ++ snd (SDL_ShaderCross_Quit cfg (fst (SDL_ShaderCross_Init cfg h s))))
    (opened cfg h).
Proof.
  unfold opened, SDL_ShaderCross_Init, SDL_ShaderCross_Quit, init_dxcompiler,
    init_d3dcompiler, quit_d3dcompiler, quit_dxcompiler.
  destruct (SDL_PLATFORM_XBOX cfg) eqn:X; simpl;
    repeat match goal with
           | |- context [SDL_LoadObject h ?n] => destruct (SDL_LoadObject h n); simpl
           | |- context [SDL_LoadFunction h ?d ?n] => destruct (SDL_LoadFunction h d n); simpl
           end;
    try rewrite X; simpl; perm_small.
Qed.

(** X5.  In the revision that opens SPIRV-Cross at run time, a
    SPIRV-Cross handle that survives [SDL_ShaderCross_Init] comes with all
    eleven entry points: Init keeps the handle only when every
    [SDL_spvc_*] pointer is resolved.  So whenever
    [SDL_ShaderCross_GetSPIRVShaderFormats] reports MSL after Init, every
    pointer the translation code calls through is set. *)
Theorem dynload_msl_reported_means_resolved (cfg : Dynload.build_config) (h : host)
  (s : Dynload.loader_state) :
  Dynload.SDL_GPU_SHADERCROSS_STATIC cfg = false ->
  let s' := fst (Dynload.SDL_ShaderCross_Init cfg h s) in
  has_format (Dynload.SDL_ShaderCross_GetSPIRVShaderFormats cfg s') SDL_GPU_SHADERFORMAT_MSL
    = true ->
  is_null (Dynload.spirvcross_dll s') = false /\ spvc_resolved s' = true.
Proof.
  intros Hstatic s' Hmsl.
  assert (Hdll : is_null (Dynload.spirvcross_dll s') = false).
  { unfold Dynload.SDL_ShaderCross_GetSPIRVShaderFormats, Dynload.spirvcross_usable in Hmsl.
    rewrite Hstatic in Hmsl. simpl in Hmsl.
    destruct (Dynload.spirvcross_dll s'); [reflexivity|discriminate Hmsl]. }
  split; [exact Hdll|].
  subst s'. revert Hdll.
  unfold Dynload.SDL_ShaderCross_Init.
  destruct (Dynload.init_dxcompiler cfg h s) as [s1 u1].
  destruct (Dynload.init_d3dcompiler cfg h s1) as [s2 u2].
  unfold Dynload.init_spirvcross. rewrite Hstatic.
  destruct (SDL_LoadObject h (Dynload.SDL_GPU_SPIRV_CROSS_DLL cfg)) as [dll|];
    [|simpl; discriminate].
  destruct (forallb (fun p => negb (is_null (snd p)))
              (map (Dynload.CHECK_FUNC h dll) (Dynload.SDL_spvc s2))) eqn:E;
    simpl; [|discriminate].
  intros _. unfold spvc_resolved. simpl. exact E.
Qed.

Lemma dynload_msl_reported_means_resolved_full_host :
  Dynload.SDL_GPU_SHADERCROSS_STATIC dynload_build = false
  /\ has_format
       (Dynload.SDL_ShaderCross_GetSPIRVShaderFormats dynload_build
          (fst (Dynload.SDL_ShaderCross_Init dynload_build full_host Dynload.reset_state)))
       SDL_GPU_SHADERFORMAT_MSL = true
  /\ spvc_resolved
       (fst (Dynload.SDL_ShaderCross_Init dynload_build full_host Dynload.reset_state)) = true.
Proof.
  split; [reflexivity|]. split; [reflexivity|].
  apply (dynload_msl_reported_means_resolved dynload_build full_host Dynload.reset_state);
    reflexivity.
Defined.

(** X6.  In that revision, with the SPIRV-Cross teardown compiled in (or
    SPIRV-Cross linked statically), handles are balanced over one Init and
    one Quit: the DXIL probe is unloaded at once, a library that lacks an
    entry point is unloaded by Init, and Quit unloads the rest, so that
    every handle [SDL_LoadObject] handed out is unloaded once. *)
Theorem dynload_unloads_what_it_opened (cfg : Dynload.build_config) (h : host)
  (s : Dynload.loader_state) :
  Dynload.SDL_GPU_SHADERCROSS_SPIRV cfg = true
  \/ Dynload.SDL_GPU_SHADERCROSS_STATIC cfg = true ->
  Permutation
    (snd (Dynload.SDL_ShaderCross_Init cfg h s)
     ++ snd (Dynload.SDL_ShaderCross_Quit cfg (fst (Dynload.SDL_ShaderCross_Init cfg h s))))
    (dynload_opened cfg h).
Proof.
  intros Hcfg.
  unfold dynload_opened, Dynload.SDL_ShaderCross_Init, Dynload.SDL_ShaderCross_Quit,
    Dynload.init_dxcompiler, Dynload.init_d3dcompiler, Dynload.init_spirvcross,
    Dynload.quit_spirvcross, Dynload.quit_d3dcompiler, Dynload.quit_dxcompiler.
  destruct (Dynload.SDL_GPU_SHADERCROSS_STATIC cfg) eqn:S;
    destruct (Dynload.SDL_GPU_SHADERCROSS_SPIRV cfg) eqn:V;
    try (destruct Hcfg; discriminate);
    destruct (Dynload.GAMING_XBOX cfg) eqn:X; simpl;
    repeat match goal with
           | |- context [SDL_LoadObject h ?n] => destruct (SDL_LoadObject h n); simpl
           | |- context [SDL_LoadFunction h ?d "DxcCreateInstance"] =>
               destruct (SDL_LoadFunction h d "DxcCreateInstance"); simpl
           | |- context [SDL_LoadFunction h ?d "D3DCompile"] =>
               destruct (SDL_LoadFunction h d "D3DCompile"); simpl
           | |- context [forallb ?f ?l] => destruct (forallb f l); simpl
           end;
    try rewrite S; try rewrite V; simpl;
    repeat match goal with
           | |- context [Dynload.spirvcross_dll ?x] => destruct (Dynload.spirvcross_dll x); simpl
           end;
    perm_small.
Qed.

Lemma dynload_unloads_what_it_opened_full_host :
  Permutation
    (snd (Dynload.SDL_ShaderCross_Init dynload_build_with_teardown full_host
            Dynload.reset_state)
     ++ snd (Dynload.SDL_ShaderCross_Quit dynload_build_with_teardown
               (fst (Dynload.SDL_ShaderCross_Init dynload_build_with_teardown full_host
                       Dynload.reset_state))))
    [4096; 4096; 4096; 4096].
Proof.
  apply (dynload_unloads_what_it_opened dynload_build_with_teardown full_host
           Dynload.reset_state).
  left. reflexivity.
Defined.

(** ** The structs handed to SPIRV-Cross *)

Lemma for_each_invariant {S A : Type} (Inv : S -> Prop) (body : S -> A -> option S) :
  (forall s x s', Inv s -> body s x = Some s' -> Inv s') ->
  forall l s s', Inv s -> for_each body l s = Some s' -> Inv s'.
Proof.
  intros Hstep. induction l as [|x l IH]; intros s s' Hs H; simpl in H.
  - inversion H; subst. exact Hs.
  - destruct (body s x) as [s1|] eqn:Hb; [|discriminate].
    apply (IH s1 s'); [|exact H]. exact (Hstep _ _ _ Hs Hb).
Qed.

Lemma Forall_snoc {A : Type} (P : A -> Prop) (l : list A) (x : A) :
  Forall P l -> P x -> Forall P (l ++ [x]).
Proof.
  intros Hl Hx. apply Forall_app. split; [exact Hl|]. constructor; [exact Hx|constructor].
Qed.

(** What the ten loop bodies keep: the calls recorded so far satisfy [P],
    provided the struct a body builds for its resource does. *)
Section RecordedCalls.
Variable compiler : spvc_compiler.
Variable em : SpvExecutionModel.
Variable P : binding_call -> Prop.
Hypothesis P_identified : forall k r b,
  stage b = Some em -> desc_set b = Some (set_of r) -> binding b = Some (binding_of r) ->
  P {| kind := k; res := r; arg := b |}.

Lemma graphics_bodies_record :
  (forall s r s', recorded_calls P s ->
     graphics_texture_sampler compiler em s r = Some s' -> recorded_calls P s')
  /\ (forall n s r s', recorded_calls P s ->
        graphics_storage_texture em n s r = Some s' -> recorded_calls P s')
  /\ (forall s r s', recorded_calls P s ->
        graphics_storage_buffer em s r = Some s' -> recorded_calls P s')
  /\ (forall n s r s', recorded_calls P s ->
        graphics_uniform_buffer em n s r = Some s' -> recorded_calls P s').
Proof.
  unfold recorded_calls. repeat split; intros;
    match goal with
    | H : _ = Some _ |- _ =>
        unfold graphics_texture_sampler, graphics_storage_texture, graphics_storage_buffer,
          graphics_uniform_buffer in H;
        body_in H
    end;
    (apply Forall_snoc; [assumption|apply P_identified; reflexivity]).
Qed.

Lemma compute_bodies_record :
  (forall s r s', recorded_calls P s ->
     compute_texture_sampler compiler em s r = Some s' -> recorded_calls P s')
  /\ (forall s r s', recorded_calls P s ->
        compute_readonly_storage_texture em s r = Some s' -> recorded_calls P s')
  /\ (forall s r s', recorded_calls P s ->
        compute_readwrite_storage_texture em s r = Some s' -> recorded_calls P s')
  /\ (forall s r s', recorded_calls P s ->
        compute_readonly_storage_buffer em s r = Some s' -> recorded_calls P s')
  /\ (forall s r s', recorded_calls P s ->
        compute_readwrite_storage_buffer em s r = Some s' -> recorded_calls P s')
  /\ (forall s r s', recorded_calls P s ->
        compute_uniform_buffer em s r = Some s' -> recorded_calls P s').
Proof.
  unfold recorded_calls. repeat split; intros;
    match goal with
    | H : _ = Some _ |- _ =>
        unfold compute_texture_sampler, compute_readonly_storage_texture,
          compute_readwrite_storage_texture, compute_readonly_storage_buffer,
          compute_readwrite_storage_buffer, compute_uniform_buffer in H;
        body_in H
    end;
    try assumption;
    (apply Forall_snoc; [assumption|apply P_identified; reflexivity]).
Qed.

Lemma remap_graphics_records added :
  remap_graphics compiler em = Some added -> Forall P added.
Proof.
  destruct graphics_bodies_record as [B1 [B2 [B3 B4]]].
  unfold remap_graphics. intros H. guard_in H.
  list_in H ts. cbv zeta in H. next_loop H s1 L1.
  list_in H st. next_loop H s2 L2.
  list_in H sb. next_loop H s3 L3.
  list_in H ub. next_loop H s4 L4.
  inversion H; subst added.
  apply (for_each_invariant (recorded_calls P) _ (B4 _)) in L4; [exact L4|].
  apply (for_each_invariant (recorded_calls P) _ B3) in L3; [exact L3|].
  apply (for_each_invariant (recorded_calls P) _ (B2 _)) in L2; [exact L2|].
  apply (for_each_invariant (recorded_calls P) _ B1) in L1; [exact L1|].
  constructor.
Qed.

Lemma remap_compute_records added :
  remap_compute compiler em = Some added -> Forall P added.
Proof.
  destruct compute_bodies_record as [B1 [B2 [B3 [B4 [B5 B6]]]]].
  unfold remap_compute. intros H. guard_in H.
  list_in H ts. cbv zeta in H. next_loop H s1 L1.
  list_in H st. next_loop H s2 L2. next_loop H s3 L3.
  list_in H sb. next_loop H s4 L4. next_loop H s5 L5.
  list_in H ub. next_loop H s6 L6.
  inversion H; subst added.
  apply (for_each_invariant (recorded_calls P) _ B6) in L6; [exact L6|].
  apply (for_each_invariant (recorded_calls P) _ B5) in L5; [exact L5|].
  apply (for_each_invariant (recorded_calls P) _ B4) in L4; [exact L4|].
  apply (for_each_invariant (recorded_calls P) _ B3) in L3; [exact L3|].
  apply (for_each_invariant (recorded_calls P) _ B2) in L2; [exact L2|].
  apply (for_each_invariant (recorded_calls P) _ B1) in L1; [exact L1|].
  constructor.
Qed.
End RecordedCalls.

(** X7.  Every struct a completed MSL remapping has handed to
    [spvc_compiler_msl_add_resource_binding] names its resource: [stage]
    holds the execution model of the shader stage, [desc_set] and
    [binding] hold the resource's own descriptor set and binding
    decorations, for vertex and fragment shaders as for compute shaders.
    None of the three is ever left over from another resource or
    unwritten. *)
Theorem remapping_identifies_each_resource (compiler : spvc_compiler)
  (em : SpvExecutionModel) :
  (forall added, remap_graphics compiler em = Some added -> Forall (identifies em) added)
  /\ (forall added, remap_compute compiler em = Some added -> Forall (identifies em) added).
Proof.
  split; intros added H.
  - apply (remap_graphics_records compiler em (identifies em)); [|exact H].
    intros k r b H1 H2 H3. repeat split; assumption.
  - apply (remap_compute_records compiler em (identifies em)); [|exact H].
    intros k r b H1 H2 H3. repeat split; assumption.
Qed.

(** The texture loops never write [msl_buffer]; the loops after the
    texture-sampler loop never write [msl_sampler]. *)
Lemma texture_bodies_leave_msl_buffer compiler em :
  (forall s r s', unwritten msl_buffer s ->
     graphics_texture_sampler compiler em s r = Some s' -> unwritten msl_buffer s')
  /\ (forall n s r s', unwritten msl_buffer s ->
        graphics_storage_texture em n s r = Some s' -> unwritten msl_buffer s')
  /\ (forall s r s', unwritten msl_buffer s ->
        compute_texture_sampler compiler em s r = Some s' -> unwritten msl_buffer s')
  /\ (forall s r s', unwritten msl_buffer s ->
        compute_readonly_storage_texture em s r = Some s' -> unwritten msl_buffer s')
  /\ (forall s r s', unwritten msl_buffer s ->
        compute_readwrite_storage_texture em s r = Some s' -> unwritten msl_buffer s').
Proof.
  unfold unwritten. repeat split; intros;
    match goal with
    | H : _ = Some _ |- _ =>
        unfold graphics_texture_sampler, graphics_storage_texture, compute_texture_sampler,
          compute_readonly_storage_texture, compute_readwrite_storage_texture in H;
        body_in H
    end;
    match goal with
    | H : _ /\ _ |- _ => destruct H as [Hb Hc]
    end;
    try assumption;
    apply Forall_snoc; assumption.
Qed.

Lemma later_bodies_leave_msl_sampler em :
  (forall n s r s', unwritten msl_sampler s ->
     graphics_storage_texture em n s r = Some s' -> unwritten msl_sampler s')
  /\ (forall s r s', unwritten msl_sampler s ->
        graphics_storage_buffer em s r = Some s' -> unwritten msl_sampler s')
  /\ (forall n s r s', unwritten msl_sampler s ->
        graphics_uniform_buffer em n s r = Some s' -> unwritten msl_sampler s')
  /\ (forall s r s', unwritten msl_sampler s ->
        compute_readonly_storage_texture em s r = Some s' -> unwritten msl_sampler s')
  /\ (forall s r s', unwritten msl_sampler s ->
        compute_readwrite_storage_texture em s r = Some s' -> unwritten msl_sampler s')
  /\ (forall s r s', unwritten msl_sampler s ->
        compute_readonly_storage_buffer em s r = Some s' -> unwritten msl_sampler s')
  /\ (forall s r s', unwritten msl_sampler s ->
        compute_readwrite_storage_buffer em s r = Some s' -> unwritten msl_sampler s')
  /\ (forall s r s', unwritten msl_sampler s ->
        compute_uniform_buffer em s r = Some s' -> unwritten msl_sampler s').
Proof.
  unfold unwritten. repeat split; intros;
    match goal with
    | H : _ = Some _ |- _ =>
        unfold graphics_storage_texture, graphics_storage_buffer, graphics_uniform_buffer,
          compute_readonly_storage_texture, compute_readwrite_storage_texture,
          compute_readonly_storage_buffer, compute_readwrite_storage_buffer,
          compute_uniform_buffer in H;
        body_in H
    end;
    match goal with
    | H : _ /\ _ |- _ => destruct H as [Hb Hc]
    end;
    try assumption;
    apply Forall_snoc; assumption.
Qed.

(** The buffer loops record calls for buffers only. *)
Lemma buffer_bodies_record em (P : binding_call -> Prop) :
  (forall c, for_texture c = false -> P c) ->
  (forall s r s', recorded_calls P s ->
     graphics_storage_buffer em s r = Some s' -> recorded_calls P s')
  /\ (forall n s r s', recorded_calls P s ->
        graphics_uniform_buffer em n s r = Some s' -> recorded_calls P s')
  /\ (forall s r s', recorded_calls P s ->
        compute_readonly_storage_buffer em s r = Some s' -> recorded_calls P s')
  /\ (forall s r s', recorded_calls P s ->
        compute_readwrite_storage_buffer em s r = Some s' -> recorded_calls P s')
  /\ (forall s r s', recorded_calls P s ->
        compute_uniform_buffer em s r = Some s' -> recorded_calls P s').
Proof.
  intros HP. unfold recorded_calls. repeat split; intros;
    match goal with
    | H : _ = Some _ |- _ =>
        unfold graphics_storage_buffer, graphics_uniform_buffer,
          compute_readonly_storage_buffer, compute_readwrite_storage_buffer,
          compute_uniform_buffer in H;
        body_in H
    end;
    try assumption;
    (apply Forall_snoc; [assumption|apply HP; reflexivity]).
Qed.

Lemma unwritten_initially (field : spvc_msl_resource_binding -> option Z)
  (result : spvc_result) :
  field uninitialized_binding = None ->
  unwritten field {| local_binding := uninitialized_binding; result := result;
                     num_textures := 0; num_buffers := 0; calls := [] |}.
Proof.
  intros H. split; [exact H|constructor].
Qed.

Lemma texture_calls_weaken (s : remap_state) :
  unwritten msl_buffer s ->
  recorded_calls (fun c => for_texture c = true -> msl_buffer (arg c) = None) s.
Proof.
  intros [_ H]. unfold recorded_calls. eapply Forall_impl; [|exact H].
  intros c Hc _. exact Hc.
Qed.

Lemma texture_sampler_list_empty compiler result l :
  texture_sampler_list compiler = Some (result, l) ->
  texture_samplers_of compiler = [] -> l = [].
Proof.
  intros H E. apply texture_sampler_list_some in H. destruct H as [-> _]. exact E.
Qed.

(** X8.  The struct handed to [spvc_compiler_msl_add_resource_binding] is
    a local that is never initialised and of which each loop writes only
    some fields.  In every completed remapping, for graphics and for
    compute, the struct passed for a texture-sampler or a storage texture
    carries an [msl_buffer] no statement has written; and for a shader
    without texture-samplers, no struct passed carries a written
    [msl_sampler]. *)
Theorem remapping_passes_unwritten_fields (compiler : spvc_compiler)
  (em : SpvExecutionModel) (added : list binding_call) :
  remap_graphics compiler em = Some added \/ remap_compute compiler em = Some added ->
  Forall (fun c => for_texture c = true -> msl_buffer (arg c) = None) added
  /\ (texture_samplers_of compiler = [] ->
      Forall (fun c => msl_sampler (arg c) = None) added).
Proof.
  destruct (texture_bodies_leave_msl_buffer compiler em) as [T1 [T2 [T3 [T4 T5]]]].
  destruct (later_bodies_leave_msl_sampler em) as [S1 [S2 [S3 [S4 [S5 [S6 [S7 S8]]]]]]].
  destruct (buffer_bodies_record em
              (fun c => for_texture c = true -> msl_buffer (arg c) = None))
    as [B1 [B2 [B3 [B4 B5]]]].
  { intros c Hc Ht. rewrite Hc in Ht. discriminate Ht. }
  intros [H|H].
  - unfold remap_graphics in H. guard_in H.
    list_in H ts. cbv zeta in H. next_loop H s1 L1.
    list_in H st. next_loop H s2 L2.
    list_in H sb. next_loop H s3 L3.
    list_in H ub. next_loop H s4 L4.
    inversion H; subst added. split.
    + apply (for_each_invariant (recorded_calls _) _ (B2 _)) in L4; [exact L4|].
      apply (for_each_invariant (recorded_calls _) _ B1) in L3; [exact L3|].
      apply texture_calls_weaken.
      apply (for_each_invariant (unwritten msl_buffer) _ (T2 _)) in L2; [exact L2|].
      apply (for_each_invariant (unwritten msl_buffer) _ T1) in L1; [exact L1|].
      apply unwritten_initially. reflexivity.
    + intros Ets. rewrite (texture_sampler_list_empty _ _ _ Q Ets) in L1.
      simpl in L1. inversion L1; subst s1.
      apply (for_each_invariant (unwritten msl_sampler) _ (S3 _)) in L4; [apply L4|].
      apply (for_each_invariant (unwritten msl_sampler) _ S2) in L3; [exact L3|].
      apply (for_each_invariant (unwritten msl_sampler) _ (S1 _)) in L2; [exact L2|].
      apply unwritten_initially. reflexivity.
  - unfold remap_compute in H. guard_in H.
    list_in H ts. cbv zeta in H. next_loop H s1 L1.
    list_in H st. next_loop H s2 L2. next_loop H s3 L3.
    list_in H sb. next_loop H s4 L4. next_loop H s5 L5.
    list_in H ub. next_loop H s6 L6.
    inversion H; subst added. split.
    + apply (for_each_invariant (recorded_calls _) _ B5) in L6; [exact L6|].
      apply (for_each_invariant (recorded_calls _) _ B4) in L5; [exact L5|].
      apply (for_each_invariant (recorded_calls _) _ B3) in L4; [exact L4|].
      apply texture_calls_weaken.
      apply (for_each_invariant (unwritten msl_buffer) _ T5) in L3; [exact L3|].
      apply (for_each_invariant (unwritten msl_buffer) _ T4) in L2; [exact L2|].
      apply (for_each_invariant (unwritten msl_buffer) _ T3) in L1; [exact L1|].
      apply unwritten_initially. reflexivity.
    + intros Ets. rewrite (texture_sampler_list_empty _ _ _ Q Ets) in L1.
      simpl in L1. inversion L1; subst s1.
      apply (for_each_invariant (unwritten msl_sampler) _ S8) in L6; [apply L6|].
      apply (for_each_invariant (unwritten msl_sampler) _ S7) in L5; [exact L5|].
      apply (for_each_invariant (unwritten msl_sampler) _ S6) in L4; [exact L4|].
      apply (for_each_invariant (unwritten msl_sampler) _ S5) in L3; [exact L3|].
      apply (for_each_invariant (unwritten msl_sampler) _ S4) in L2; [exact L2|].
      apply unwritten_initially. reflexivity.
Qed.

(** Scenario E4 again: the two structs passed for its buffers carry no
    [msl_sampler], and there are two of them. *)
Lemma remapping_passes_unwritten_fields_e4 :
  remap_compute e4_compute SpvExecutionModelKernel
  = Some [ {| kind := StorageBuffer; res := resource_at 20 1 0;
              arg := {| stage := Some SpvExecutionModelKernel; desc_set := Some 1;
                        binding := Some 0; msl_buffer := Some 0;
                        msl_texture := None; msl_sampler := None |} |};
           {| kind := UniformBuffer; res := resource_at 21 2 0;
              arg := {| stage := Some SpvExecutionModelKernel; desc_set := Some 2;
                        binding := Some 0; msl_buffer := Some 1;
                        msl_texture := None; msl_sampler := None |} |} ]
  /\ Forall (fun c => msl_sampler (arg c) = None)
       [ {| kind := StorageBuffer; res := resource_at 20 1 0;
            arg := {| stage := Some SpvExecutionModelKernel; desc_set := Some 1;
                      binding := Some 0; msl_buffer := Some 0;
                      msl_texture := None; msl_sampler := None |} |};
         {| kind := UniformBuffer; res := resource_at 21 2 0;
            arg := {| stage := Some SpvExecutionModelKernel; desc_set := Some 2;
                      binding := Some 0; msl_buffer := Some 1;
                      msl_texture := None; msl_sampler := None |} |} ].
Proof.
  split; [reflexivity|].
  apply (remapping_passes_unwritten_fields e4_compute SpvExecutionModelKernel);
    [right; reflexivity|reflexivity].
Defined.

(** ** Answers of SPIRV-Cross that are never looked at *)

Lemma same_but_result_with_result (s t : remap_state) (r : spvc_result) :
  same_but_result s t -> with_result s r = with_result t r.
Proof.
  intros [H1 [H2 [H3 H4]]]. destruct s, t. simpl in *. subst. reflexivity.
Qed.

Lemma texture_sampler_bodies_keep_calls compiler em (c : binding_call) :
  (forall s r s', In c (calls s) ->
     graphics_texture_sampler compiler em s r = Some s' -> In c (calls s'))
  /\ (forall s r s', In c (calls s) ->
        compute_texture_sampler compiler em s r = Some s' -> In c (calls s')).
Proof.
  split; intros s r s' Hin H;
    unfold graphics_texture_sampler, compute_texture_sampler in H; body_in H;
    apply in_or_app; left; exact Hin.
Qed.

(** The texture-sampler loop under another answer function: the same
    calls, as long as the new answers for these calls are no errors. *)
Lemma graphics_texture_samplers_answering compiler f em :
  forall l s s' t,
    for_each (graphics_texture_sampler compiler em) l s = Some s' ->
    same_but_result s t ->
    (forall c, In c (calls s') -> kind c = TextureSampler -> f (arg c) >= 0) ->
    exists t', for_each (graphics_texture_sampler (answering compiler f) em) l t = Some t'
               /\ same_but_result s' t'.
Proof.
  induction l as [|r l IH]; intros s s' t H R Hf; simpl in H.
  - inversion H; subst. exists t. split; [reflexivity|exact R].
  - destruct (graphics_texture_sampler compiler em s r) as [s1|] eqn:Hb; [|discriminate].
    assert (Hkeep : forall c, In c (calls s1) -> In c (calls s')).
    { intros c Hc.
      apply (for_each_invariant (fun x => In c (calls x)) _
               (fun x y z => proj1 (texture_sampler_bodies_keep_calls compiler em c) x y z)
               l s1 s' Hc H). }
    destruct R as [R1 [R2 [R3 R4]]].
    unfold graphics_texture_sampler in Hb. body_in Hb.
    simpl. unfold graphics_texture_sampler at 1. rewrite E, E0. cbv zeta. simpl result.
    rewrite <- R1.
    match goal with
    | |- context [f ?b] =>
        assert (Hfb : f b >= 0)
    end.
    { apply (Hf {| kind := TextureSampler; res := r;
                   arg := set_msl_sampler (set_msl_texture
                            (fill_binding (local_binding s) em
                               (spvc_compiler_get_decoration r SpvDecorationDescriptorSet)
                               (spvc_compiler_get_decoration r SpvDecorationBinding))
                            (spvc_compiler_get_decoration r SpvDecorationBinding))
                            (spvc_compiler_get_decoration r SpvDecorationBinding) |});
        [|reflexivity].
      apply Hkeep. simpl. apply in_or_app. right. left. reflexivity. }
    rewrite (failed_false _ Hfb).
    eapply IH; [exact H| |exact Hf].
    repeat split; simpl; congruence.
Qed.

Lemma compute_texture_samplers_answering compiler f em :
  forall l s s' t,
    for_each (compute_texture_sampler compiler em) l s = Some s' ->
    same_but_result s t ->
    (forall c, In c (calls s') -> kind c = TextureSampler -> f (arg c) >= 0) ->
    exists t', for_each (compute_texture_sampler (answering compiler f) em) l t = Some t'
               /\ same_but_result s' t'.
Proof.
  induction l as [|r l IH]; intros s s' t H R Hf; simpl in H.
  - inversion H; subst. exists t. split; [reflexivity|exact R].
  - destruct (compute_texture_sampler compiler em s r) as [s1|] eqn:Hb; [|discriminate].
    assert (Hkeep : forall c, In c (calls s1) -> In c (calls s')).
    { intros c Hc.
      apply (for_each_invariant (fun x => In c (calls x)) _
               (fun x y z => proj2 (texture_sampler_bodies_keep_calls compiler em c) x y z)
               l s1 s' Hc H). }
    destruct R as [R1 [R2 [R3 R4]]].
    unfold compute_texture_sampler in Hb. body_in Hb.
    simpl. unfold compute_texture_sampler at 1. rewrite E, E0. cbv zeta. simpl result.
    rewrite <- R1, <- R2.
    match goal with
    | |- context [f ?b] =>
        assert (Hfb : f b >= 0)
    end.
    { apply (Hf {| kind := TextureSampler; res := r;
                   arg := set_msl_sampler (set_msl_texture
                            (fill_binding (local_binding s) em
                               (spvc_compiler_get_decoration r SpvDecorationDescriptorSet)
                               (spvc_compiler_get_decoration r SpvDecorationBinding))
                            (num_textures s)) (num_textures s) |});
        [|reflexivity].
      apply Hkeep. simpl. apply in_or_app. right. left. reflexivity. }
    rewrite (failed_false _ Hfb).
    eapply IH; [exact H| |exact Hf].
    repeat split; simpl; congruence.
Qed.

Lemma calls_of_loop_kept {A : Type} (body : remap_state -> A -> option remap_state)
  (c : binding_call) :
  (forall s x s', In c (calls s) -> body s x = Some s' -> In c (calls s')) ->
  forall l s s', for_each body l s = Some s' -> In c (calls s) -> In c (calls s').
Proof.
  intros Hstep l s s' H Hin.
  exact (for_each_invariant (fun x => In c (calls x)) body Hstep l s s' Hin H).
Qed.

Lemma later_bodies_keep_calls em (c : binding_call) :
  (forall n s r s', In c (calls s) ->
     graphics_storage_texture em n s r = Some s' -> In c (calls s'))
  /\ (forall s r s', In c (calls s) ->
        graphics_storage_buffer em s r = Some s' -> In c (calls s'))
  /\ (forall n s r s', In c (calls s) ->
        graphics_uniform_buffer em n s r = Some s' -> In c (calls s'))
  /\ (forall s r s', In c (calls s) ->
        compute_readonly_storage_texture em s r = Some s' -> In c (calls s'))
  /\ (forall s r s', In c (calls s) ->
        compute_readwrite_storage_texture em s r = Some s' -> In c (calls s'))
  /\ (forall s r s', In c (calls s) ->
        compute_readonly_storage_buffer em s r = Some s' -> In c (calls s'))
  /\ (forall s r s', In c (calls s) ->
        compute_readwrite_storage_buffer em s r = Some s' -> In c (calls s'))
  /\ (forall s r s', In c (calls s) ->
        compute_uniform_buffer em s r = Some s' -> In c (calls s')).
Proof.
  repeat split; intros;
    match goal with
    | H : _ = Some _ |- _ =>
        unfold graphics_storage_texture, graphics_storage_buffer, graphics_uniform_buffer,
          compute_readonly_storage_texture, compute_readwrite_storage_texture,
          compute_readonly_storage_buffer, compute_readwrite_storage_buffer,
          compute_uniform_buffer in H;
        body_in H
    end;
    try assumption;
    (apply in_or_app; left; assumption).
Qed.

(** X9.  Of all the answers [spvc_compiler_msl_add_resource_binding]
    gives during a remapping, only those for texture-samplers are looked
    at, and only for their sign.  The loops for storage textures, storage
    buffers and uniform buffers drop the answer and test the result of the
    list query again.  So a remapping that completes with one answer
    function completes with the same calls under any other that reports no
    error for the texture-sampler structs, whatever it reports for the
    others. *)
Theorem remapping_ignores_later_answers (compiler : spvc_compiler)
  (f : spvc_msl_resource_binding -> spvc_result) (em : SpvExecutionModel)
  (added : list binding_call) :
  (forall c, In c added -> kind c = TextureSampler -> f (arg c) >= 0) ->
  (remap_graphics compiler em = Some added ->
   remap_graphics (answering compiler f) em = Some added)
  /\ (remap_compute compiler em = Some added ->
      remap_compute (answering compiler f) em = Some added).
Proof.
  intros Hf.
  assert (Hts : texture_sampler_list (answering compiler f) = texture_sampler_list compiler)
    by reflexivity.
  assert (Hrl : forall t, resource_list (answering compiler f) t = resource_list compiler t)
    by reflexivity.
  assert (Hinit : forall r,
            same_but_result
              {| local_binding := uninitialized_binding; result := r;
                 num_textures := 0; num_buffers := 0; calls := [] |}
              {| local_binding := uninitialized_binding; result := r;
                 num_textures := 0; num_buffers := 0; calls := [] |}).
  { intros r. repeat split. }
  split; intros H.
  - unfold remap_graphics in *.
    change (spvc_compiler_create_shader_resources (answering compiler f))
      with (spvc_compiler_create_shader_resources compiler).
    rewrite Hts, !Hrl. guard_in H.
    list_in H ts. cbv zeta in H |- *. next_loop H s1 L1.
    list_in H st. next_loop H s2 L2.
    list_in H sb. next_loop H s3 L3.
    list_in H ub. next_loop H s4 L4.
    inversion H; subst added. clear H.
    destruct (graphics_texture_samplers_answering compiler f em ts _ s1 _ L1 (Hinit r))
      as [t1 [-> R1]].
    { intros c Hc. apply Hf.
      apply (calls_of_loop_kept _ c
               (fun x y z => proj1 (proj2 (proj2 (later_bodies_keep_calls em c))) _ x y z)
               _ _ _ L4).
      apply (calls_of_loop_kept _ c
               (fun x y z => proj1 (proj2 (later_bodies_keep_calls em c)) x y z)
               _ _ _ L3).
      apply (calls_of_loop_kept _ c
               (fun x y z => proj1 (later_bodies_keep_calls em c) _ x y z)
               _ _ _ L2).
      exact Hc. }
    rewrite <- (same_but_result_with_result _ _ r0 R1), L2, L3, L4. reflexivity.
  - unfold remap_compute in *.
    change (spvc_compiler_create_shader_resources (answering compiler f))
      with (spvc_compiler_create_shader_resources compiler).
    rewrite Hts, !Hrl. guard_in H.
    list_in H ts. cbv zeta in H |- *. next_loop H s1 L1.
    list_in H st. next_loop H s2 L2. next_loop H s3 L3.
    list_in H sb. next_loop H s4 L4. next_loop H s5 L5.
    list_in H ub. next_loop H s6 L6.
    inversion H; subst added. clear H.
    destruct (compute_texture_samplers_answering compiler f em ts _ s1 _ L1 (Hinit r))
      as [t1 [-> R1]].
    { intros c Hc. apply Hf.
      destruct (later_bodies_keep_calls em c) as [_ [_ [_ [K2 [K3 [K4 [K5 K6]]]]]]].
      apply (calls_of_loop_kept _ c K6 _ _ _ L6).
      apply (calls_of_loop_kept _ c K5 _ _ _ L5).
      apply (calls_of_loop_kept _ c K4 _ _ _ L4).
      apply (calls_of_loop_kept _ c K3 _ _ _ L3).
      apply (calls_of_loop_kept _ c K2 _ _ _ L2).
      exact Hc. }
    rewrite <- (same_but_result_with_result _ _ r0 R1), L2, L3, L4, L5, L6. reflexivity.
Qed.

(** Scenario E2 under an answer function that fails for every struct with
    a buffer index: the uniform buffer is registered all the same. *)
Lemma remapping_ignores_later_answers_e2 :
  (forall c,
     In c [ {| kind := TextureSampler; res := resource_at 10 0 0;
               arg := {| stage := Some SpvExecutionModelVertex; desc_set := Some 0;
                         binding := Some 0; msl_buffer := None;
                         msl_texture := Some 0; msl_sampler := Some 0 |} |};
            {| kind := UniformBuffer; res := resource_at 11 1 0;
               arg := {| stage := Some SpvExecutionModelVertex; desc_set := Some 1;
                         binding := Some 0; msl_buffer := Some 0;
                         msl_texture := Some 0; msl_sampler := Some 0 |} |} ] ->
     kind c = TextureSampler -> failing_for_buffers (arg c) >= 0)
  /\ failing_for_buffers
       {| stage := Some SpvExecutionModelVertex; desc_set := Some 1;
          binding := Some 0; msl_buffer := Some 0;
          msl_texture := Some 0; msl_sampler := Some 0 |} = -1
  /\ remap_graphics (answering e2_vertex failing_for_buffers) SpvExecutionModelVertex
     = Some [ {| kind := TextureSampler; res := resource_at 10 0 0;
                 arg := {| stage := Some SpvExecutionModelVertex; desc_set := Some 0;
                           binding := Some 0; msl_buffer := None;
                           msl_texture := Some 0; msl_sampler := Some 0 |} |};
              {| kind := UniformBuffer; res := resource_at 11 1 0;
                 arg := {| stage := Some SpvExecutionModelVertex; desc_set := Some 1;
                           binding := Some 0; msl_buffer := Some 0;
                           msl_texture := Some 0; msl_sampler := Some 0 |} |} ].
Proof.
  assert (Hf : forall c,
     In c [ {| kind := TextureSampler; res := resource_at 10 0 0;
               arg := {| stage := Some SpvExecutionModelVertex; desc_set := Some 0;
                         binding := Some 0; msl_buffer := None;
                         msl_texture := Some 0; msl_sampler := Some 0 |} |};
            {| kind := UniformBuffer; res := resource_at 11 1 0;
               arg := {| stage := Some SpvExecutionModelVertex; desc_set := Some 1;
                         binding := Some 0; msl_buffer := Some 0;
                         msl_texture := Some 0; msl_sampler := Some 0 |} |} ] ->
     kind c = TextureSampler -> failing_for_buffers (arg c) >= 0).
  { intros c [<-|[<-|[]]] Hk; [unfold failing_for_buffers; simpl; lia|discriminate Hk]. }
  split; [exact Hf|]. split; [reflexivity|].
  apply (remapping_ignores_later_answers e2_vertex failing_for_buffers
           SpvExecutionModelVertex _ Hf).
  reflexivity.
Defined.

(** ** Reflection after a remapping *)

Lemma same_lists_texture_sampler_list (cn cm : spvc_compiler) :
  (forall t, spvc_resources_get_resource_list_for_type cn t
             = spvc_resources_get_resource_list_for_type cm t) ->
  texture_sampler_list cn = texture_sampler_list cm
  /\ forall t, resource_list cn t = resource_list cm t.
Proof.
  intros H. unfold texture_sampler_list, resource_list. split.
  - rewrite !H. reflexivity.
  - intros t. rewrite H. reflexivity.
Qed.

(** X10.  A module the MSL remapper accepts is a module reflection
    accepts.  The run-time path transpiles first and reflects afterwards,
    on a second compiler built for the same buffer; when that compiler
    lists the same resources, a completed compute remapping makes
    [SDL_ShaderCross_INTERNAL_ReflectComputeSPIRV] return [true], and a
    completed graphics remapping makes
    [SDL_ShaderCross_INTERNAL_ReflectGraphicsSPIRV] return [true]. *)
Theorem remapped_module_reflects (spvc : spvc_library) (code : bytes)
  (cm cn : spvc_compiler) (em : SpvExecutionModel) (added : list binding_call) :
  compiler_for spvc SPVC_BACKEND_MSL code = Some cm ->
  compiler_for spvc SPVC_BACKEND_NONE code = Some cn ->
  (forall t, spvc_resources_get_resource_list_for_type cn t
             = spvc_resources_get_resource_list_for_type cm t) ->
  spvc_context_create spvc >= 0 ->
  spvc_compiler_create_shader_resources cn >= 0 ->
  (remap_compute cm em = Some added ->
   exists info, SDL_ShaderCross_INTERNAL_ReflectComputeSPIRV spvc code = Some info)
  /\ (remap_graphics cm em = Some added ->
      exists info, SDL_ShaderCross_INTERNAL_ReflectGraphicsSPIRV spvc code = Some info).
Proof.
  intros Hm Hn Hsame Hctx Hres.
  destruct (same_lists_texture_sampler_list cn cm Hsame) as [Hts Hrl].
  unfold compiler_for in Hn.
  destruct (spvc_context_parse_spirv spvc code (size_of code / 4)) as [ir|] eqn:Hir;
    [|discriminate].
  split; intros H.
  - pose proof (remap_compute_some _ _ _ H) as [_ [_ [A2 [A3 _]]]].
    unfold remap_compute in H. guard_in H.
    list_in H ts. cbv zeta in H. next_loop H s1 L1.
    list_in H st. next_loop H s2 L2. next_loop H s3 L3.
    list_in H sb. next_loop H s4 L4. next_loop H s5 L5.
    list_in H ub.
    unfold SDL_ShaderCross_INTERNAL_ReflectComputeSPIRV.
    rewrite (failed_false _ Hctx), Hir, Hn, (failed_false _ Hres), Hts, !Hrl, Q0, Q1, Q2.
    apply resource_list_some in Q0. destruct Q0 as [-> _].
    apply resource_list_some in Q1. destruct Q1 as [-> _].
    simpl snd.
    destruct (reflect_storage_texture_total _ A2 (0, 0)) as [t ->].
    destruct (reflect_storage_buffer_total _ A3 (0, 0)) as [b ->].
    eexists. reflexivity.
  - unfold remap_graphics in H. guard_in H.
    list_in H ts. cbv zeta in H. next_loop H s1 L1.
    list_in H st. next_loop H s2 L2.
    list_in H sb. next_loop H s3 L3.
    list_in H ub.
    unfold SDL_ShaderCross_INTERNAL_ReflectGraphicsSPIRV.
    rewrite (failed_false _ Hctx), Hir, Hn, (failed_false _ Hres), Hts, !Hrl, Q0, Q1, Q2.
    eexists. reflexivity.
Qed.

(** Scenario E4: the compute shader the remapper accepts is reflected. *)
Lemma remapped_module_reflects_e4 :
  remap_compute e4_compute SpvExecutionModelKernel
  = Some [ {| kind := StorageBuffer; res := resource_at 20 1 0;
              arg := {| stage := Some SpvExecutionModelKernel; desc_set := Some 1;
                        binding := Some 0; msl_buffer := Some 0;
                        msl_texture := None; msl_sampler := None |} |};
           {| kind := UniformBuffer; res := resource_at 21 2 0;
              arg := {| stage := Some SpvExecutionModelKernel; desc_set := Some 2;
                        binding := Some 0; msl_buffer := Some 1;
                        msl_texture := None; msl_sampler := None |} |} ]
  /\ exists info,
       SDL_ShaderCross_INTERNAL_ReflectComputeSPIRV (sample_library e4_compute) four_bytes
       = Some info.
Proof.
  split; [reflexivity|].
  refine (proj1 (remapped_module_reflects (sample_library e4_compute) four_bytes
                   e4_compute e4_compute SpvExecutionModelKernel _
                   eq_refl eq_refl (fun _ => eq_refl) _ _) eq_refl);
    simpl; lia.
Defined.

(** ** The DXC driver *)

Lemma dxc_arguments_built (cfg : build_config) (e : string) (d : option string)
  (shaderStage : SDL_ShaderCross_ShaderStage) (spirv : bool) :
  exists args argCount,
    DxcDriver.arguments cfg e d shaderStage spirv = Some (args, argCount)
    /\ List.length args = 8%nat
    /\ argCount = Z.of_nat (List.length (DxcDriver.command_line cfg e d shaderStage spirv))
    /\ firstn (Z.to_nat argCount) args
       = map Some (DxcDriver.command_line cfg e d shaderStage spirv)
    /\ skipn (Z.to_nat argCount) args = repeat None (8 - Z.to_nat argCount).
Proof.
  unfold DxcDriver.arguments, DxcDriver.command_line.
  destruct (SDL_PLATFORM_XBOX cfg); destruct d as [dir|]; destruct shaderStage;
    destruct spirv; do 2 eexists; repeat split; reflexivity.
Qed.

(** X11.  The argument array of [SDL_ShaderCross_INTERNAL_CompileUsingDXC]
    has eight slots and is filled by index.  No combination of include
    directory, stage, SPIR-V flag and platform writes outside it; and
    whenever [Compile] is called, it is called on the caller's source with
    its terminator counted, with [argCount] at most 8, the first
    [argCount] slots holding [-E entry], [-I dir] if there is an include
    directory, [-T] and the 6.0 profile of the stage, [-spirv] if asked
    for, the Xbox define on Xbox, in this order, and every other slot
    [NULL]. *)
Theorem dxc_argument_array_holds_the_command_line (cfg : build_config) (st : loader_state)
  (sdl : DxcDriver.sdl_strings) (dxc : DxcDriver.dxc_library)
  (hlslSource entrypoint : string) (includeDir : option string)
  (shaderStage : SDL_ShaderCross_ShaderStage) (spirv : bool) :
  let run := DxcDriver.SDL_ShaderCross_INTERNAL_CompileUsingDXC cfg st sdl dxc hlslSource
               entrypoint includeDir shaderStage spirv in
  snd run <> WritesOutside
  /\ forall Ptr Size args argCount,
       In (DxcDriver.CallCompile Ptr Size args argCount) (fst run) ->
       exists e d,
         DxcDriver.SDL_iconv_string sdl entrypoint
           (DxcDriver.SDL_utf8strlen sdl entrypoint + 1) = Some e
         /\ DxcDriver.convert_include_dir sdl includeDir = Some d
         /\ Ptr = hlslSource /\ Size = SDL_strlen hlslSource + 1
         /\ List.length args = 8%nat /\ 0 <= argCount <= 8
         /\ firstn (Z.to_nat argCount) args
            = map Some (DxcDriver.command_line cfg e d shaderStage spirv)
         /\ skipn (Z.to_nat argCount) args = repeat None (8 - Z.to_nat argCount).
Proof.
  intros run. subst run. unfold DxcDriver.SDL_ShaderCross_INTERNAL_CompileUsingDXC.
  destruct (negb (SDL_GPU_SHADERCROSS_DXC cfg)); [split; [discriminate|intros ? ? ? ? []]|].
  destruct (SDL_PLATFORM_XBOX cfg && is_null (SDL_DxcCreateInstance st));
    [split; [discriminate|intros ? ? ? ? []]|].
  destruct (negb (DxcDriver.DxcCreateInstance dxc DxcDriver.CLSID_DxcCompiler));
    [split; [discriminate|intros ? ? ? ? []]|].
  destruct (negb (DxcDriver.DxcCreateInstance dxc DxcDriver.CLSID_DxcUtils));
    [split; [discriminate|simpl; intros ? ? ? ? [H|[]]; discriminate H]|].
  destruct (negb (DxcDriver.CreateDefaultIncludeHandler dxc));
    [split; [discriminate|simpl; intros ? ? ? ? [H|[H|[]]]; discriminate H]|].
  destruct (DxcDriver.SDL_iconv_string sdl entrypoint
              (DxcDriver.SDL_utf8strlen sdl entrypoint + 1)) as [e|];
    [|split; [discriminate|simpl; intros ? ? ? ? [H|[H|[]]]; discriminate H]].
  destruct (DxcDriver.convert_include_dir sdl includeDir) as [d|];
    [|split; [discriminate|simpl; intros ? ? ? ? [H|[H|[H|[]]]]; discriminate H]].
  destruct (dxc_arguments_built cfg e d shaderStage spirv)
    as [args [argCount [-> [Hlen [Hcount [Hfirst Hrest]]]]]].
  assert (Hbound : 0 <= argCount <= 8).
  { rewrite Hcount. unfold DxcDriver.command_line.
    destruct d; destruct spirv; destruct (SDL_PLATFORM_XBOX cfg); simpl; lia. }
  assert (Hcall : forall Ptr Size args' argCount' tail,
            In (DxcDriver.CallCompile Ptr Size args' argCount')
              (([DxcDriver.CallCompile hlslSource (SDL_strlen hlslSource + 1) args argCount;
                 DxcDriver.SDL_free DxcDriver.entryPointUtf16]
                ++ (if is_null d then [] else [DxcDriver.SDL_free DxcDriver.includeDirUtf16]))
               ++ tail) ->
            Forall (fun ev => match ev with DxcDriver.CallCompile _ _ _ _ => False | _ => True end)
              tail ->
            Ptr = hlslSource /\ Size = SDL_strlen hlslSource + 1 /\ args' = args
            /\ argCount' = argCount).
  { intros Ptr Size args' argCount' tail Hin Htail.
    apply in_app_or in Hin. destruct Hin as [Hin|Hin].
    - simpl in Hin. destruct Hin as [Hin|[Hin|Hin]].
      + inversion Hin; subst. repeat split; reflexivity.
      + discriminate Hin.
      + destruct (is_null d); simpl in Hin; [destruct Hin|].
        destruct Hin as [Hin|[]]; discriminate Hin.
    - rewrite Forall_forall in Htail. destruct (Htail _ Hin). }
  assert (Hgoal : forall tail (c : completion (option bytes)),
            c <> WritesOutside ->
            Forall (fun ev => match ev with DxcDriver.CallCompile _ _ _ _ => False | _ => True end)
              tail ->
            c <> WritesOutside
            /\ forall Ptr Size args' argCount',
                 In (DxcDriver.CallCompile Ptr Size args' argCount')
                   (([DxcDriver.CallCompile hlslSource (SDL_strlen hlslSource + 1) args
                        argCount;
                      DxcDriver.SDL_free DxcDriver.entryPointUtf16]
                     ++ (if is_null d then []
                         else [DxcDriver.SDL_free DxcDriver.includeDirUtf16]))
                    ++ tail) ->
                 exists e0 d0,
                   Some e = Some e0 /\ Some d = Some d0
                   /\ Ptr = hlslSource /\ Size = SDL_strlen hlslSource + 1
                   /\ List.length args' = 8%nat /\ 0 <= argCount' <= 8
                   /\ firstn (Z.to_nat argCount') args'
                      = map Some (DxcDriver.command_line cfg e0 d0 shaderStage spirv)
                   /\ skipn (Z.to_nat argCount') args'
                      = repeat None (8 - Z.to_nat argCount')).
  { intros tail c Hc Htail. split; [exact Hc|].
    intros Ptr Size args' argCount' Hin.
    destruct (Hcall _ _ _ _ _ Hin Htail) as [-> [-> [-> ->]]].
    exists e, d. repeat split; try assumption; apply Hbound. }
  destruct (DxcDriver.Compile dxc hlslSource (SDL_strlen hlslSource + 1) args argCount)
    as [ret result].
  destruct (ret <? 0); [apply Hgoal; [discriminate|repeat constructor]|].
  destruct result as [r|]; [|apply Hgoal; [discriminate|repeat constructor]].
  destruct (match DxcDriver.DXC_OUT_ERRORS r with
            | Some e0 => negb (size_of e0 =? 0)
            | None => false
            end);
    [apply Hgoal; [discriminate|repeat constructor]|].
  destruct (DxcDriver.DXC_OUT_OBJECT r) as [ret' object].
  destruct (ret' <? 0); [apply Hgoal; [discriminate|repeat constructor]|].
  destruct object as [b|].
  - apply Hgoal; [discriminate|repeat constructor].
  - rewrite <- (app_nil_r (_ ++ _)). apply Hgoal; [discriminate|constructor].
Qed.

(** X12.  What [SDL_ShaderCross_INTERNAL_CompileUsingDXC] gives back
    before it returns.  On every return, [dxcInstance] has been released
    once if it was created; [utils] has been released once if both
    instances were created, and not at all when [dxcInstance] could not be
    created; each converted string has been freed once; the object blob has
    been released once when a buffer is returned.  The include handler and
    the errors blob are never released, on any path. *)
Theorem dxc_driver_releases (cfg : build_config) (st : loader_state)
  (sdl : DxcDriver.sdl_strings) (dxc : DxcDriver.dxc_library)
  (hlslSource entrypoint : string) (includeDir : option string)
  (shaderStage : SDL_ShaderCross_ShaderStage) (spirv : bool) (r : option bytes) :
  let run := DxcDriver.SDL_ShaderCross_INTERNAL_CompileUsingDXC cfg st sdl dxc hlslSource
               entrypoint includeDir shaderStage spirv in
  snd run = Returned r ->
  let created :=
    DxcDriver.reaches_dxc cfg st
    && DxcDriver.DxcCreateInstance dxc DxcDriver.CLSID_DxcCompiler in
  let both := created && DxcDriver.DxcCreateInstance dxc DxcDriver.CLSID_DxcUtils in
  let converted :=
    both && DxcDriver.CreateDefaultIncludeHandler dxc
    && negb (is_null (DxcDriver.SDL_iconv_string sdl entrypoint
                        (DxcDriver.SDL_utf8strlen sdl entrypoint + 1))) in
  DxcDriver.released DxcDriver.dxcInstance (fst run) = (if created then 1 else 0)
  /\ DxcDriver.released DxcDriver.utils (fst run) = (if both then 1 else 0)
  /\ DxcDriver.freed DxcDriver.entryPointUtf16 (fst run) = (if converted then 1 else 0)
  /\ DxcDriver.freed DxcDriver.includeDirUtf16 (fst run)
     = (if converted
        then match DxcDriver.convert_include_dir sdl includeDir with
             | Some (Some _) => 1
             | _ => 0
             end
        else 0)
  /\ DxcDriver.released DxcDriver.blob (fst run) = (if is_null r then 0 else 1)
  /\ DxcDriver.released DxcDriver.includeHandler (fst run) = 0
  /\ DxcDriver.released DxcDriver.errors (fst run) = 0.
Proof.
  intros run. subst run.
  unfold DxcDriver.SDL_ShaderCross_INTERNAL_CompileUsingDXC, DxcDriver.reaches_dxc.
  destruct (SDL_GPU_SHADERCROSS_DXC cfg); simpl;
    [|intros H; inversion H; subst; repeat split; reflexivity].
  destruct (SDL_PLATFORM_XBOX cfg && is_null (SDL_DxcCreateInstance st)); simpl;
    [intros H; inversion H; subst; repeat split; reflexivity|].
  destruct (DxcDriver.DxcCreateInstance dxc DxcDriver.CLSID_DxcCompiler); simpl;
    [|intros H; inversion H; subst; repeat split; reflexivity].
  destruct (DxcDriver.DxcCreateInstance dxc DxcDriver.CLSID_DxcUtils); simpl;
    [|intros H; inversion H; subst; repeat split; reflexivity].
  destruct (DxcDriver.CreateDefaultIncludeHandler dxc); simpl;
    [|intros H; inversion H; subst; repeat split; reflexivity].
  destruct (DxcDriver.SDL_iconv_string sdl entrypoint
              (DxcDriver.SDL_utf8strlen sdl entrypoint + 1)) as [e|]; simpl;
    [|intros H; inversion H; subst; repeat split; reflexivity].
  destruct (DxcDriver.convert_include_dir sdl includeDir) as [d|]; simpl;
    [|intros H; inversion H; subst; repeat split; reflexivity].
  destruct (dxc_arguments_built cfg e d shaderStage spirv) as [args [argCount [-> _]]].
  destruct (DxcDriver.Compile dxc hlslSource (SDL_strlen hlslSource + 1) args argCount)
    as [ret result].
  destruct (ret <? 0);
    [destruct d; simpl; intros H; inversion H; subst; repeat split; reflexivity|].
  destruct result as [res|];
    [|destruct d; simpl; intros H; inversion H; subst; repeat split; reflexivity].
  destruct (match DxcDriver.DXC_OUT_ERRORS res with
            | Some e0 => negb (size_of e0 =? 0)
            | None => false
            end);
    [destruct d; simpl; intros H; inversion H; subst; repeat split; reflexivity|].
  destruct (DxcDriver.DXC_OUT_OBJECT res) as [ret' object].
  destruct (ret' <? 0);
    [destruct d; simpl; intros H; inversion H; subst; repeat split; reflexivity|].
  destruct object as [b|]; [|simpl; discriminate].
  destruct d; simpl; intros H; inversion H; subst; repeat split; reflexivity.
Qed.

(** A vertex shader compiled to SPIR-V with an include directory, by a DXC
    that reports nothing: both instances released, both strings freed. *)
Lemma dxc_driver_releases_sample :
  snd (DxcDriver.SDL_ShaderCross_INTERNAL_CompileUsingDXC desktop_with_dxc loaded_state
         sample_strings (sample_dxc None) "hlsl" "main" (Some "include")
         SDL_SHADERCROSS_SHADERSTAGE_VERTEX true)
  = Returned (Some four_bytes)
  /\ DxcDriver.released DxcDriver.utils
       (fst (DxcDriver.SDL_ShaderCross_INTERNAL_CompileUsingDXC desktop_with_dxc loaded_state
               sample_strings (sample_dxc None) "hlsl" "main" (Some "include")
               SDL_SHADERCROSS_SHADERSTAGE_VERTEX true)) = 1
  /\ DxcDriver.released DxcDriver.includeHandler
       (fst (DxcDriver.SDL_ShaderCross_INTERNAL_CompileUsingDXC desktop_with_dxc loaded_state
               sample_strings (sample_dxc None) "hlsl" "main" (Some "include")
               SDL_SHADERCROSS_SHADERSTAGE_VERTEX true)) = 0.
Proof.
  split; [reflexivity|].
  pose proof (dxc_driver_releases desktop_with_dxc loaded_state sample_strings
                (sample_dxc None) "hlsl" "main" (Some "include")
                SDL_SHADERCROSS_SHADERSTAGE_VERTEX true (Some four_bytes) eq_refl)
    as [_ [Hutils [_ [_ [_ [Hhandler _]]]]]].
  split; [exact Hutils|exact Hhandler].
Defined.

(** X13.  When [SDL_ShaderCross_INTERNAL_CompileUsingDXC] returns a
    buffer.  It does exactly when DXC support is compiled in (and, on Xbox,
    [DxcCreateInstance] is resolved), both instances and the include
    handler could be created, the entry point and the include directory
    could be converted, [Compile] answered with a non-negative [HRESULT]
    and a result object, the diagnostics buffer of that object is missing
    or empty, and the object blob could be fetched; the buffer is then the
    blob.  Any text in the diagnostics buffer, a warning as much as an
    error, makes the function return [NULL]. *)
Theorem dxc_driver_returns_buffer (cfg : build_config) (st : loader_state)
  (sdl : DxcDriver.sdl_strings) (dxc : DxcDriver.dxc_library)
  (hlslSource entrypoint : string) (includeDir : option string)
  (shaderStage : SDL_ShaderCross_ShaderStage) (spirv : bool) (b : bytes) :
  snd (DxcDriver.SDL_ShaderCross_INTERNAL_CompileUsingDXC cfg st sdl dxc hlslSource
         entrypoint includeDir shaderStage spirv) = Returned (Some b)
  <->
  DxcDriver.reaches_dxc cfg st = true
  /\ DxcDriver.DxcCreateInstance dxc DxcDriver.CLSID_DxcCompiler = true
  /\ DxcDriver.DxcCreateInstance dxc DxcDriver.CLSID_DxcUtils = true
  /\ DxcDriver.CreateDefaultIncludeHandler dxc = true
  /\ exists e d args argCount hr res hr',
       DxcDriver.SDL_iconv_string sdl entrypoint
         (DxcDriver.SDL_utf8strlen sdl entrypoint + 1) = Some e
       /\ DxcDriver.convert_include_dir sdl includeDir = Some d
       /\ DxcDriver.arguments cfg e d shaderStage spirv = Some (args, argCount)
       /\ DxcDriver.Compile dxc hlslSource (SDL_strlen hlslSource + 1) args argCount
          = (hr, Some res)
       /\ hr >= 0
       /\ DxcDriver.quiet res = true
       /\ DxcDriver.DXC_OUT_OBJECT res = (hr', Some b)
       /\ hr' >= 0.
Proof.
  unfold DxcDriver.SDL_ShaderCross_INTERNAL_CompileUsingDXC, DxcDriver.reaches_dxc,
    DxcDriver.quiet.
  split.
  - destruct (SDL_GPU_SHADERCROSS_DXC cfg); simpl; [|discriminate].
    destruct (SDL_PLATFORM_XBOX cfg && is_null (SDL_DxcCreateInstance st)); simpl;
      [discriminate|].
    destruct (DxcDriver.DxcCreateInstance dxc DxcDriver.CLSID_DxcCompiler); simpl;
      [|discriminate].
    destruct (DxcDriver.DxcCreateInstance dxc DxcDriver.CLSID_DxcUtils); simpl;
      [|discriminate].
    destruct (DxcDriver.CreateDefaultIncludeHandler dxc); simpl; [|discriminate].
    destruct (DxcDriver.SDL_iconv_string sdl entrypoint
                (DxcDriver.SDL_utf8strlen sdl entrypoint + 1)) as [e|]; [|discriminate].
    destruct (DxcDriver.convert_include_dir sdl includeDir) as [d|]; [|discriminate].
    destruct (DxcDriver.arguments cfg e d shaderStage spirv) as [[args argCount]|] eqn:Ha;
      [|discriminate].
    destruct (DxcDriver.Compile dxc hlslSource (SDL_strlen hlslSource + 1) args argCount)
      as [hr result] eqn:Hc.
    destruct (hr <? 0) eqn:Hhr; [discriminate|].
    destruct result as [res|]; [|discriminate].
    destruct (DxcDriver.DXC_OUT_ERRORS res) as [err|] eqn:Herr.
    + destruct (size_of err =? 0) eqn:Hsize; simpl; [|discriminate].
      destruct (DxcDriver.DXC_OUT_OBJECT res) as [hr' object] eqn:Ho.
      destruct (hr' <? 0) eqn:Hhr'; [discriminate|].
      destruct object as [b'|]; [|discriminate].
      intros H. inversion H; subst b'.
      repeat split. exists e, d, args, argCount, hr, res, hr'.
      apply Z.ltb_ge in Hhr. apply Z.ltb_ge in Hhr'.
      try rewrite Herr.
      repeat split; try reflexivity; try assumption; lia.
    + destruct (DxcDriver.DXC_OUT_OBJECT res) as [hr' object] eqn:Ho.
      destruct (hr' <? 0) eqn:Hhr'; [discriminate|].
      destruct object as [b'|]; [|discriminate].
      intros H. inversion H; subst b'.
      repeat split. exists e, d, args, argCount, hr, res, hr'.
      apply Z.ltb_ge in Hhr. apply Z.ltb_ge in Hhr'.
      try rewrite Herr.
      repeat split; try reflexivity; try assumption; lia.
  - intros [Hreach [Hi [Hu [Hh [e [d [args [argCount [hr [res [hr'
             [He [Hd [Ha [Hc [Hhr [Hq [Ho Hhr']]]]]]]]]]]]]]]]]].
    apply andb_true_iff in Hreach. destruct Hreach as [Hdxc Hx].
    rewrite Hdxc. apply negb_true_iff in Hx. rewrite Hx. simpl.
    rewrite Hi, Hu, Hh. simpl. rewrite He, Hd, Ha, Hc.
    assert (Hlt : (hr <? 0) = false) by (apply Z.ltb_ge; lia).
    assert (Hlt' : (hr' <? 0) = false) by (apply Z.ltb_ge; lia).
    rewrite Hlt.
    destruct (DxcDriver.DXC_OUT_ERRORS res) as [err|].
    + rewrite Hq. simpl. rewrite Ho, Hlt'. reflexivity.
    + rewrite Ho, Hlt'. reflexivity.
Qed.

(** The same compile with one warning in the diagnostics buffer returns
    [NULL], although the object blob is there. *)
Lemma dxc_driver_returns_buffer_quiet_only :
  snd (DxcDriver.SDL_ShaderCross_INTERNAL_CompileUsingDXC desktop_with_dxc loaded_state
         sample_strings (sample_dxc None) "hlsl" "main" None
         SDL_SHADERCROSS_SHADERSTAGE_FRAGMENT false)
  = Returned (Some four_bytes)
  /\ snd (DxcDriver.SDL_ShaderCross_INTERNAL_CompileUsingDXC desktop_with_dxc loaded_state
            sample_strings (sample_dxc (Some four_bytes)) "hlsl" "main" None
            SDL_SHADERCROSS_SHADERSTAGE_FRAGMENT false)
     = Returned None.
Proof.
  split; [|reflexivity].
  apply (dxc_driver_returns_buffer desktop_with_dxc loaded_state sample_strings
           (sample_dxc None) "hlsl" "main" None SDL_SHADERCROSS_SHADERSTAGE_FRAGMENT false
           four_bytes).
  repeat split.
  exists "main", None,
    [Some "-E"; Some "main"; Some "-T"; Some "ps_6_0"; None; None; None; None], 4, 0,
    {| DxcDriver.DXC_OUT_ERRORS := None; DxcDriver.DXC_OUT_OBJECT := (0, Some four_bytes) |},
    0.
  repeat split; try reflexivity; lia.
Defined.

(** ** Shader objects for a device *)

(** The compile step of the run-time path makes no device call. *)
Lemma compiled_code_no_device_call (cfg : build_config) (st : loader_state) (be : backends)
  (targetFormat : Z) (c : SPIRVTranspileContext) (shaderStage : SDL_ShaderCross_ShaderStage) :
  Device.device_calls (trace (Device.compiled_code cfg st be targetFormat c shaderStage)) = [].
Proof.
  unfold Device.compiled_code.
  destruct (targetFormat =? SDL_GPU_SHADERFORMAT_DXBC).
  - unfold SDL_ShaderCross_INTERNAL_CompileDXBCFromHLSL, SDL_ShaderCross_INTERNAL_CompileDXBC.
    destruct (is_null (SDL_D3DCompile st)); reflexivity.
  - destruct (targetFormat =? SDL_GPU_SHADERFORMAT_DXIL); [|reflexivity].
    unfold SDL_ShaderCross_CompileDXILFromHLSL, SDL_ShaderCross_CompileSPIRVFromHLSL,
      SDL_ShaderCross_INTERNAL_CompileUsingDXC, SDL_ShaderCross_TranspileHLSLFromSPIRV,
      transpile.
    destruct (dxc_usable cfg st); [|reflexivity]. simpl.
    destruct (Dxc be (translated_source c) (cleansed_entrypoint c) None shaderStage true)
      as [spirv|]; [|reflexivity].
    simpl.
    destruct (SDL_ShaderCross_INTERNAL_TranspileFromSPIRV (spvc be) SPVC_BACKEND_HLSL 60
                shaderStage spirv (cleansed_entrypoint c)) as [c'|]; [|reflexivity].
    simpl.
    destruct (Dxc be (translated_source c') (cleansed_entrypoint c) None shaderStage false);
      reflexivity.
Qed.

Lemma device_calls_app (t1 t2 : list backend_call) :
  Device.device_calls (t1 ++ t2) = Device.device_calls t1 ++ Device.device_calls t2.
Proof.
  unfold Device.device_calls. apply filter_app.
Qed.

(** What a run of [SDL_ShaderCross_INTERNAL_CompileFromSPIRV] that asks the
    device has asked it. *)
Lemma create_transpiled_request (cfg : build_config) (st : loader_state) (be : backends)
  (bytecode : bytes) (entrypoint : string) (shaderStage : SDL_ShaderCross_ShaderStage)
  (targetFormat : Z) (backend : spvc_backend) (shadermodel : Z)
  (req : Device.device_request) :
  result_of (Device.create_transpiled cfg st be bytecode entrypoint shaderStage targetFormat
               backend shadermodel) = Returns (Some req) ->
  Device.request_format req = targetFormat
  /\ Device.device_calls
       (trace (Device.create_transpiled cfg st be bytecode entrypoint shaderStage
                 targetFormat backend shadermodel))
     = [ if stage_eqb shaderStage SDL_SHADERCROSS_SHADERSTAGE_COMPUTE
         then CallCreateGPUComputePipeline targetFormat (Device.request_entrypoint req)
         else CallCreateGPUShader targetFormat (Device.request_entrypoint req) ].
Proof.
  unfold Device.create_transpiled, transpile. simpl.
  destruct (SDL_ShaderCross_INTERNAL_TranspileFromSPIRV (spvc be) backend shadermodel
              shaderStage bytecode entrypoint) as [c|];
    [|destruct (stage_eqb shaderStage SDL_SHADERCROSS_SHADERSTAGE_COMPUTE); discriminate].
  pose proof (compiled_code_no_device_call cfg st be targetFormat c shaderStage) as Hnone.
  destruct (stage_eqb shaderStage SDL_SHADERCROSS_SHADERSTAGE_COMPUTE); simpl;
    destruct (Device.compiled_code cfg st be targetFormat c shaderStage) as [t [o|]];
    simpl in *; try discriminate;
    intros H; inversion H; subst req; simpl; split; try reflexivity;
    rewrite device_calls_app, Hnone; reflexivity.
Qed.

Lemma compile_from_spirv_request (cfg : build_config) (st : loader_state) (be : backends)
  (bytecode : bytes) (entrypoint : string) (shaderStage : SDL_ShaderCross_ShaderStage)
  (targetFormat : Z) (req : Device.device_request) :
  result_of (Device.SDL_ShaderCross_INTERNAL_CompileFromSPIRV cfg st be bytecode entrypoint
               shaderStage targetFormat) = Returns (Some req) ->
  Device.request_format req = targetFormat
  /\ Device.device_calls
       (trace (Device.SDL_ShaderCross_INTERNAL_CompileFromSPIRV cfg st be bytecode entrypoint
                 shaderStage targetFormat))
     = [ if stage_eqb shaderStage SDL_SHADERCROSS_SHADERSTAGE_COMPUTE
         then CallCreateGPUComputePipeline targetFormat (Device.request_entrypoint req)
         else CallCreateGPUShader targetFormat (Device.request_entrypoint req) ].
Proof.
  unfold Device.SDL_ShaderCross_INTERNAL_CompileFromSPIRV.
  destruct (targetFormat =? SDL_GPU_SHADERFORMAT_DXBC); [apply create_transpiled_request|].
  destruct (targetFormat =? SDL_GPU_SHADERFORMAT_DXIL); [apply create_transpiled_request|].
  destruct (targetFormat =? SDL_GPU_SHADERFORMAT_MSL); [apply create_transpiled_request|].
  discriminate.
Qed.

(** X14.  What [SDL_ShaderCross_INTERNAL_CreateShaderFromSPIRV] asks of
    the device.  Whenever it asks, it asks once, for a shader or a compute
    pipeline according to the stage, in a format the device has reported.
    On a device that takes SPIR-V the caller's buffer and entry point go
    to the device as they are and no backend is called at all.  When the
    function returns [NULL] without asking, no backend has been called
    either: the device takes neither SPIR-V nor MSL, and neither DXBC with
    [D3DCompile] resolved nor DXIL with DXC compiled in. *)
Theorem device_is_asked_once_in_its_own_format (cfg : build_config) (st : loader_state)
  (be : backends) (shader_formats : Z) (bytecode : bytes) (entrypoint : string)
  (shaderStage : SDL_ShaderCross_ShaderStage) :
  let run := Device.SDL_ShaderCross_INTERNAL_CreateShaderFromSPIRV cfg st be shader_formats
               bytecode entrypoint shaderStage in
  (forall req, result_of run = Returns (Some req) ->
     has_format shader_formats (Device.request_format req) = true
     /\ Device.device_calls (trace run)
        = [ if stage_eqb shaderStage SDL_SHADERCROSS_SHADERSTAGE_COMPUTE
            then CallCreateGPUComputePipeline (Device.request_format req)
                   (Device.request_entrypoint req)
            else CallCreateGPUShader (Device.request_format req)
                   (Device.request_entrypoint req) ])
  /\ (has_format shader_formats SDL_GPU_SHADERFORMAT_SPIRV = true ->
      exists req, result_of run = Returns (Some req)
        /\ Device.request_format req = SDL_GPU_SHADERFORMAT_SPIRV
        /\ Device.request_code req = Some bytecode
        /\ Device.request_code_size req = Some (size_of bytecode)
        /\ Device.request_entrypoint req = entrypoint
        /\ trace run
           = [ if stage_eqb shaderStage SDL_SHADERCROSS_SHADERSTAGE_COMPUTE
               then CallCreateGPUComputePipeline SDL_GPU_SHADERFORMAT_SPIRV entrypoint
               else CallCreateGPUShader SDL_GPU_SHADERFORMAT_SPIRV entrypoint ])
  /\ (result_of run = Returns None ->
      trace run = []
      /\ has_format shader_formats SDL_GPU_SHADERFORMAT_SPIRV = false
      /\ has_format shader_formats SDL_GPU_SHADERFORMAT_MSL = false
      /\ has_format shader_formats SDL_GPU_SHADERFORMAT_DXBC
         && negb (is_null (SDL_D3DCompile st)) = false
      /\ SDL_GPU_SHADERCROSS_DXC cfg
         && has_format shader_formats SDL_GPU_SHADERFORMAT_DXIL = false).
Proof.
  intros run. subst run.
  unfold Device.SDL_ShaderCross_INTERNAL_CreateShaderFromSPIRV, Device.translation_target.
  destruct (has_format shader_formats SDL_GPU_SHADERFORMAT_SPIRV) eqn:Hspirv.
  { split; [|split].
    - intros req.
      destruct (stage_eqb shaderStage SDL_SHADERCROSS_SHADERSTAGE_COMPUTE); simpl;
        intros H; inversion H; subst req; simpl; split; try reflexivity; exact Hspirv.
    - intros _.
      destruct (stage_eqb shaderStage SDL_SHADERCROSS_SHADERSTAGE_COMPUTE); simpl;
        eexists; repeat split.
    - destruct (stage_eqb shaderStage SDL_SHADERCROSS_SHADERSTAGE_COMPUTE); simpl;
        discriminate. }
  assert (Hnone : forall targetFormat,
            (targetFormat =? SDL_GPU_SHADERFORMAT_DXBC)
            || (targetFormat =? SDL_GPU_SHADERFORMAT_DXIL)
            || (targetFormat =? SDL_GPU_SHADERFORMAT_MSL) = true ->
            result_of (Device.SDL_ShaderCross_INTERNAL_CompileFromSPIRV cfg st be bytecode
                         entrypoint shaderStage targetFormat) <> Returns None).
  { intros targetFormat Ht.
    unfold Device.SDL_ShaderCross_INTERNAL_CompileFromSPIRV.
    assert (Hc : forall backend shadermodel,
              result_of (Device.create_transpiled cfg st be bytecode entrypoint shaderStage
                           targetFormat backend shadermodel) <> Returns None).
    { intros backend shadermodel. unfold Device.create_transpiled, transpile. simpl.
      destruct (SDL_ShaderCross_INTERNAL_TranspileFromSPIRV (spvc be) backend shadermodel
                  shaderStage bytecode entrypoint) as [c|];
        destruct (stage_eqb shaderStage SDL_SHADERCROSS_SHADERSTAGE_COMPUTE); simpl;
        try discriminate;
        destruct (Device.compiled_code cfg st be targetFormat c shaderStage) as [t [o|]];
        simpl; discriminate. }
    destruct (targetFormat =? SDL_GPU_SHADERFORMAT_DXBC); [apply Hc|].
    destruct (targetFormat =? SDL_GPU_SHADERFORMAT_DXIL); [apply Hc|].
    destruct (targetFormat =? SDL_GPU_SHADERFORMAT_MSL); [apply Hc|].
    discriminate Ht. }
  split; [|split; [discriminate|]].
  - intros req.
    destruct (has_format shader_formats SDL_GPU_SHADERFORMAT_MSL) eqn:Hmsl.
    { intros H. apply compile_from_spirv_request in H. destruct H as [Hf Hc].
      rewrite Hf. split; [exact Hmsl|exact Hc]. }
    destruct (has_format shader_formats SDL_GPU_SHADERFORMAT_DXBC
              && negb (is_null (SDL_D3DCompile st))) eqn:Hdxbc.
    { intros H. apply compile_from_spirv_request in H. destruct H as [Hf Hc].
      rewrite Hf. apply andb_true_iff in Hdxbc. split; [apply Hdxbc|exact Hc]. }
    destruct (SDL_GPU_SHADERCROSS_DXC cfg
              && has_format shader_formats SDL_GPU_SHADERFORMAT_DXIL) eqn:Hdxil.
    { intros H. apply compile_from_spirv_request in H. destruct H as [Hf Hc].
      rewrite Hf. apply andb_true_iff in Hdxil. split; [apply Hdxil|exact Hc]. }
    discriminate.
  - destruct (has_format shader_formats SDL_GPU_SHADERFORMAT_MSL) eqn:Hmsl.
    { intros H. exfalso. revert H. apply Hnone. reflexivity. }
    destruct (has_format shader_formats SDL_GPU_SHADERFORMAT_DXBC
              && negb (is_null (SDL_D3DCompile st))) eqn:Hdxbc.
    { intros H. exfalso. revert H. apply Hnone. reflexivity. }
    destruct (SDL_GPU_SHADERCROSS_DXC cfg
              && has_format shader_formats SDL_GPU_SHADERFORMAT_DXIL) eqn:Hdxil.
    { intros H. exfalso. revert H. apply Hnone. reflexivity. }
    intros _. repeat split.
Qed.




(** X16.  A graphics shader in HLSL on a device that takes DXIL only.
    [SDL_ShaderCross_CompileGraphicsShaderFromHLSL] has DXC compile the
    caller's source to SPIR-V, the transpiler turn it into HLSL, DXC
    compile that HLSL to SPIR-V again, the transpiler turn it into HLSL
    again, and DXC compile the result to DXIL: three runs of DXC and two of
    the transpiler before the device is asked.  The include directory is
    used for the first run only, the caller's entry point for the first
    two steps only. *)
Theorem hlsl_on_dxil_device_compiles_three_times (cfg : build_config) (st : loader_state)
  (be : backends) (shader_formats : Z) (hlslSource entrypoint : string)
  (includeDir : option string) (graphicsShaderStage : SDL_GPUShaderStage)
  (spirv spirv' : bytes) (c c' : SPIRVTranspileContext) :
  let shaderStage := shadercross_stage graphicsShaderStage in
  has_format shader_formats SDL_GPU_SHADERFORMAT_SPIRV = false ->
  Device.translation_target cfg st shader_formats = Some SDL_GPU_SHADERFORMAT_DXIL ->
  dxc_usable cfg st = true ->
  Dxc be hlslSource entrypoint includeDir shaderStage true = Some spirv ->
  SDL_ShaderCross_INTERNAL_TranspileFromSPIRV (spvc be) SPVC_BACKEND_HLSL 60 shaderStage
    spirv entrypoint = Some c ->
  Dxc be (translated_source c) (cleansed_entrypoint c) None shaderStage true = Some spirv' ->
  SDL_ShaderCross_INTERNAL_TranspileFromSPIRV (spvc be) SPVC_BACKEND_HLSL 60 shaderStage
    spirv' (cleansed_entrypoint c) = Some c' ->
  trace (Device.SDL_ShaderCross_CompileGraphicsShaderFromHLSL cfg st be shader_formats
           hlslSource entrypoint includeDir graphicsShaderStage)
  = [ CallDxc hlslSource entrypoint includeDir shaderStage true;
      CallTranspile SPVC_BACKEND_HLSL 60 shaderStage spirv entrypoint;
      CallDxc (translated_source c) (cleansed_entrypoint c) None shaderStage true;
      CallTranspile SPVC_BACKEND_HLSL 60 shaderStage spirv' (cleansed_entrypoint c);
      CallDxc (translated_source c') (cleansed_entrypoint c) None shaderStage false;
      CallCreateGPUShader SDL_GPU_SHADERFORMAT_DXIL (cleansed_entrypoint c) ].
Proof.
  intros shaderStage. subst shaderStage.
  destruct graphicsShaderStage; simpl shadercross_stage;
    intros Hspirv Htarget Hdxc H1 H2 H3 H4;
    unfold Device.SDL_ShaderCross_CompileGraphicsShaderFromHLSL,
      Device.SDL_ShaderCross_INTERNAL_CreateShaderFromHLSL,
      SDL_ShaderCross_CompileSPIRVFromHLSL, SDL_ShaderCross_INTERNAL_CompileUsingDXC;
    simpl shadercross_stage; rewrite Hdxc; simpl; rewrite H1; simpl;
    unfold Device.SDL_ShaderCross_CompileGraphicsShaderFromSPIRV,
      Device.SDL_ShaderCross_INTERNAL_CreateShaderFromSPIRV;
    simpl shadercross_stage; rewrite Hspirv, Htarget;
    unfold Device.SDL_ShaderCross_INTERNAL_CompileFromSPIRV; simpl;
    unfold Device.create_transpiled, transpile; simpl; rewrite H2; simpl;
    unfold Device.compiled_code; simpl;
    unfold SDL_ShaderCross_CompileDXILFromHLSL, SDL_ShaderCross_CompileSPIRVFromHLSL,
      SDL_ShaderCross_INTERNAL_CompileUsingDXC, SDL_ShaderCross_TranspileHLSLFromSPIRV,
      transpile;
    rewrite Hdxc; simpl; rewrite H3; simpl; rewrite H4; reflexivity.
Qed.

(** A vertex shader [VSMain] with an include directory, through backends
    that always succeed and a transpiler that emits the entry point as
    [main]. *)
Lemma hlsl_on_dxil_device_compiles_three_times_vsmain :
  trace (Device.SDL_ShaderCross_CompileGraphicsShaderFromHLSL desktop_with_dxc loaded_state
           (sample_backends (sample_library (emitting_main e2_vertex))) dxil_device
           "hlsl" "VSMain" (Some "include") SDL_GPU_SHADERSTAGE_VERTEX)
  = [ CallDxc "hlsl" "VSMain" (Some "include") SDL_SHADERCROSS_SHADERSTAGE_VERTEX true;
      CallTranspile SPVC_BACKEND_HLSL 60 SDL_SHADERCROSS_SHADERSTAGE_VERTEX four_bytes
        "VSMain";
      CallDxc "translated" "main" None SDL_SHADERCROSS_SHADERSTAGE_VERTEX true;
      CallTranspile SPVC_BACKEND_HLSL 60 SDL_SHADERCROSS_SHADERSTAGE_VERTEX four_bytes "main";
      CallDxc "translated" "main" None SDL_SHADERCROSS_SHADERSTAGE_VERTEX false;
      CallCreateGPUShader SDL_GPU_SHADERFORMAT_DXIL "main" ].
Proof.
  apply (hlsl_on_dxil_device_compiles_three_times desktop_with_dxc loaded_state
           (sample_backends (sample_library (emitting_main e2_vertex))) dxil_device
           "hlsl" "VSMain" (Some "include") SDL_GPU_SHADERSTAGE_VERTEX four_bytes four_bytes
           {| translated_source := "translated"; cleansed_entrypoint := "main" |}
           {| translated_source := "translated"; cleansed_entrypoint := "main" |});
    reflexivity.
Defined.

(** ** The command line tool *)

Lemma arguments_prefix (cmp : string -> string -> Z) :
  forall (n : nat) (pre rest : list string) (l l' : Cli.locals),
    (List.length pre <= n)%nat ->
    Cli.arguments cmp pre l = Cli.Continue l' ->
    Cli.arguments cmp (pre ++ rest) l = Cli.arguments cmp rest l'.
Proof.
  induction n as [|n IH]; intros pre rest l l' Hlen H.
  - destruct pre; [|simpl in Hlen; lia]. simpl in H. inversion H. reflexivity.
  - destruct pre as [|arg pre]; [simpl in H; inversion H; reflexivity|].
    simpl in Hlen. simpl app. simpl in H |- *.
    repeat match type of H with
           | Cli.Return _ = Cli.Continue _ => discriminate H
           | (if ?c then _ else _) = Cli.Continue _ => destruct c
           | match ?p with [] => _ | _ :: _ => _ end = Cli.Continue _ =>
               destruct p; simpl in Hlen, H |- *
           end;
      try discriminate H;
      apply IH; try assumption; lia.
Qed.

(** X17.  The argument loop reads its arguments from left to right and
    keeps nothing but the locals: once a prefix of the command line has
    been read without leaving [main], the rest is read from the locals the
    prefix has produced.  So a help option that follows such a prefix ends
    the program with status 0 whatever comes after it, as long as options
    are still accepted; and after [--] the next argument is the input
    file, also when it starts with a dash, unless an input file was
    already given. *)
Theorem arguments_are_read_left_to_right (cmp : string -> string -> Z)
  (pre : list string) (l l' : Cli.locals) :
  Cli.arguments cmp pre l = Cli.Continue l' ->
  (forall rest, Cli.arguments cmp (pre ++ rest) l = Cli.arguments cmp rest l')
  /\ (Cli.accept_optionals l' = true ->
      forall rest,
        Cli.arguments cmp (pre ++ "-h" :: rest) l = Cli.Return 0
        /\ Cli.arguments cmp (pre ++ "--help" :: rest) l = Cli.Return 0)
  /\ (Cli.accept_optionals l' = true ->
      forall arg,
        Cli.arguments cmp (pre ++ ["--"; arg]) l
        = if is_null (Cli.filename l')
          then Cli.Continue (Cli.with_filename (Cli.without_optionals l') arg)
          else Cli.Return 1).
Proof.
  intros H.
  assert (Happ : forall rest,
            Cli.arguments cmp (pre ++ rest) l = Cli.arguments cmp rest l').
  { intros rest. apply (arguments_prefix cmp (List.length pre)); [lia|exact H]. }
  split; [exact Happ|]. split.
  - intros Hacc rest. rewrite !Happ. simpl. rewrite Hacc. split; reflexivity.
  - intros Hacc arg. rewrite Happ. simpl. rewrite Hacc. simpl.
    destruct (Cli.filename l'); reflexivity.
Qed.

(** After [-o out.msl], the arguments [--] and [-in.spv] make [-in.spv] the
    input file. *)
Lemma arguments_are_read_left_to_right_dash :
  Cli.arguments ascii_strcasecmp ["-o"; "out.msl"] Cli.initial
  = Cli.Continue (Cli.with_output Cli.initial "out.msl")
  /\ Cli.arguments ascii_strcasecmp (["-o"; "out.msl"] ++ ["--"; "-in.spv"]) Cli.initial
     = Cli.Continue (Cli.with_filename
                       (Cli.without_optionals (Cli.with_output Cli.initial "out.msl"))
                       "-in.spv").
Proof.
  split; [reflexivity|].
  destruct (arguments_are_read_left_to_right ascii_strcasecmp ["-o"; "out.msl"] Cli.initial
              (Cli.with_output Cli.initial "out.msl") eq_refl) as [_ [_ H]].
  exact (H eq_refl "-in.spv").
Defined.

Lemma same_true (a b : string) : Cli.same a b = true -> a = b.
Proof.
  unfold Cli.same. apply String.eqb_eq.
Qed.

Lemma arguments_status (cmp : string -> string -> Z) :
  forall (n : nat) (argv : list string) (l : Cli.locals) (c : Z),
    (List.length argv <= n)%nat ->
    Cli.arguments cmp argv l = Cli.Return c ->
    c = 1 \/ (c = 0 /\ (In "-h" argv \/ In "--help" argv)).
Proof.
  induction n as [|n IH]; intros argv l c Hlen H.
  - destruct argv; [simpl in H; discriminate H|simpl in Hlen; lia].
  - destruct argv as [|arg argv]; [simpl in H; discriminate H|].
    simpl in Hlen. simpl in H.
    destruct (Cli.accept_optionals l && Cli.dashed arg).
    + destruct (Cli.same arg "-h" || Cli.same arg "--help") eqn:Hhelp.
      { inversion H; subst c. right. split; [reflexivity|].
        apply orb_true_iff in Hhelp. destruct Hhelp as [Hh|Hh]; apply same_true in Hh;
          subst arg; [left|right]; left; reflexivity. }
      assert (Hrec : forall rest l2,
                (List.length rest <= n)%nat ->
                Cli.arguments cmp rest l2 = Cli.Return c ->
                In arg (arg :: argv) -> incl rest argv ->
                c = 1 \/ (c = 0 /\ (In "-h" (arg :: argv) \/ In "--help" (arg :: argv)))).
      { intros rest l2 Hl Hr _ Hincl.
        destruct (IH rest l2 c Hl Hr) as [H1|[H0 [Hin|Hin]]];
          [left; exact H1| |];
          right; (split; [exact H0|]); [left|right]; right; apply Hincl; exact Hin. }
      repeat match type of H with
             | Cli.Return 1 = Cli.Return _ => inversion H; left; reflexivity
             | (if ?c then _ else _) = Cli.Return _ => destruct c
             | match ?p with [] => _ | _ :: _ => _ end = Cli.Return _ =>
                 destruct p; simpl in Hlen, H
             end;
        try (inversion H; left; reflexivity);
        refine (Hrec _ _ _ H _ _);
        first [lia | left; reflexivity | apply incl_refl | apply incl_tl; apply incl_refl].
    + destruct (is_null (Cli.filename l)); [|inversion H; left; reflexivity].
      destruct (IH argv _ c ltac:(lia) H) as [H1|[H0 [Hin|Hin]]];
        [left; exact H1| |];
        right; (split; [exact H0|]); [left|right]; right; exact Hin.
Qed.


Lemma compile_metallib_events (host : Cli.host_platform) (w : Cli.world)
  (p : Cli.ShaderCross_Platform) (o : string) :
  ~ In Cli.ShaderCross_Quit (fst (Cli.compile_metallib host w p o)).
Proof.
  unfold Cli.compile_metallib.
  destruct p, host; simpl;
    repeat match goal with
           | |- context [Cli.SDL_CreateProcess w ?a] =>
               destruct (Cli.SDL_CreateProcess w a) as [[| |]|]; simpl
           end;
    intuition discriminate.
Qed.

Lemma metallib_status (host : Cli.host_platform) (w : Cli.world) (l : Cli.locals)
  (o : string) (p : Cli.ShaderCross_Platform) (spirv : bytes) (size : option Z)
  (ev : list Cli.event) (c : Z) :
  Cli.metallib host w l o p spirv size (Cli.finish None) = (ev, Returned c) ->
  (c = 0 /\ exists pre, ev = pre ++ [Cli.ShaderCross_Quit])
  \/ (c = 1 /\ ~ In Cli.ShaderCross_Quit ev).
Proof.
  unfold Cli.metallib. intros H.
  pose proof (compile_metallib_events host w p o) as Hq.
  destruct (Cli.compile_metallib host w p o) as [evc [code| | |]];
    simpl in H; try discriminate H.
  destruct (negb (code =? 0)); simpl in H; inversion H; subst ev c.
  - right. split; [reflexivity|]. simpl in Hq |- *. rewrite app_nil_r.
    intuition discriminate.
  - left. split; [reflexivity|].
    eexists (_ :: _ :: _ :: _ :: _ :: evc ++ [Cli.CloseIO None]).
    simpl. rewrite <- app_assoc. reflexivity.
Qed.

Lemma check_for_metal_tools_events (host : Cli.host_platform) (w : Cli.world) :
  ~ In Cli.ShaderCross_Quit (fst (Cli.check_for_metal_tools host w)).
Proof.
  unfold Cli.check_for_metal_tools. destruct host; simpl; intuition discriminate.
Qed.

Lemma convert_status (host : Cli.host_platform) (w : Cli.world) (l : Cli.locals)
  (o : string) (d : bytes) (ev : list Cli.event) (c : Z) :
  Cli.convert host w l o d = (ev, Returned c) ->
  (c = 0 /\ exists pre, ev = pre ++ [Cli.ShaderCross_Quit])
  \/ (c = 0 /\ Cli.spirvSource l = false
      /\ Cli.destinationFormat l = Cli.SHADERFORMAT_SPIRV
      /\ exists buffer size,
           ev = [Cli.CompileSPIRVFromHLSL d (Cli.entrypointName l) (Cli.shaderStage l);
                 Cli.WriteIO (Some o) buffer size])
  \/ (c = 1 /\ ~ In Cli.ShaderCross_Quit ev).
Proof.
  unfold Cli.convert. intros H.
  assert (Hm : forall p spirv size pre evm,
             Cli.metallib host w l o p spirv size (Cli.finish None) = (evm, Returned c) ->
             ~ In Cli.ShaderCross_Quit pre ->
             (c = 0 /\ exists pre', pre ++ evm = pre' ++ [Cli.ShaderCross_Quit])
             \/ (c = 1 /\ ~ In Cli.ShaderCross_Quit (pre ++ evm))).
  { intros p spirv size pre evm Hmm Hpre.
    destruct (metallib_status host w l o p spirv size evm c Hmm) as [[H0 [q Hl]]|[H1 Hn]].
    - left. split; [exact H0|]. exists (pre ++ q). rewrite Hl. apply app_assoc.
    - right. split; [exact H1|]. rewrite in_app_iff. tauto. }
  pose proof (check_for_metal_tools_events host w) as Hc.
  destruct (Cli.spirvSource l) eqn:Hsrc, (Cli.destinationFormat l) eqn:Hdst;
    repeat match type of H with
           | (let '(_, _) := ?x in _) = _ => destruct x as [? ?]
           | (if ?c then _ else _) = _ => destruct c
           | match ?x with _ => _ end = _ => destruct x eqn:?
           | Cli.after _ (let '(_, _) := ?x in _) = _ => destruct x as [? ?]
           | Cli.after _ (match ?x with _ => _ end) = _ => destruct x eqn:?
           | Cli.after _ (Cli.after _ (match ?x with _ => _ end)) = _ => destruct x eqn:?
           end;
    try discriminate H;
    try (inversion H; subst ev c; simpl;
         first [ left; split; [reflexivity|];
                 first [ eexists [_]; reflexivity | eexists [_; _]; reflexivity
                       | eexists [_; _; _]; reflexivity | eexists [_; _; _; _]; reflexivity ]
               | right; right; split; [reflexivity|];
                 simpl in Hc; rewrite ?in_app_iff; simpl; solve [intuition discriminate]
               | right; left; solve [repeat split; eauto] ]).
  - destruct (Cli.metallib host w l o s d (Some (size_of d)) (Cli.finish None))
      as [evm cm] eqn:Hmm.
    unfold Cli.after in H. simpl in H. inversion H; subst ev cm.
    destruct (Hm _ _ _ l0 evm Hmm Hc) as [Hz|Ho]; [left; exact Hz|right; right; exact Ho].
  - match type of H with
    | context [Cli.metallib host w l o ?p ?sp ?sz (Cli.finish None)] =>
        destruct (Cli.metallib host w l o p sp sz (Cli.finish None)) as [evm cm] eqn:Hmm
    end.
    unfold Cli.after in H. simpl in H. inversion H; subst ev cm.
    destruct (Hm _ _ _ (l0 ++ [Cli.CompileSPIRVFromHLSL d (Cli.entrypointName l)
                                 (Cli.shaderStage l)]) evm Hmm) as [Hz|Ho].
    + rewrite in_app_iff. simpl in Hc |- *. intuition discriminate.
    + left. rewrite <- app_assoc in Hz. exact Hz.
    + right; right. rewrite <- app_assoc in Ho. exact Ho.
Qed.

Lemma main_cases (cmp : string -> string -> Z) (str : string -> string -> bool)
  (host : Cli.host_platform) (w : Cli.world) (argv : list string) :
  (exists c, Cli.arguments cmp (tl argv) Cli.initial = Cli.Return c
             /\ Cli.main cmp str host w argv = ([], Returned c))
  \/ (exists pre, Cli.main cmp str host w argv = (pre, Returned 1)
                  /\ ~ In Cli.ShaderCross_Quit pre)
  \/ (exists l0 l f o d,
        Cli.arguments cmp (tl argv) Cli.initial = Cli.Continue l0
        /\ Cli.filename l0 = Some f /\ Cli.outputFilename l0 = Some o
        /\ Cli.SDL_LoadFile w f = Some d
        /\ (l0 <- Cli.infer_source l0 f ;; l0 <- Cli.infer_destination l0 o ;;
            Cli.infer_stage str l0 f) = Some l
        /\ Cli.main cmp str host w argv
           = Cli.after [Cli.LoadFile f; Cli.ShaderCross_Init; Cli.IOFromFile o "w"]
               (Cli.convert host w l o d)).
Proof.
  unfold Cli.main.
  destruct (Cli.arguments cmp (tl argv) Cli.initial) as [c|l0] eqn:Ha.
  { left. exists c. split; reflexivity. }
  right.
  destruct (Cli.filename l0) as [f|] eqn:Hf;
    [|left; exists []; split; [reflexivity|simpl; tauto]].
  destruct (Cli.outputFilename l0) as [o|] eqn:Ho;
    [|left; exists []; split; [reflexivity|simpl; tauto]].
  destruct (Cli.SDL_LoadFile w f) as [d|] eqn:Hd;
    [|left; eexists; split; [reflexivity|simpl; intuition discriminate]].
  destruct (Cli.SDL_ShaderCross_Init w);
    [|left; eexists; split; [reflexivity|simpl; intuition discriminate]].
  simpl negb. cbv iota.
  destruct (Cli.infer_source l0 f) as [l1|] eqn:H1;
    [|left; eexists; split; [reflexivity|simpl; intuition discriminate]].
  destruct (Cli.infer_destination l1 o) as [l2|] eqn:H2;
    [|left; eexists; split; [reflexivity|simpl; intuition discriminate]].
  destruct (Cli.infer_stage str l2 f) as [l3|] eqn:H3;
    [|left; eexists; split; [reflexivity|simpl; intuition discriminate]].
  destruct (Cli.SDL_IOFromFile w o "w");
    [|left; eexists; split; [reflexivity|simpl; intuition discriminate]].
  right. exists l0, l3, f, o, d. repeat split; try reflexivity; try assumption.
  simpl. rewrite H1. simpl. rewrite H2. simpl. exact H3.
Qed.

(** X18.  What [main] returns.  It returns 0 or 1.  It returns 0 without
    having done anything only when [-h] or [--help] is among the
    arguments.  A conversion that returns 0 has called
    [SDL_ShaderCross_Quit] last, with one exception: HLSL to SPIR-V returns
    0 right after the write, so the output stream is not closed and
    [SDL_ShaderCross_Quit] is not called.  No path that returns 1 calls
    [SDL_ShaderCross_Quit], also not those on which
    [SDL_ShaderCross_Init] has succeeded. *)
Theorem exit_statuses (cmp : string -> string -> Z) (str : string -> string -> bool)
  (host : Cli.host_platform) (w : Cli.world) (argv : list string)
  (ev : list Cli.event) (c : Z) :
  Cli.main cmp str host w argv = (ev, Returned c) ->
  (c = 0 /\ ev = [] /\ (In "-h" (tl argv) \/ In "--help" (tl argv)))
  \/ (c = 0 /\ exists f pre, ev = Cli.LoadFile f :: pre ++ [Cli.ShaderCross_Quit])
  \/ (c = 0 /\ ~ In Cli.ShaderCross_Quit ev
      /\ exists f o d e s buffer size,
           ev = [Cli.LoadFile f; Cli.ShaderCross_Init; Cli.IOFromFile o "w";
                 Cli.CompileSPIRVFromHLSL d e s; Cli.WriteIO (Some o) buffer size])
  \/ (c = 1 /\ ~ In Cli.ShaderCross_Quit ev).
Proof.
  intros H.
  destruct (main_cases cmp str host w argv)
    as [[c0 [Ha Hm]]|[[pre [Hm Hq]]|[l0 [l [f [o [d [_ [_ [_ [_ [_ Hm]]]]]]]]]]]].
  - rewrite Hm in H. inversion H; subst ev c0.
    destruct (arguments_status cmp (List.length (tl argv)) (tl argv) Cli.initial c
                (le_n _) Ha) as [H1|[H0 Hin]].
    + right; right; right. split; [exact H1|]. simpl. tauto.
    + left. split; [exact H0|]. split; [reflexivity|exact Hin].
  - rewrite Hm in H. inversion H; subst ev c.
    right; right; right. split; [reflexivity|exact Hq].
  - rewrite Hm in H.
    destruct (Cli.convert host w l o d) as [evc cc] eqn:Hc.
    unfold Cli.after in H. simpl in H. inversion H; subst ev cc.
    destruct (convert_status host w l o d evc c Hc)
      as [[H0 [pre Hpre]]|[[H0 [_ [_ [buffer [size Hev]]]]]|[H1 Hq]]].
    + right; left. split; [exact H0|]. subst evc.
      exists f, (Cli.ShaderCross_Init :: Cli.IOFromFile o "w" :: pre). reflexivity.
    + right; right; left. subst evc. split; [exact H0|]. split.
      * simpl. intuition discriminate.
      * exists f, o, d, (Cli.entrypointName l), (Cli.shaderStage l), buffer, size.
        reflexivity.
    + right; right; right. split; [exact H1|]. simpl. intuition discriminate.
Qed.

Lemma exit_statuses_hlsl_to_spirv :
  Cli.main ascii_strcasecmp ascii_strcasestr Cli.SDL_PLATFORM_OTHER working_world
    ["shadercross"; "a.vert.hlsl"; "-o"; "a.spv"]
  = ([Cli.LoadFile "a.vert.hlsl"; Cli.ShaderCross_Init; Cli.IOFromFile "a.spv" "w";
      Cli.CompileSPIRVFromHLSL four_bytes "main" SDL_SHADERCROSS_SHADERSTAGE_VERTEX;
      Cli.WriteIO (Some "a.spv") None None], Returned 0)
  /\ ~ In Cli.ShaderCross_Quit
       [Cli.LoadFile "a.vert.hlsl"; Cli.ShaderCross_Init; Cli.IOFromFile "a.spv" "w";
        Cli.CompileSPIRVFromHLSL four_bytes "main" SDL_SHADERCROSS_SHADERSTAGE_VERTEX;
        Cli.WriteIO (Some "a.spv") None None].
Proof.
  split; [reflexivity|].
  destruct (exit_statuses ascii_strcasecmp ascii_strcasestr Cli.SDL_PLATFORM_OTHER
              working_world ["shadercross"; "a.vert.hlsl"; "-o"; "a.spv"] _ 0 eq_refl)
    as [[_ [H _]]|[[_ [f [pre H]]]|[[_ [H _]]|[H _]]]].
  - discriminate H.
  - exfalso. inversion H as [[Hf Hpre]].
    destruct pre as [|e1 [|e2 [|e3 [|e4 [|e5 pre]]]]]; simpl in Hpre; discriminate Hpre.
  - exact H.
  - discriminate H.
Defined.

Lemma check_for_metal_tools_alike (host : Cli.host_platform) (w1 w2 : Cli.world) :
  Cli.alike w1 w2 ->
  Cli.check_for_metal_tools host w1 = Cli.check_for_metal_tools host w2.
Proof.
  intros (_ & _ & _ & _ & HP & _).
  unfold Cli.check_for_metal_tools. destruct host; rewrite ?HP; reflexivity.
Qed.

Lemma compile_metallib_alike (host : Cli.host_platform) (w1 w2 : Cli.world)
  (p : Cli.ShaderCross_Platform) (o : string) :
  Cli.alike w1 w2 ->
  Cli.compile_metallib host w1 p o = Cli.compile_metallib host w2 p o.
Proof.
  intros (_ & _ & _ & _ & _ & HC).
  unfold Cli.compile_metallib. destruct p, host; rewrite !HC; reflexivity.
Qed.

Lemma metallib_alike (host : Cli.host_platform) (w1 w2 : Cli.world) (l : Cli.locals)
  (o : string) (p : Cli.ShaderCross_Platform) (spirv1 spirv2 : bytes)
  (size1 size2 : option Z) (k : Cli.script Z) :
  Cli.alike w1 w2 ->
  snd (Cli.metallib host w1 l o p spirv1 size1 k)
  = snd (Cli.metallib host w2 l o p spirv2 size2 k).
Proof.
  intros Hw. unfold Cli.metallib.
  rewrite (compile_metallib_alike host w1 w2 p o Hw).
  destruct (Cli.compile_metallib host w2 p o) as [ev [code| | |]]; reflexivity.
Qed.

Lemma convert_alike (host : Cli.host_platform) (w1 w2 : Cli.world) (l : Cli.locals)
  (o : string) (d : bytes) :
  Cli.alike w1 w2 ->
  snd (Cli.convert host w1 l o d) = snd (Cli.convert host w2 l o d).
Proof.
  intros Hw.
  pose proof (check_for_metal_tools_alike host w1 w2 Hw) as Hc.
  destruct Hw as (HL & HI & HIO & HS & HP & HC).
  assert (Hw : Cli.alike w1 w2) by (repeat split; assumption).
  specialize (HS d (Cli.entrypointName l) (Cli.shaderStage l)).
  unfold Cli.convert. rewrite Hc.
  destruct (Cli.spirvSource l), (Cli.destinationFormat l);
    repeat match goal with
           | |- context [let '(_, _) := ?x in _] => destruct x as [? ?]
           end;
    try reflexivity;
    simpl in HS;
    repeat first
      [ reflexivity
      | discriminate HS
      | apply metallib_alike; exact Hw
      | progress (unfold Cli.after; cbn [snd])
      | match goal with
        | |- context [if ?c then _ else _] => destruct c
        | |- context [match ?x with _ => _ end] => destruct x
        end ].
Qed.

(** X19.  The exit status does not tell whether anything was translated.
    In two worlds that differ only in what the compile and transpile
    functions of the library return ([SDL_ShaderCross_CompileSPIRVFromHLSL]
    returning [NULL] for the same sources in both), [main] ends the same
    way on every command line: no result but the intermediate SPIR-V of an
    HLSL source is tested before it is written. *)
Theorem exit_status_ignores_what_was_translated (cmp : string -> string -> Z)
  (str : string -> string -> bool) (host : Cli.host_platform) (w1 w2 : Cli.world)
  (argv : list string) :
  Cli.alike w1 w2 ->
  snd (Cli.main cmp str host w1 argv) = snd (Cli.main cmp str host w2 argv).
Proof.
  intros Hw. pose proof Hw as (HL & HI & HIO & _).
  unfold Cli.main.
  destruct (Cli.arguments cmp (tl argv) Cli.initial) as [c|l]; [reflexivity|].
  destruct (Cli.filename l) as [f|]; [|reflexivity].
  destruct (Cli.outputFilename l) as [o|]; [|reflexivity].
  rewrite HL, HI.
  destruct (Cli.SDL_LoadFile w2 f) as [d|]; [|reflexivity].
  destruct (Cli.SDL_ShaderCross_Init w2); [|reflexivity].
  destruct (Cli.infer_source l f) as [l1|]; [|reflexivity].
  destruct (Cli.infer_destination l1 o) as [l2|]; [|reflexivity].
  destruct (Cli.infer_stage str l2 f) as [l3|]; [|reflexivity].
  rewrite HIO.
  destruct (Cli.SDL_IOFromFile w2 o "w"); [|reflexivity].
  unfold Cli.after. cbn [snd negb]. apply convert_alike. exact Hw.
Qed.

Lemma exit_status_ignores_what_was_translated_msl :
  Cli.alike failing_world working_world
  /\ snd (Cli.main ascii_strcasecmp ascii_strcasestr Cli.SDL_PLATFORM_OTHER failing_world
            ["shadercross"; "a.frag.spv"; "-o"; "a.msl"])
     = snd (Cli.main ascii_strcasecmp ascii_strcasestr Cli.SDL_PLATFORM_OTHER working_world
              ["shadercross"; "a.frag.spv"; "-o"; "a.msl"])
  /\ snd (Cli.main ascii_strcasecmp ascii_strcasestr Cli.SDL_PLATFORM_OTHER failing_world
            ["shadercross"; "a.frag.spv"; "-o"; "a.msl"])
     = Returned 0.
Proof.
  assert (H : Cli.alike failing_world working_world) by (repeat split; reflexivity).
  split; [exact H|]. split; [|reflexivity].
  apply (exit_status_ignores_what_was_translated ascii_strcasecmp ascii_strcasestr
           Cli.SDL_PLATFORM_OTHER failing_world working_world _ H).
Defined.

Lemma substring_prefix (n b : string) :
  String.substring 0 (String.length n) (n ++ b)%string = n.
Proof.
  induction n as [|c n IH]; simpl.
  - destruct b; reflexivity.
  - rewrite IH. reflexivity.
Qed.

Lemma substring_inside (a n b : string) :
  String.substring (String.length a) (String.length n) (a ++ n ++ b)%string = n.
Proof.
  induction a as [|c a IH]; simpl.
  - apply substring_prefix.
  - exact IH.
Qed.

Lemma strstr_inside (a n b : string) :
  n <> EmptyString -> Cli.SDL_strstr (a ++ n ++ b)%string n = true.
Proof.
  intros Hn. unfold Cli.SDL_strstr.
  destruct (String.index 0 n (a ++ n ++ b)%string) as [m|] eqn:Hi; [reflexivity|].
  exfalso.
  apply (String.index_correct3 0 (String.length a) n (a ++ n ++ b)%string Hi Hn
           (Nat.le_0_l _)).
  apply substring_inside.
Qed.

(** X20.  The formats are inferred with [SDL_strstr], in the order of the
    tests: an input whose path contains [.spv] anywhere is SPIR-V and an
    output whose path contains [.dxbc] anywhere is DXBC, whatever else the
    two names contain.  With no option but [-o], such a command line
    compiles DXBC from SPIR-V, writes what the library has returned, closes
    the output and returns 0. *)
Theorem formats_are_inferred_from_the_first_match (cmp : string -> string -> Z)
  (str : string -> string -> bool) (host : Cli.host_platform) (w : Cli.world)
  (prog a b a' b' : string) (d : bytes) :
  let f := (a ++ ".spv" ++ b)%string in
  let o := (a' ++ ".dxbc" ++ b')%string in
  Cli.dashed f = false ->
  str f ".vert" = true ->
  Cli.SDL_LoadFile w f = Some d ->
  Cli.SDL_ShaderCross_Init w = true ->
  Cli.SDL_IOFromFile w o "w" = true ->
  Cli.main cmp str host w [prog; f; "-o"; o]
  = ([Cli.LoadFile f; Cli.ShaderCross_Init; Cli.IOFromFile o "w";
      Cli.CompileDXBCFromSPIRV d "main" SDL_SHADERCROSS_SHADERSTAGE_VERTEX;
      Cli.WriteIO (Some o)
        (fst (Cli.SDL_ShaderCross_CompileDXBCFromSPIRV w d (size_of d) "main"
                SDL_SHADERCROSS_SHADERSTAGE_VERTEX))
        (snd (Cli.SDL_ShaderCross_CompileDXBCFromSPIRV w d (size_of d) "main"
                SDL_SHADERCROSS_SHADERSTAGE_VERTEX));
      Cli.CloseIO (Some o); Cli.ShaderCross_Quit], Returned 0).
Proof.
  intros f o Hdash Hstage Hload Hinit Hopen.
  assert (Hf : Cli.SDL_strstr f ".spv" = true) by (apply strstr_inside; discriminate).
  assert (Ho : Cli.SDL_strstr o ".dxbc" = true) by (apply strstr_inside; discriminate).
  unfold Cli.main. simpl tl.
  assert (Ha : Cli.arguments cmp [f; "-o"; o] Cli.initial
               = Cli.Continue (Cli.with_output (Cli.with_filename Cli.initial f) o)).
  { simpl. rewrite Hdash. reflexivity. }
  rewrite Ha. simpl Cli.filename. simpl Cli.outputFilename. cbv iota.
  rewrite Hload, Hinit.
  unfold Cli.infer_source. simpl Cli.sourceValid. cbv iota.
  rewrite Hf.
  unfold Cli.infer_destination. simpl Cli.destinationValid. cbv iota.
  rewrite Ho.
  unfold Cli.infer_stage. simpl Cli.stageValid. cbv iota. rewrite Hstage, Hopen.
  unfold Cli.convert. simpl.
  destruct (Cli.SDL_ShaderCross_CompileDXBCFromSPIRV w d (size_of d) "main"
              SDL_SHADERCROSS_SHADERSTAGE_VERTEX) as [buffer size].
  reflexivity.
Qed.

Lemma formats_are_inferred_from_the_first_match_both :
  Cli.main ascii_strcasecmp ascii_strcasestr Cli.SDL_PLATFORM_OTHER working_world
    ["shadercross"; "a.vert.spv.hlsl"; "-o"; "out.dxbc.msl"]
  = ([Cli.LoadFile "a.vert.spv.hlsl"; Cli.ShaderCross_Init;
      Cli.IOFromFile "out.dxbc.msl" "w";
      Cli.CompileDXBCFromSPIRV four_bytes "main" SDL_SHADERCROSS_SHADERSTAGE_VERTEX;
      Cli.WriteIO (Some "out.dxbc.msl") (Some four_bytes) (Some 4);
      Cli.CloseIO (Some "out.dxbc.msl"); Cli.ShaderCross_Quit], Returned 0).
Proof.
  exact (formats_are_inferred_from_the_first_match ascii_strcasecmp ascii_strcasestr
           Cli.SDL_PLATFORM_OTHER working_world "shadercross" "a.vert" ".hlsl" "out" ".msl"
           four_bytes eq_refl eq_refl eq_refl eq_refl eq_refl).
Defined.

(** X21.  The output file is opened for writing before the destination
    is looked at.  A conversion [main] refuses (SPIR-V to SPIR-V, a
    [METALLIB] destination without a platform, an [HLSL] destination
    without a shader model) returns 1 after the input has been loaded, the
    library initialised and the output opened with mode [w]; the output is
    not closed and the library is not shut down. *)
Theorem refused_conversion_has_opened_the_output (cmp : string -> string -> Z)
  (str : string -> string -> bool) (host : Cli.host_platform) (w : Cli.world)
  (argv : list string) (l0 l : Cli.locals) (f o : string) (d : bytes) :
  Cli.arguments cmp (tl argv) Cli.initial = Cli.Continue l0 ->
  Cli.filename l0 = Some f ->
  Cli.outputFilename l0 = Some o ->
  Cli.SDL_LoadFile w f = Some d ->
  Cli.SDL_ShaderCross_Init w = true ->
  (l1 <- Cli.infer_source l0 f ;; l2 <- Cli.infer_destination l1 o ;;
   Cli.infer_stage str l2 f) = Some l ->
  (Cli.spirvSource l = true /\ Cli.destinationFormat l = Cli.SHADERFORMAT_SPIRV)
  \/ (Cli.destinationFormat l = Cli.SHADERFORMAT_METALLIB /\ Cli.platformValid l = false)
  \/ (Cli.destinationFormat l = Cli.SHADERFORMAT_HLSL /\ Cli.shaderModelValid l = false) ->
  Cli.main cmp str host w argv
  = ([Cli.LoadFile f; Cli.ShaderCross_Init; Cli.IOFromFile o "w"], Returned 1).
Proof.
  intros Ha Hf Ho Hload Hinit Hinfer Hrefused.
  unfold Cli.main. rewrite Ha, Hf, Ho, Hload, Hinit. simpl negb. cbv iota.
  destruct (Cli.infer_source l0 f) as [l1|]; [|discriminate Hinfer].
  simpl in Hinfer.
  destruct (Cli.infer_destination l1 o) as [l2|]; [|discriminate Hinfer].
  simpl in Hinfer. rewrite Hinfer.
  destruct (Cli.SDL_IOFromFile w o "w"); [|reflexivity].
  simpl negb. cbv iota. unfold Cli.convert.
  destruct Hrefused as [[Hs Hd]|[[Hd Hp]|[Hd Hm]]].
  - rewrite Hs, Hd. reflexivity.
  - rewrite Hd, Hp. destruct (Cli.spirvSource l); reflexivity.
  - rewrite Hd, Hm. destruct (Cli.spirvSource l); reflexivity.
Qed.

Lemma refused_conversion_has_opened_the_output_spirv :
  Cli.main ascii_strcasecmp ascii_strcasestr Cli.SDL_PLATFORM_OTHER working_world
    ["shadercross"; "a.vert.spv"; "-o"; "b.spv"]
  = ([Cli.LoadFile "a.vert.spv"; Cli.ShaderCross_Init; Cli.IOFromFile "b.spv" "w"],
     Returned 1).
Proof.
  eapply (refused_conversion_has_opened_the_output ascii_strcasecmp ascii_strcasestr
            Cli.SDL_PLATFORM_OTHER working_world ["shadercross"; "a.vert.spv"; "-o"; "b.spv"]);
    try reflexivity.
  left. split; reflexivity.
Defined.



Lemma dynload_hlsl_formats_by_handles (s : Dynload.loader_state) :
  let formats := DynloadChain.SDL_ShaderCross_GetHLSLShaderFormats s in
  has_format formats SDL_GPU_SHADERFORMAT_SPIRV = negb (is_null (Dynload.dxcompiler_dll s))
  /\ has_format formats SDL_GPU_SHADERFORMAT_DXIL = negb (is_null (Dynload.dxcompiler_dll s))
  /\ has_format formats SDL_GPU_SHADERFORMAT_DXBC = negb (is_null (Dynload.d3dcompiler_dll s))
  /\ has_format formats SDL_GPU_SHADERFORMAT_MSL = false.
Proof.
  unfold DynloadChain.SDL_ShaderCross_GetHLSLShaderFormats.
  destruct (Dynload.dxcompiler_dll s), (Dynload.d3dcompiler_dll s);
    repeat split; reflexivity.
Qed.

Lemma dynload_init_keeps_handles_with_entry_points (cfg : Dynload.build_config) (h : host)
  (s0 : Dynload.loader_state) :
  let s := fst (Dynload.SDL_ShaderCross_Init cfg h s0) in
  (is_null (Dynload.dxcompiler_dll s) = false ->
   is_null (Dynload.SDL_DxcCreateInstance s) = false)
  /\ (is_null (Dynload.d3dcompiler_dll s) = false ->
      is_null (Dynload.SDL_D3DCompile s) = false)
  /\ (s0 = Dynload.reset_state ->
      is_null (Dynload.SDL_DxcCreateInstance s) = is_null (Dynload.dxcompiler_dll s)
      /\ is_null (Dynload.SDL_D3DCompile s) = is_null (Dynload.d3dcompiler_dll s)).
Proof.
  unfold Dynload.SDL_ShaderCross_Init, Dynload.init_dxcompiler, Dynload.init_d3dcompiler,
    Dynload.init_spirvcross.
  repeat match goal with
         | |- context [SDL_LoadObject h ?n] => destruct (SDL_LoadObject h n)
         | |- context [SDL_LoadFunction h ?d ?n] => destruct (SDL_LoadFunction h d n)
         | |- context [if ?c then _ else _] => destruct c
         end;
    simpl; repeat split; intros; subst; simpl in *; congruence.
Qed.

(** X22.  In the revision that loads its compilers at run time,
    [SDL_ShaderCross_GetHLSLShaderFormats] tests the library handles, and
    the compile functions call through [SDL_DxcCreateInstance] and
    [SDL_D3DCompile] without a test.  After [SDL_ShaderCross_Init], from
    whatever state, a reported DXIL (reported together with SPIR-V) means
    [SDL_DxcCreateInstance] is set and a reported DXBC means
    [SDL_D3DCompile] is set.  After an Init from the initial state, a
    format that is not reported is a function not to be called:
    [SDL_ShaderCross_CompileDXILFromHLSL],
    [SDL_ShaderCross_CompileSPIRVFromHLSL] and
    [SDL_ShaderCross_CompileDXBCFromHLSL] then call through a null pointer
    instead of returning [NULL]. *)
Theorem dynload_reported_hlsl_formats_are_callable (cfg : Dynload.build_config) (h : host)
  (lib : DynloadChain.libraries) :
  (forall s0,
     let s := fst (Dynload.SDL_ShaderCross_Init cfg h s0) in
     let formats := DynloadChain.SDL_ShaderCross_GetHLSLShaderFormats s in
     has_format formats SDL_GPU_SHADERFORMAT_SPIRV = has_format formats SDL_GPU_SHADERFORMAT_DXIL
     /\ has_format formats SDL_GPU_SHADERFORMAT_MSL = false
     /\ (has_format formats SDL_GPU_SHADERFORMAT_DXIL = true ->
         is_null (Dynload.SDL_DxcCreateInstance s) = false)
     /\ (has_format formats SDL_GPU_SHADERFORMAT_DXBC = true ->
         is_null (Dynload.SDL_D3DCompile s) = false))
  /\ (let s := fst (Dynload.SDL_ShaderCross_Init cfg h Dynload.reset_state) in
      let formats := DynloadChain.SDL_ShaderCross_GetHLSLShaderFormats s in
      forall hlslSource entrypoint shaderProfile,
        (has_format formats SDL_GPU_SHADERFORMAT_DXIL = false ->
         DynloadChain.SDL_ShaderCross_CompileDXILFromHLSL cfg s lib hlslSource entrypoint
           shaderProfile = ([], ReadsNull)
         /\ DynloadChain.SDL_ShaderCross_CompileSPIRVFromHLSL cfg s lib hlslSource entrypoint
              shaderProfile = ([], ReadsNull))
        /\ (has_format formats SDL_GPU_SHADERFORMAT_DXBC = false ->
            DynloadChain.SDL_ShaderCross_CompileDXBCFromHLSL s lib hlslSource entrypoint
              shaderProfile = ([], ReadsNull))).
Proof.
  split.
  - intros s0 s formats.
    destruct (dynload_hlsl_formats_by_handles s) as (Hs & Hi & Hb & Hm).
    destruct (dynload_init_keeps_handles_with_entry_points cfg h s0) as (Hx & Hd & _).
    fold s in Hx, Hd. fold formats in Hs, Hi, Hb, Hm.
    rewrite Hs, Hi, Hb, Hm. repeat split.
    + intros H. apply Hx. destruct (Dynload.dxcompiler_dll s); [reflexivity|discriminate H].
    + intros H. apply Hd. destruct (Dynload.d3dcompiler_dll s); [reflexivity|discriminate H].
  - intros s formats hlslSource entrypoint shaderProfile.
    destruct (dynload_hlsl_formats_by_handles s) as (_ & Hi & Hb & _).
    destruct (dynload_init_keeps_handles_with_entry_points cfg h Dynload.reset_state)
      as (_ & _ & Hr).
    destruct (Hr eq_refl) as [Hx Hd]. fold s in Hx, Hd. fold formats in Hi, Hb.
    rewrite Hi, Hb. split.
    + intros H.
      unfold DynloadChain.SDL_ShaderCross_CompileDXILFromHLSL,
        DynloadChain.SDL_ShaderCross_CompileSPIRVFromHLSL,
        DynloadChain.SDL_ShaderCross_INTERNAL_CompileUsingDXC.
      rewrite Hx. destruct (is_null (Dynload.dxcompiler_dll s)); [|discriminate H].
      split; reflexivity.
    + intros H.
      unfold DynloadChain.SDL_ShaderCross_CompileDXBCFromHLSL,
        DynloadChain.SDL_ShaderCross_INTERNAL_CompileDXBC.
      rewrite Hd. destruct (is_null (Dynload.d3dcompiler_dll s)); [|discriminate H].
      reflexivity.
Qed.

Lemma dynload_arguments_built (cfg : Dynload.build_config) (shaderProfile : string)
  (spirv : bool) :
  exists args argCount,
    DynloadChain.arguments cfg shaderProfile spirv = Some (args, argCount)
    /\ List.length args = 6%nat /\ 0 <= argCount <= 6
    /\ firstn (Z.to_nat argCount) args
       = map Some (DynloadChain.command_line cfg shaderProfile spirv)
    /\ skipn (Z.to_nat argCount) args = repeat None (6 - Z.to_nat argCount).
Proof.
  unfold DynloadChain.arguments, DynloadChain.command_line.
  destruct (String.eqb shaderProfile "ps_6_0") eqn:Hp;
    [apply String.eqb_eq in Hp; subst shaderProfile|];
    [|destruct (String.eqb shaderProfile "vs_6_0") eqn:Hv;
      [apply String.eqb_eq in Hv; subst shaderProfile|];
      [|destruct (String.eqb shaderProfile "cs_6_0") eqn:Hc;
        [apply String.eqb_eq in Hc; subst shaderProfile|]]];
    destruct spirv; destruct (Dynload.GAMING_XBOX cfg);
    do 2 eexists; (split; [reflexivity|]); repeat split;
    try reflexivity; try (simpl; lia); try (vm_compute; discriminate).
Qed.

(** X23.  The DXC driver of that revision.  Its argument array has six
    slots and no combination of profile, SPIR-V flag and platform writes
    outside it.  [Compile] is handed the caller's source with its
    terminator counted and the command line [-E main], [-T profile] only
    for [ps_6_0], [vs_6_0] and [cs_6_0], [-spirv] if asked for, the Xbox
    define on Xbox, every other slot [NULL]: the entry point the caller
    names never reaches DXC, and the whole run is the same for every entry
    point.  [*size] is written exactly when a buffer is returned, and the
    object blob is never released. *)
Theorem dynload_dxc_is_asked_for_main (cfg : Dynload.build_config)
  (st : Dynload.loader_state) (lib : DynloadChain.libraries)
  (hlslSource entrypoint shaderProfile : string) (spirv : bool) :
  let run := DynloadChain.SDL_ShaderCross_INTERNAL_CompileUsingDXC cfg st lib hlslSource
               entrypoint shaderProfile spirv in
  snd run <> WritesOutside
  /\ (forall Ptr Size args argCount,
        In (DynloadChain.CallCompile Ptr Size args argCount) (fst run) ->
        Ptr = hlslSource /\ Size = SDL_strlen hlslSource + 1
        /\ List.length args = 6%nat /\ 0 <= argCount <= 6
        /\ firstn (Z.to_nat argCount) args
           = map Some (DynloadChain.command_line cfg shaderProfile spirv)
        /\ skipn (Z.to_nat argCount) args = repeat None (6 - Z.to_nat argCount))
  /\ (forall other,
        DynloadChain.SDL_ShaderCross_INTERNAL_CompileUsingDXC cfg st lib hlslSource other
          shaderProfile spirv = run)
  /\ (forall b size, snd run = Returned (b, size) -> size = option_map size_of b)
  /\ ~ In (DynloadChain.Release DxcDriver.blob) (fst run).
Proof.
  intros run. subst run. unfold DynloadChain.SDL_ShaderCross_INTERNAL_CompileUsingDXC.
  destruct (dynload_arguments_built cfg shaderProfile spirv)
    as [args [argCount [-> [Hlen [Hbound [Hfirst Hrest]]]]]].
  destruct (is_null (Dynload.SDL_DxcCreateInstance st));
    [(split; [discriminate|]); (split; [intros ? ? ? ? []|]); (split; [reflexivity|]);
     (split; [intros b size H; discriminate H|intros []])|].
  destruct (negb (DxcDriver.DxcCreateInstance (DynloadChain.dxc lib)
                    DxcDriver.CLSID_DxcCompiler));
    [(split; [discriminate|]); (split; [intros ? ? ? ? []|]); (split; [reflexivity|]);
     (split; [intros b size H; inversion H; reflexivity|intros []])|].
  destruct (DxcDriver.Compile (DynloadChain.dxc lib) hlslSource (SDL_strlen hlslSource + 1)
              args argCount) as [result dxcResult].
  repeat match goal with
         | |- context [if ?c then _ else _] => destruct c
         | |- context [match ?x with _ => _ end] => destruct x
         end;
    (split; [discriminate|]);
    (split; [intros Ptr Size args' argCount' H; simpl in H;
             destruct H as [H|H];
             [inversion H; subst; repeat split; try assumption; apply Hbound
             |repeat (destruct H as [H|H]; [discriminate H|]); destruct H]|]);
    (split; [reflexivity|]);
    (split; [intros b' size H; simpl in H; try discriminate H; inversion H; reflexivity
            |simpl; intuition discriminate]).
Qed.

(** X24.  HLSL for a device, in that revision.
    [SDL_ShaderCross_CompileGraphicsShaderFromHLSL] and
    [SDL_ShaderCross_CompileComputePipelineFromHLSL] are one function.  It
    tries one compiler, chosen by the first of DXBC, DXIL and SPIR-V the
    device takes, and does not fall back: on a device that takes DXBC, DXC
    is never run, whatever [D3DCompile] answers, and on any other device
    [D3DCompile] is never called.  When the device is asked, it is asked
    once, in a format it takes, with the caller's struct in which only
    [code], [code_size] and [format] are replaced; whether a shader or a
    compute pipeline is created follows the first two letters of the
    profile, not the function that was called. *)
Theorem dynload_hlsl_tries_one_compiler (cfg : Dynload.build_config)
  (st : Dynload.loader_state) (lib : DynloadChain.libraries) (shader_formats : Z)
  (createInfo : DynloadChain.create_info) (hlslSource shaderProfile : string) :
  let run := DynloadChain.SDL_ShaderCross_CompileGraphicsShaderFromHLSL cfg st lib
               shader_formats createInfo hlslSource shaderProfile in
  DynloadChain.SDL_ShaderCross_CompileComputePipelineFromHLSL cfg st lib shader_formats
    createInfo hlslSource shaderProfile = run
  /\ (forall info, snd run = Returned (Some info) ->
        has_format shader_formats (DynloadChain.format info) = true
        /\ DynloadChain.entrypoint info = DynloadChain.entrypoint createInfo
        /\ DynloadChain.stage info = DynloadChain.stage createInfo
        /\ DynloadChain.rest info = DynloadChain.rest createInfo
        /\ DynloadChain.device_calls (fst run)
           = [ if DynloadChain.starts_cs shaderProfile
               then DynloadChain.SDL_CreateGPUComputePipeline (Some info)
               else DynloadChain.SDL_CreateGPUShader (Some info) ])
  /\ (snd run = Returned None -> DynloadChain.device_calls (fst run) = [])
  /\ (has_format shader_formats SDL_GPU_SHADERFORMAT_DXBC = true ->
      DynloadChain.dxc_calls (fst run) = [])
  /\ (has_format shader_formats SDL_GPU_SHADERFORMAT_DXBC = false ->
      DynloadChain.d3d_calls (fst run) = []).
Proof.
  intros run. subst run.
  unfold DynloadChain.SDL_ShaderCross_CompileGraphicsShaderFromHLSL,
    DynloadChain.SDL_ShaderCross_CompileComputePipelineFromHLSL,
    DynloadChain.SDL_ShaderCross_INTERNAL_CreateShaderFromHLSL,
    DynloadChain.SDL_ShaderCross_INTERNAL_CreateShaderFromDXBC,
    DynloadChain.SDL_ShaderCross_INTERNAL_CreateShaderFromDXC,
    DynloadChain.SDL_ShaderCross_CompileDXBCFromHLSL,
    DynloadChain.SDL_ShaderCross_INTERNAL_CompileDXBC,
    DynloadChain.SDL_ShaderCross_INTERNAL_CompileUsingDXC,
    DynloadChain.create_from, DynloadChain.then_, DynloadChain.call, DynloadChain.ret.
  split; [reflexivity|].
  destruct (has_format shader_formats SDL_GPU_SHADERFORMAT_DXBC) eqn:Hb;
    [|destruct (has_format shader_formats SDL_GPU_SHADERFORMAT_DXIL) eqn:Hi;
      [|destruct (has_format shader_formats SDL_GPU_SHADERFORMAT_SPIRV) eqn:Hs]];
    repeat match goal with
           | |- context [if ?c then _ else _] => destruct c
           | |- context [match ?x with _ => _ end] => destruct x
           end;
    simpl;
    (split; [intros info H; try discriminate H; inversion H; subst info; simpl;
             repeat split; assumption|]);
    (split; [intros H; try discriminate H; reflexivity|]);
    (split; intros H; try discriminate H; reflexivity).
Qed.

(** On a host with every library, a graphics call with a compute profile
    creates a compute pipeline from DXBC. *)
Lemma dynload_hlsl_tries_one_compiler_cs :
  let st := fst (Dynload.SDL_ShaderCross_Init dynload_build full_host Dynload.reset_state) in
  let run := DynloadChain.SDL_ShaderCross_CompileGraphicsShaderFromHLSL dynload_build st
               (sample_libraries e4_compute) SDL_GPU_SHADERFORMAT_DXBC sample_create_info
               "source" "cs_5_0" in
  let info := DynloadChain.with_code sample_create_info (Some four_bytes) 4
                SDL_GPU_SHADERFORMAT_DXBC in
  snd run = Returned (Some info)
  /\ DynloadChain.device_calls (fst run)
     = [DynloadChain.SDL_CreateGPUComputePipeline (Some info)].
Proof.
  intros st run info. split; [reflexivity|].
  destruct (dynload_hlsl_tries_one_compiler dynload_build st (sample_libraries e4_compute)
              SDL_GPU_SHADERFORMAT_DXBC sample_create_info "source" "cs_5_0")
    as (_ & H & _).
  exact (proj2 (proj2 (proj2 (proj2 (H info eq_refl))))).
Defined.









